(** * Crew rostering: rules evaluator, greedy assigner, constraint model,
      roster commit, conflict auditor and delay handler.

    A shallow embedding of [backend/app/rules/engine.py],
    [backend/app/rules/hard_soft_engine.py],
    [backend/app/optimizer/simple_opt.py],
    [backend/app/optimizer/or_tools_opt.py],
    [backend/app/optimizer/conflict_detector.py] and
    [backend/app/services/orchestrator.py].

    Conventions.
    - A Python [date] is its proleptic Gregorian ordinal ([date.toordinal()]),
      a [datetime] (naive, as stored by the [TIMESTAMP(timezone=False)]
      columns) is the number of microseconds since midnight of ordinal 0,
      and a [timedelta] is a number of microseconds; all three are [Z].
      Date arithmetic that can leave the range of Python's datetime (years
      1 to 9999) or timedelta returns a [Result] ([DateTime]).
    - A Python float is the rational it denotes ([Q]).  The crew score of
      the greedy loop, whose order decides who is assigned, is computed in
      binary64, each operation rounded to nearest, ties to even
      ([Float64]); KPI values and penalties, which are only reported, are
      read as exact rationals.
    - A Python dict keyed by crew id is a [gmap Z _] where only lookups,
      sums, minima and maxima are taken, and an insertion-ordered association
      list where the code iterates over it to produce ordered output.
    - A SQL table is the list of its rows. *)

From stdpp Require Import gmap strings list fin_maps.
From Stdlib Require Import ZArith QArith Qabs Lia Lqa Permutation.

#[local] Open Scope string_scope.
#[local] Open Scope Z_scope.

(** ** Dates, datetimes and timedeltas *)

Module Time.

Definition US_PER_SECOND : Z := 1000000.
Definition US_PER_MINUTE : Z := 60000000.
Definition US_PER_HOUR : Z := 3600000000.
Definition US_PER_DAY : Z := 86400000000.

(** [timedelta(hours=h)] and [timedelta(minutes=m)] for integral arguments. *)
Definition hours (h : Z) : Z := h * US_PER_HOUR.
Definition minutes (m : Z) : Z := m * US_PER_MINUTE.

(** [datetime.combine(d, time(h, m))]. *)
Definition at_time (d h m : Z) : Z := d * US_PER_DAY + h * US_PER_HOUR + m * US_PER_MINUTE.

(** [dt.date()] *)
Definition date_of (dt : Z) : Z := dt / US_PER_DAY.

(** [dt.hour] *)
Definition hour (dt : Z) : Z := (dt mod US_PER_DAY) / US_PER_HOUR.

(** [dt.replace(hour=h, minute=0, second=0, microsecond=0)] *)
Definition replace_hour (dt h : Z) : Z := date_of dt * US_PER_DAY + h * US_PER_HOUR.

(** [d.weekday()]: Monday is 0. *)
Definition weekday (d : Z) : Z := (d + 6) mod 7.

(** [d.strftime("%A")] in the C locale. *)
Definition weekday_name (d : Z) : string :=
  match weekday d with
  | 0 => "Monday" | 1 => "Tuesday" | 2 => "Wednesday" | 3 => "Thursday"
  | 4 => "Friday" | 5 => "Saturday" | _ => "Sunday"
  end.

(** A SQLite [DATETIME] column compared with a bound [date] parameter:
    the date is rendered as its midnight. *)
Definition midnight (d : Z) : Z := d * US_PER_DAY.

End Time.

(** ** Python truthiness of optional configuration values *)

(** [if x:] for an [Optional] number or timedelta: [None] and zero are falsy. *)
Definition truthy (o : option Z) : bool :=
  match o with
  | Some v => negb (v =? 0)
  | None => false
  end.

(** [sum(durations, timedelta())] *)
Definition sum_timedelta (l : list Z) : Z := fold_left Z.add l 0.

(** ** rules/engine.py *)

Module RulesEngine.

Record t := mk {
  max_duty_per_day : Z;
  min_rest_after_duty : Z;
  max_fdp : Z;
  max_duty_per_week : option Z;
  max_duty_per_month : option Z;
  max_consecutive_duty_days : option Z;
  min_rest_between_duties : option Z;
  max_night_duties_per_week : option Z;
  min_rest_after_night_duty : option Z;
  max_extended_fdp : option Z;
  max_flight_time_per_day : option Z;
  max_flight_time_per_week : option Z;
  max_flight_time_per_month : option Z
}.

(** [RulesEngine()] with the constructor's default arguments. *)
Definition default : t :=
  mk (Time.hours 10) (Time.hours 12) (Time.hours 13)
     None None None None None None None None None None.

Definition duty_duration_ok (self : t) (start end_ : Z) : bool :=
  let duty_duration := end_ - start in
  if max_duty_per_day self <? duty_duration then false
  else if max_fdp self <? duty_duration then false
  else true.

Definition rest_ok (self : t) (last_end : option Z) (new_start : Z) : bool :=
  match last_end with
  | None => true
  | Some le =>
      let rest_duration := new_start - le in
      match min_rest_between_duties self with
      | Some m =>
          if negb (m =? 0) then m <=? rest_duration
          else min_rest_after_duty self <=? rest_duration
      | None => min_rest_after_duty self <=? rest_duration
      end
  end.

Definition weekly_duty_ok (self : t) (weekly_duties : list Z) : bool :=
  if negb (truthy (max_duty_per_week self)) then true
  else match max_duty_per_week self with
       | Some m => sum_timedelta weekly_duties <=? m
       | None => true
       end.

Definition monthly_duty_ok (self : t) (monthly_duties : list Z) : bool :=
  if negb (truthy (max_duty_per_month self)) then true
  else match max_duty_per_month self with
       | Some m => sum_timedelta monthly_duties <=? m
       | None => true
       end.

Definition consecutive_duty_days_ok (self : t) (consecutive_days : Z) : bool :=
  if negb (truthy (max_consecutive_duty_days self)) then true
  else match max_consecutive_duty_days self with
       | Some m => consecutive_days <=? m
       | None => true
       end.

Definition night_duty_ok (self : t) (weekly_night_duties : Z) : bool :=
  if negb (truthy (max_night_duties_per_week self)) then true
  else match max_night_duties_per_week self with
       | Some m => weekly_night_duties <=? m
       | None => true
       end.

Definition is_night_duty (self : t) (start end_ : Z) : bool :=
  let night_start := Time.replace_hour start 22 in
  let night_end := Time.replace_hour start 6 in
  if (22 <=? Time.hour start) || (Time.hour start <? 6) then true
  else if (22 <=? Time.hour end_) || (Time.hour end_ <? 6) then true
  else if (start <? night_start) && (night_end <? end_) && (night_start <? night_end) then true
  else false.

End RulesEngine.

(** ** storage/models.py *)

Module Crew.
Record t := mk {
  crew_id : Z;
  emp_code : string;
  name : string;
  rank : string;
  base_iata : string;
  status : string
}.
End Crew.

Module CrewQualification.
Record t := mk {
  crew_id : Z;
  aircraft_code : string;
  qualified_on : Z;
  expires_on : option Z
}.
End CrewQualification.

Module CrewPreference.
Record t := mk {
  crew_id : Z;
  preference_type : string;
  preference_value : string;
  weight : Z;
  valid_from : option Z;
  valid_to : option Z
}.
End CrewPreference.

Module CrewAvailability.
Record t := mk {
  crew_id : Z;
  availability_type : string;
  reason : option string;
  unavailable_from : Z;
  unavailable_to : Z;
  status : string;
  requested_on : Z;
  approved_on : option Z;
  approved_by : option string
}.
End CrewAvailability.

Module DisruptionRecord.
Record t := mk {
  disruption_id : Z;
  flight_no : option string;
  disruption_type : string;
  disruption_date : Z;
  impact_duration : option Z;
  crew_id : option Z;
  reason : option string;
  resolution : option string;
  recorded_at : Z;
  resolved_at : option Z
}.
End DisruptionRecord.

Module Flight.
Record t := mk {
  flight_id : Z;
  flight_no : string;
  flight_date : Z;
  dep_iata : string;
  arr_iata : string;
  sched_dep_utc : Z;
  sched_arr_utc : Z;
  aircraft_code : string
}.
End Flight.

Module DutyPeriod.
Record t := mk {
  duty_id : Z;
  crew_id : Z;
  duty_start_utc : Z;
  duty_end_utc : Z;
  base_iata : string
}.
End DutyPeriod.

Module DutyFlight.
Record t := mk {
  duty_id : Z;
  flight_id : Z;
  leg_seq : Z
}.
End DutyFlight.

(** The tables the core reads and writes, each as the list of its rows. *)
Module Db.
Record t := mk {
  crew : list Crew.t;
  crew_qualification : list CrewQualification.t;
  crew_preference : list CrewPreference.t;
  crew_availability : list CrewAvailability.t;
  disruption_record : list DisruptionRecord.t;
  flight : list Flight.t;
  duty_period : list DutyPeriod.t;
  duty_flight : list DutyFlight.t
}.

Definition empty : t := mk [] [] [] [] [] [] [] [].

Definition with_duty (db : t) (dp : list DutyPeriod.t) (df : list DutyFlight.t) : t :=
  mk (crew db) (crew_qualification db) (crew_preference db) (crew_availability db)
     (disruption_record db) (flight db) dp df.

Definition with_availability (db : t) (av : list CrewAvailability.t) : t :=
mk (crew db) (crew_qualification db) (crew_preference db) av
   (disruption_record db) (flight db) (duty_period db) (duty_flight db).

Definition with_disruption (db : t) (dr : list DisruptionRecord.t) : t :=
  mk (crew db) (crew_qualification db) (crew_preference db) (crew_availability db)
     dr (flight db) (duty_period db) (duty_flight db).
End Db.

(** ** Stable sorting: [ORDER BY] and Python's [list.sort(key=...)] *)

Section StableSort.
Context {A K : Type} (leb : K -> K -> bool) (key : A -> K).

Fixpoint insert_sorted (x : A) (l : list A) : list A :=
  match l with
  | [] => [x]
  | y :: ys => if leb (key x) (key y) then x :: y :: ys else y :: insert_sorted x ys
  end.

Fixpoint sort_by (l : list A) : list A :=
  match l with
  | [] => []
  | x :: xs => insert_sorted x (sort_by xs)
  end.
End StableSort.

(** [.order_by(col.desc()).first()]: the first row with the greatest key. *)
Fixpoint first_max {A : Type} (key : A -> Z) (l : list A) : option A :=
  match l with
  | [] => None
  | x :: xs =>
      match first_max key xs with
      | Some y => if key x <? key y then Some y else Some x
      | None => Some x
      end
  end.

(** [max(values)] and [min(values)] on a non-empty list; the callers guard
    the empty case. *)
Definition py_max (l : list Z) : Z :=
  match l with
  | [] => 0
  | x :: xs => fold_left Z.max xs x
  end.

Definition py_min (l : list Z) : Z :=
  match l with
  | [] => 0
  | x :: xs => fold_left Z.min xs x
  end.

Definition py_sum (l : list Z) : Z := fold_left Z.add l 0.

(** [d.values()] of a dict keyed by crew id. *)
Definition dict_values {V : Type} (m : gmap Z V) : list V := (map_to_list m).*2.

(** ** The database session

    A SQLAlchemy session: [pending] is what queries of the session see
    (autoflush), [committed] is what other connections see, and [commits]
    records every committed snapshot, newest first. *)

Module Session.
Record t := mk {
  committed : Db.t;
  pending : Db.t;
  commits : list Db.t
}.

Definition of_db (db : Db.t) : t := mk db db [].

(** [db.commit()] *)
Definition commit (s : t) : t := mk (pending s) (pending s) (pending s :: commits s).

Definition set_pending (s : t) (db : Db.t) : t := mk (committed s) db (commits s).
End Session.

(** ** Results of code that may raise *)

Inductive exn := AttributeError | OverflowError.

Inductive Result (A : Type) :=
| Ok (a : A)
| Raise (e : exn).
Arguments Ok {A} a.
Arguments Raise {A} e.

Definition bind {A B : Type} (r : Result A) (k : A -> Result B) : Result B :=
  match r with
  | Ok a => k a
  | Raise e => Raise e
  end.

(** [obj.attr] where [obj] comes from [.first()] and may be [None]. *)
Definition attr_of {A B : Type} (o : option A) (f : A -> B) : Result B :=
  match o with
  | Some a => Ok (f a)
  | None => Raise AttributeError
  end.

(** ** The range of [datetime] and [timedelta] *)

Module DateTime.

(** [datetime.min] is 0001-01-01 00:00:00 (ordinal day 1) and
    [datetime.max] is 9999-12-31 23:59:59.999999 (ordinal day 3652059). *)
Definition min : Z := 1 * Time.US_PER_DAY.
Definition max : Z := 3652060 * Time.US_PER_DAY - 1.

Definition is_datetime (dt : Z) : Prop := min <= dt <= max.

(** A [timedelta] is normalised to days, seconds and microseconds, and
    its day count has magnitude at most 999999999. *)
Definition is_timedelta (delta : Z) : Prop :=
  -999999999 <= delta / Time.US_PER_DAY <= 999999999.

(** [timedelta(minutes=m)] for an integral [m]: raises [OverflowError]
    outside the range. *)
Definition timedelta_minutes (m : Z) : Result Z :=
  let delta := Time.minutes m in
  if bool_decide (is_timedelta delta) then Ok delta else Raise OverflowError.

(** [dt + delta]: raises [OverflowError] when the sum is no datetime. *)
Definition add (dt delta : Z) : Result Z :=
  if bool_decide (is_datetime (dt + delta)) then Ok (dt + delta) else Raise OverflowError.

End DateTime.

(** The roster entries both strategies return: a dict with the keys below;
    [note] is absent ([None]) on an assigned entry. *)
Module Assignment.
Record t := mk {
  crew_id : option Z;
  crew_name : option string;
  flight_id : Z;
  duty_start_utc : Z;
  duty_end_utc : Z;
  note : option string
}.

(** [a.get("crew_id")] used as a condition: [None] and [0] are falsy. *)
Definition has_crew (a : t) : bool := truthy (crew_id a).
End Assignment.

Module Kpis.
Record t := mk {
  flights_total : Z;
  flights_assigned : Z;
  assignment_rate : Q;
  avg_duty_per_crew : Q;
  max_duty_per_crew : Z;
  min_duty_per_crew : Z;
  duty_distribution_range : Z;
  compliance_rate : Q;
  avg_preference_score : Q;
  fairness_score : Q
}.
End Kpis.

(** [a / b] of two Python ints. *)
Definition true_div (a b : Z) : Q := (inject_Z a / inject_Z b)%Q.

(** The KPI block that closes both [generate_roster] and [_process_solution],
    textually the same in the two files. *)
Definition compute_kpis (total assigned_count : Z) (crew_duty_count : gmap Z Z)
    (total_pref_score : Z) : Kpis.t :=
  let values := dict_values crew_duty_count in
  let nonempty := negb (bool_decide (crew_duty_count = ∅)) in
  let avg_duty_count := if nonempty then true_div (py_sum values) (Z.of_nat (size crew_duty_count)) else 0%Q in
  let max_duty_count := if nonempty then py_max values else 0 in
  let min_duty_count := if nonempty then py_min values else 0 in
  let avg_pref_score := if negb (assigned_count =? 0) then true_div total_pref_score assigned_count else 0%Q in
  Kpis.mk total assigned_count
    (if negb (total =? 0) then true_div assigned_count total else 0%Q)
    avg_duty_count max_duty_count min_duty_count
    (max_duty_count - min_duty_count)
    1%Q
    avg_pref_score
    (if negb (max_duty_count =? 0)
     then (1 - true_div (max_duty_count - min_duty_count) (max_duty_count + 1))%Q
     else 1%Q).

(** ** optimizer/simple_opt.py *)

(** ** Binary64 arithmetic *)

(** A finite Python float is the rational it denotes.  The integers that
    reach these operations are 64-bit database values and counts of
    flights, far inside the binary64 range, so no operation overflows to
    an infinity. *)
Module Float64.

(** [floor (log2 (a / d))] for positive [a] and [d]. *)
Definition exponent (a d : Z) : Z :=
  let e := Z.log2 a - Z.log2 d in
  if (if 0 <=? e then d * 2 ^ e <=? a else d <=? a * 2 ^ (- e)) then e else e - 1.

(** [num / den] rounded to the nearest integer, ties to the even one. *)
Definition nearest_even (num den : Z) : Z :=
  let f := num / den in
  let r := num mod den in
  match 2 * r ?= den with
  | Lt => f
  | Gt => f + 1
  | Eq => if Z.even f then f else f + 1
  end.

(** The binary64 value nearest to [q], ties to even: 53 significant bits,
    and multiples of [2 ^ -1074] below [2 ^ -1022]. *)
Definition round (q : Q) : Q :=
  let a := Z.abs (Qnum q) in
  let d := Z.pos (Qden q) in
  if a =? 0 then 0%Q
  else
    let e := exponent a d in
    let u := Z.max e (-1022) - 52 in
    let m := if 0 <=? u then nearest_even a (d * 2 ^ u) else nearest_even (a * 2 ^ (- u)) d in
    let s := Z.sgn (Qnum q) in
    if 0 <=? u then inject_Z (s * m * 2 ^ u) else Qmake (s * m) (Z.to_pos (2 ^ (- u))).

(** [float(n)] *)
Definition of_int (n : Z) : Q := round (inject_Z n).

Definition add (x y : Q) : Q := round (x + y).
Definition sub (x y : Q) : Q := round (x - y).
Definition mul (x y : Q) : Q := round (x * y).

(** [a / b] of two ints: the quotient, correctly rounded. *)
Definition int_true_div (a b : Z) : Q := round (inject_Z a / inject_Z b).

(** A float literal of the source text. *)
Definition literal (c : Q) : Q := round c.

End Float64.

Module SimpleOpt.

Definition pref_contribution (flight_date : Z) (dep_iata arr_iata flight_no : string)
    (score : Z) (pref : CrewPreference.t) : Z :=
  let ty := CrewPreference.preference_type pref in
  let v := CrewPreference.preference_value pref in
  let w := CrewPreference.weight pref in
  if ((ty =? "day_off") && (v =? Time.weekday_name flight_date))%string then score - w * 10
  else if ((ty =? "base") && (v =? dep_iata))%string then score + w * 2
  else if ((ty =? "destination") && (v =? arr_iata))%string then score + w
  else if ((ty =? "flight_no") && (v =? flight_no))%string then score + w * 3
  else if (ty =? "weekend_off")%string && (5 <=? Time.weekday flight_date) then score - w * 5
  else score.

Definition calculate_preference_score (crew_id flight_date : Z)
    (dep_iata arr_iata flight_no : string) (pref_map : gmap Z (list CrewPreference.t)) : Z :=
  let prefs := default [] (pref_map !! crew_id) in
  fold_left (pref_contribution flight_date dep_iata arr_iata flight_no) prefs 0.

(** The score is a float: every int operand is converted with [float()],
    every literal is the binary64 value nearest to it, and every operation
    rounds its exact result.  [night_duties * 1] is a product of ints.
    [avg_duty_count] is the int 0 or a float. *)
Definition calculate_multi_objective_score (crew_id : Z) (flight : Flight.t)
    (pref_map : gmap Z (list CrewPreference.t))
    (crew_duty_count crew_consecutive_days crew_night_duties : gmap Z Z)
    (avg_duty_count : Q) : Q :=
  let pref_score :=
    calculate_preference_score crew_id (Flight.flight_date flight) (Flight.dep_iata flight)
      (Flight.arr_iata flight) (Flight.flight_no flight) pref_map in
  let duty_count := default 0 (crew_duty_count !! crew_id) in
  let consecutive_days := default 0 (crew_consecutive_days !! crew_id) in
  let night_duties := default 0 (crew_night_duties !! crew_id) in
  let fairness_score := 0%Q in
  let fairness_score :=
    if negb (Qle_bool avg_duty_count 0)
    then Float64.sub fairness_score
           (Float64.mul (Qabs (Float64.sub (Float64.of_int duty_count) avg_duty_count))
              (Float64.of_int 2))
    else fairness_score in
  let fairness_score :=
    Float64.sub fairness_score
      (Float64.mul (Float64.of_int consecutive_days) (Float64.literal (3 # 2))) in
  let fairness_score := Float64.sub fairness_score (Float64.of_int (night_duties * 1)) in
  let efficiency_score := Float64.mul (Float64.of_int duty_count) (Float64.literal (1 # 2)) in
  Float64.add
    (Float64.add (Float64.mul (Float64.of_int pref_score) (Float64.literal (1 # 2)))
       (Float64.mul fairness_score (Float64.literal (3 # 10))))
    (Float64.mul efficiency_score (Float64.literal (2 # 10))).

Definition is_crew_qualified_for_flight (crew_id : Z) (flight : Flight.t)
    (qual_map : gmap Z (gmap string CrewQualification.t)) (flight_date : Z) : bool :=
  let crew_quals := default ∅ (qual_map !! crew_id) in
  match crew_quals !! Flight.aircraft_code flight with
  | None => false
  | Some qual =>
      match CrewQualification.expires_on qual with
      | Some e => if e <? flight_date then false else true
      | None => true
      end
  end.

Definition covers (flight_date : Z) (record : CrewAvailability.t) : bool :=
  (CrewAvailability.unavailable_from record <=? flight_date)
  && (flight_date <=? CrewAvailability.unavailable_to record).

Definition is_crew_available (crew_id flight_date : Z)
    (unavailable_crew_map : gmap Z (list CrewAvailability.t)) : bool :=
  match unavailable_crew_map !! crew_id with
  | None => true
  | Some records => negb (existsb (covers flight_date) records)
  end.

(** The queries at the head of [generate_roster]. *)
Definition in_period (period_start period_end : Z) (f : Flight.t) : bool :=
  (period_start <=? Flight.flight_date f) && (Flight.flight_date f <=? period_end).

Definition query_flights (db : Db.t) (period_start period_end : Z) : list Flight.t :=
  sort_by Z.leb Flight.sched_dep_utc (filter (fun f => in_period period_start period_end f = true) (Db.flight db)).

Definition query_active_crew (db : Db.t) : list Crew.t :=
  filter (fun c => Crew.status c = "Active") (Db.crew db).

Definition query_unavailable_crew (db : Db.t) (period_start period_end : Z)
    : list CrewAvailability.t :=
  filter (fun r =>
            CrewAvailability.unavailable_from r <= period_end
            ∧ period_start <= CrewAvailability.unavailable_to r
            ∧ CrewAvailability.status r = "approved")
         (Db.crew_availability db).

Definition build_unavailable_crew_map (unavailable_crew : list CrewAvailability.t)
    : gmap Z (list CrewAvailability.t) :=
  fold_left (fun m record =>
               let k := CrewAvailability.crew_id record in
               <[k := (default [] (m !! k) ++ [record])%list]> m)
            unavailable_crew ∅.

Definition build_qualification_map (today : Z) (quals : list CrewQualification.t)
    : gmap Z (gmap string CrewQualification.t) :=
  fold_left (fun m q =>
               match CrewQualification.expires_on q with
               | Some e =>
                   if today <=? e
                   then <[CrewQualification.crew_id q :=
                            <[CrewQualification.aircraft_code q := q]>
                              (default ∅ (m !! CrewQualification.crew_id q))]> m
                   else m
               | None =>
                   <[CrewQualification.crew_id q :=
                       <[CrewQualification.aircraft_code q := q]>
                         (default ∅ (m !! CrewQualification.crew_id q))]> m
               end)
            quals ∅.

Definition currently_valid (today : Z) (p : CrewPreference.t) : bool :=
  match CrewPreference.valid_from p with Some d => d <=? today | None => true end
  && match CrewPreference.valid_to p with Some d => today <=? d | None => true end.

Definition append_preference (m : gmap Z (list CrewPreference.t)) (p : CrewPreference.t)
    : gmap Z (list CrewPreference.t) :=
  let k := CrewPreference.crew_id p in
  <[k := (default [] (m !! k) ++ [p])%list]> m.

Definition build_preference_map (today : Z) (prefs : list CrewPreference.t)
    : gmap Z (list CrewPreference.t) :=
  fold_left (fun m p => if currently_valid today p then append_preference m p else m)
            prefs ∅.

(** The running per-crew aggregates of the loop and the roster built so far. *)
Record State := mkState {
  crew_duty_history : gmap Z (list Z);
  crew_last_duty_end : gmap Z Z;
  crew_duty_count : gmap Z Z;
  crew_weekly_duties : gmap Z (list Z);
  crew_consecutive_days : gmap Z Z;
  crew_night_duties : gmap Z Z;
  assignments : list Assignment.t
}.

Definition init : State := mkState ∅ ∅ ∅ ∅ ∅ ∅ [].

(** What the loop reads and never writes. *)
Record Env := mkEnv {
  rules : RulesEngine.t;
  crew : list Crew.t;
  qual_map : gmap Z (gmap string CrewQualification.t);
  pref_map : gmap Z (list CrewPreference.t);
  unavailable_crew_map : gmap Z (list CrewAvailability.t)
}.

(** The entries of [eligible_crew] and [scored_crew]. *)
Record Candidate := mkCandidate {
  cand_crew : Crew.t;
  multi_score : Q;
  pref_score : Z;
  duty_count : Z;
  consecutive_count : Z;
  night_count : Z
}.

(** The chain of [continue] guards of the inner loop. *)
Definition eligible (env : Env) (st : State) (f : Flight.t) (c : Crew.t) : bool :=
  let start := Flight.sched_dep_utc f in
  let end_ := Flight.sched_arr_utc f in
  let cid := Crew.crew_id c in
  if negb (is_crew_qualified_for_flight cid f (qual_map env) (Flight.flight_date f)) then false
  else if negb (is_crew_available cid (Flight.flight_date f) (unavailable_crew_map env)) then false
  else if negb (RulesEngine.duty_duration_ok (rules env) start end_) then false
  else if negb (RulesEngine.rest_ok (rules env) (crew_last_duty_end st !! cid) start) then false
  else if negb (RulesEngine.weekly_duty_ok (rules env) (default [] (crew_weekly_duties st !! cid))) then false
  else if negb (RulesEngine.consecutive_duty_days_ok (rules env)
                  (default 0 (crew_consecutive_days st !! cid))) then false
  else if RulesEngine.is_night_duty (rules env) start end_
          && negb (RulesEngine.night_duty_ok (rules env) (default 0 (crew_night_duties st !! cid)))
       then false
  else true.

Definition avg_duty_count_of (crew_duty_count : gmap Z Z) : Q :=
  if negb (bool_decide (crew_duty_count = ∅))
  then Float64.int_true_div (py_sum (dict_values crew_duty_count))
         (Z.of_nat (size crew_duty_count))
  else 0%Q.

Definition score_candidate (env : Env) (st : State) (f : Flight.t) (c : Crew.t) : Candidate :=
  let cid := Crew.crew_id c in
  mkCandidate c
    (calculate_multi_objective_score cid f (pref_map env) (crew_duty_count st)
       (crew_consecutive_days st) (crew_night_duties st) (avg_duty_count_of (crew_duty_count st)))
    (calculate_preference_score cid (Flight.flight_date f) (Flight.dep_iata f)
       (Flight.arr_iata f) (Flight.flight_no f) (pref_map env))
    (default 0 (crew_duty_count st !! cid))
    (default 0 (crew_consecutive_days st !! cid))
    (default 0 (crew_night_duties st !! cid)).

(** [scored_crew] after [scored_crew.sort(key=lambda x: -x[1])]. *)
Definition scored_crew (env : Env) (st : State) (f : Flight.t) : list Candidate :=
  sort_by Qle_bool (fun x => (- multi_score x)%Q)
    (map (score_candidate env st f) (filter (fun c => eligible env st f c = true) (crew env))).

Definition unassigned (f : Flight.t) : Assignment.t :=
  Assignment.mk None None (Flight.flight_id f) (Flight.sched_dep_utc f)
    (Flight.sched_arr_utc f) (Some "UNASSIGNED").

(** The "Update crew history" block, in the order the statements run:
    [crew_last_duty_end] is written first and read back afterwards. *)
Definition update_history (env : Env) (st : State) (f : Flight.t) (best : Candidate) : State :=
  let start := Flight.sched_dep_utc f in
  let end_ := Flight.sched_arr_utc f in
  let duty_duration := end_ - start in
  let c := cand_crew best in
  let cid := Crew.crew_id c in
  let assignments' :=
    (assignments st ++
       [Assignment.mk (Some cid) (Some (Crew.name c)) (Flight.flight_id f) start end_ None])%list in
  let last' := <[cid := end_]> (crew_last_duty_end st) in
  let history' :=
    <[cid := (default [] (crew_duty_history st !! cid) ++ [duty_duration])%list]>
      (crew_duty_history st) in
  let count' := <[cid := default 0 (crew_duty_count st !! cid) + 1]> (crew_duty_count st) in
  let weekly' :=
    <[cid := (default [] (crew_weekly_duties st !! cid) ++ [duty_duration])%list]>
      (crew_weekly_duties st) in
  let last_duty_end := last' !! cid in
  let consecutive' :=
    match last_duty_end with
    | Some l =>
        if Time.date_of start - Time.date_of l =? 1
        then <[cid := consecutive_count best + 1]> (crew_consecutive_days st)
        else <[cid := 1]> (crew_consecutive_days st)
    | None => <[cid := 1]> (crew_consecutive_days st)
    end in
  let night' :=
    if RulesEngine.is_night_duty (rules env) start end_
    then <[cid := night_count best + 1]> (crew_night_duties st)
    else crew_night_duties st in
  mkState history' last' count' weekly' consecutive' night' assignments'.

(** One iteration of [for f in flights]. *)
Definition assign_flight (env : Env) (st : State) (f : Flight.t) : State :=
  match scored_crew env st f with
  | best :: _ => update_history env st f best
  | [] =>
      mkState (crew_duty_history st) (crew_last_duty_end st) (crew_duty_count st)
        (crew_weekly_duties st) (crew_consecutive_days st) (crew_night_duties st)
        (assignments st ++ [unassigned f])%list
  end.

Definition make_env (today : Z) (db : Db.t) (period_start period_end : Z)
    (rules : RulesEngine.t) : Env :=
  mkEnv rules
    (query_active_crew db)
    (build_qualification_map today (Db.crew_qualification db))
    (build_preference_map today (Db.crew_preference db))
    (build_unavailable_crew_map (query_unavailable_crew db period_start period_end)).

(** The state when the loop over the period's flights ends. *)
Definition run_loop (today : Z) (db : Db.t) (period_start period_end : Z)
    (rules : RulesEngine.t) : State :=
  fold_left (assign_flight (make_env today db period_start period_end rules))
    (query_flights db period_start period_end) init.

(** [db.query(Flight).filter(Flight.flight_id == fid).first()] *)
Definition flight_by_id (db : Db.t) (fid : Z) : option Flight.t :=
  head (filter (fun f => Flight.flight_id f = fid) (Db.flight db)).

(** [total_pref_score]: each term reads four attributes of a [.first()]. *)
Fixpoint total_pref_score (db : Db.t) (pref_map : gmap Z (list CrewPreference.t))
    (l : list Assignment.t) : Result Z :=
  match l with
  | [] => Ok 0
  | a :: rest =>
      if Assignment.has_crew a
      then
        let fl := flight_by_id db (Assignment.flight_id a) in
        bind (attr_of fl Flight.flight_date) (fun fd =>
        bind (attr_of fl Flight.dep_iata) (fun dep =>
        bind (attr_of fl Flight.arr_iata) (fun arr =>
        bind (attr_of fl Flight.flight_no) (fun fno =>
        bind (total_pref_score db pref_map rest) (fun r =>
        Ok (calculate_preference_score (default 0 (Assignment.crew_id a)) fd dep arr fno pref_map
            + r))))))
      else total_pref_score db pref_map rest
  end.

(** [generate_roster(db, period_start, period_end, rules)]; [today] is
    [date.today()]. *)
Definition generate_roster (today : Z) (db : Db.t) (period_start period_end : Z)
    (rules : RulesEngine.t) : Result (list Assignment.t * Kpis.t) :=
  let env := make_env today db period_start period_end rules in
  let flights := query_flights db period_start period_end in
  let st := run_loop today db period_start period_end rules in
  let total := Z.of_nat (length flights) in
  let assigned_count := Z.of_nat (length (filter (fun a => Assignment.has_crew a = true) (assignments st))) in
  bind (total_pref_score db (pref_map env) (assignments st)) (fun total_pref =>
  Ok (assignments st, compute_kpis total assigned_count (crew_duty_count st) total_pref)).

(** [record_disruption]; [now] is [datetime.utcnow()]. *)
Definition record_disruption (now : Z) (s : Session.t) (flight_no : option string)
    (disruption_type : string) (disruption_date : Z) (impact_duration crew_id : option Z)
    (reason resolution : option string) : Session.t :=
  let db := Session.pending s in
  let last_record := first_max DisruptionRecord.disruption_id (Db.disruption_record db) in
  let next_id :=
    match last_record with
    | Some r => DisruptionRecord.disruption_id r + 1
    | None => 1
    end in
  let disruption :=
    DisruptionRecord.mk next_id flight_no disruption_type disruption_date impact_duration
      crew_id reason resolution now None in
  Session.commit
    (Session.set_pending s (Db.with_disruption db (Db.disruption_record db ++ [disruption])%list)).

(** The dict [propose_patch_for_delay] returns: either the single key
    [error], or the five keys of a patch.  The two timestamps are returned
    by the source in ISO-8601 text ([isoformat()]); the model keeps the
    datetime they render. *)
Inductive DelayPatch :=
| DelayError (error : string)
| DelayShift (flight_id : Z) (flight_no : string)
    (new_sched_dep_utc new_sched_arr_utc : Z) (feasible : bool).

(** [.filter(flight_no == ...).order_by(flight_date.desc()).first()] *)
Definition latest_flight (db : Db.t) (flight_no : string) : option Flight.t :=
  first_max Flight.flight_date (filter (fun f => Flight.flight_no f = flight_no) (Db.flight db)).

(** The disruption is recorded and committed before the new times are
    computed: an [OverflowError] of the date arithmetic leaves the record
    in the database. *)
Definition propose_patch_for_delay (now : Z) (s : Session.t) (flight_no : string)
    (delay_minutes : Z) (rules : RulesEngine.t) : Session.t * Result DelayPatch :=
  match latest_flight (Session.pending s) flight_no with
  | None => (s, Ok (DelayError "flight_not_found"))
  | Some f =>
      let s' :=
        record_disruption now s (Some flight_no) "delay" (Flight.flight_date f)
          (Some delay_minutes) None (Some "Flight delayed") None in
      (s',
       bind (DateTime.timedelta_minutes delay_minutes) (fun delta =>
       bind (DateTime.add (Flight.sched_dep_utc f) delta) (fun new_dep =>
       bind (DateTime.timedelta_minutes delay_minutes) (fun delta =>
       bind (DateTime.add (Flight.sched_arr_utc f) delta) (fun new_arr =>
       let feasible := RulesEngine.duty_duration_ok rules new_dep new_arr in
       Ok (DelayShift (Flight.flight_id f) (Flight.flight_no f) new_dep new_arr
             feasible))))))
  end.

End SimpleOpt.

(** ** Insertion-ordered dicts

    A Python dict whose iteration order reaches the output: an association
    list in order of first insertion. *)

Section OrderedDict.
Context {K V : Type} `{EqDecision K}.

Fixpoint od_get (k : K) (d : list (K * V)) : option V :=
  match d with
  | [] => None
  | (k', v) :: rest => if decide (k = k') then Some v else od_get k rest
  end.

Fixpoint od_set (k : K) (v : V) (d : list (K * V)) : list (K * V) :=
  match d with
  | [] => [(k, v)]
  | (k', v') :: rest =>
      if decide (k = k') then (k, v) :: rest else (k', v') :: od_set k v rest
  end.
End OrderedDict.

(** [d.setdefault(k, []).append(x)], also written
    [if k not in d: d[k] = []] followed by [d[k].append(x)]. *)
Definition od_append {K V : Type} `{EqDecision K} (k : K) (x : V) (d : list (K * list V))
    : list (K * list V) :=
  od_set k (default [] (od_get k d) ++ [x])%list d.

(** ** The part of [ortools.sat.python.cp_model] the optimizer uses

    A variable is identified with the key [(flight_id, crew_id)] under which
    [assignment_vars] stores it. *)

Module CpModel.

Inductive status := UNKNOWN | MODEL_INVALID | FEASIBLE | INFEASIBLE | OPTIMAL.

Definition var : Type := Z * Z.

Inductive constraint :=
| EqZero (x : var)                   (* [model.Add(x == 0)] *)
| SumEq (xs : list var) (k : Z)      (* [model.Add(sum(xs) == k)] *)
| SumLe (xs : list var) (k : Z).     (* [model.Add(sum(xs) <= k)] *)

(** [cp_model.CpModel()] after some [Add] and [Maximize] calls. *)
Record t := mk {
  constraints : list constraint;
  objective : option (list (Z * var))
}.

Definition empty : t := mk [] None.

Definition add (m : t) (cs : list constraint) : t :=
  mk (constraints m ++ cs)%list (objective m).

Definition maximize (m : t) (terms : list (Z * var)) : t :=
  mk (constraints m) (Some terms).

(** [cp_model.CpSolver()]: the one solver parameter that bounds the search
    in wall-clock time, [parameters.max_time_in_seconds]; [None] when the
    program never sets it (the library then imposes no limit). *)
Record solver := mkSolver {
  max_time_in_seconds : option Q
}.

Definition CpSolver : solver := mkSolver None.

(** The values of the Boolean variables in a solution. *)
Definition valuation : Type := var -> bool.

(** [solver.Value(x)] *)
Definition Value (v : valuation) (x : var) : Z := if v x then 1 else 0.

Definition holds (v : valuation) (c : constraint) : bool :=
  match c with
  | EqZero x => Value v x =? 0
  | SumEq xs k => py_sum (map (Value v) xs) =? k
  | SumLe xs k => py_sum (map (Value v) xs) <=? k
  end.

Definition satisfies (v : valuation) (m : t) : bool := forallb (holds v) (constraints m).

Definition found (st : status) : bool :=
  match st with
  | OPTIMAL | FEASIBLE => true
  | _ => false
  end.

End CpModel.

(** ** optimizer/or_tools_opt.py *)

Module OrToolsOpt.

Record CrewRosteringOptimizer := mk {
  db : Db.t;
  rules : RulesEngine.t;
  model : CpModel.t;
  solver : CpModel.solver
}.

(** [__init__] *)
Definition init (db : Db.t) (rules : RulesEngine.t) : CrewRosteringOptimizer :=
  mk db rules CpModel.empty CpModel.CpSolver.

Definition _get_flights (self : CrewRosteringOptimizer) (period_start period_end : Z)
    : list Flight.t :=
  sort_by Z.leb Flight.sched_dep_utc
    (filter (fun f => SimpleOpt.in_period period_start period_end f = true)
            (Db.flight (db self))).

Definition _get_active_crew (self : CrewRosteringOptimizer) : list Crew.t :=
  filter (fun c => Crew.status c = "Active") (Db.crew (db self)).

Definition _get_qualifications (self : CrewRosteringOptimizer) : list CrewQualification.t :=
  Db.crew_qualification (db self).

Definition _get_preferences (today : Z) (self : CrewRosteringOptimizer)
    : list CrewPreference.t :=
  filter (fun p =>
            match CrewPreference.valid_from p with Some d => d <=? today | None => true end
            && match CrewPreference.valid_to p with Some d => today <=? d | None => true end
            = true)
         (Db.crew_preference (db self)).

Definition _get_unavailable_crew (self : CrewRosteringOptimizer) (period_start period_end : Z)
    : list CrewAvailability.t :=
  filter (fun r =>
            CrewAvailability.unavailable_from r <= period_end
            ∧ period_start <= CrewAvailability.unavailable_to r
            ∧ CrewAvailability.status r = "approved")
         (Db.crew_availability (db self)).

Definition _build_qualification_map (today : Z) (quals : list CrewQualification.t)
    : gmap Z (gmap string CrewQualification.t) :=
  fold_left (fun m q =>
               if match CrewQualification.expires_on q with
                  | None => true
                  | Some e => today <=? e
                  end
               then <[CrewQualification.crew_id q :=
                        <[CrewQualification.aircraft_code q := q]>
                          (default ∅ (m !! CrewQualification.crew_id q))]> m
               else m)
            quals ∅.

Definition _build_preference_map (prefs : list CrewPreference.t)
    : gmap Z (list CrewPreference.t) :=
  fold_left (fun m p =>
               let k := CrewPreference.crew_id p in
               <[k := (default [] (m !! k) ++ [p])%list]> m)
            prefs ∅.

Definition _build_unavailable_crew_map (unavailable_crew : list CrewAvailability.t)
    : gmap Z (list CrewAvailability.t) :=
  fold_left (fun m record =>
               let k := CrewAvailability.crew_id record in
               <[k := (default [] (m !! k) ++ [record])%list]> m)
            unavailable_crew ∅.

Definition key (f : Flight.t) (c : Crew.t) : CpModel.var :=
  (Flight.flight_id f, Crew.crew_id c).

(** The pair has a record in [qual_map]: the test of
    [_add_qualification_constraints]. *)
Definition in_qual_map (qual_map : gmap Z (gmap string CrewQualification.t))
    (f : Flight.t) (c : Crew.t) : bool :=
  match qual_map !! Crew.crew_id c with
  | Some quals => bool_decide (is_Some (quals !! Flight.aircraft_code f))
  | None => false
  end.

Definition _add_qualification_constraints (flights : list Flight.t) (crew : list Crew.t)
    (qual_map : gmap Z (gmap string CrewQualification.t)) : list CpModel.constraint :=
  flat_map (fun f =>
    flat_map (fun c =>
      if negb (in_qual_map qual_map f c) then [CpModel.EqZero (key f c)] else [])
      crew)
    flights.

Definition unavailable_on (unavailable_crew_map : gmap Z (list CrewAvailability.t))
    (f : Flight.t) (c : Crew.t) : bool :=
  match unavailable_crew_map !! Crew.crew_id c with
  | Some records =>
      existsb (fun record =>
                 (CrewAvailability.unavailable_from record <=? Flight.flight_date f)
                 && (Flight.flight_date f <=? CrewAvailability.unavailable_to record))
              records
  | None => false
  end.

Definition _add_availability_constraints (flights : list Flight.t) (crew : list Crew.t)
    (unavailable_crew_map : gmap Z (list CrewAvailability.t)) : list CpModel.constraint :=
  flat_map (fun f =>
    flat_map (fun c =>
      if unavailable_on unavailable_crew_map f c then [CpModel.EqZero (key f c)] else [])
      crew)
    flights.

(** [crew_flight_dates]: crew id, then flight date, to the variables of
    that crew on that date. *)
Definition crew_flight_dates (flights : list Flight.t) (crew : list Crew.t)
    : list (Z * list (Z * list CpModel.var)) :=
  fold_left (fun d f =>
    fold_left (fun d c =>
      let inner := default [] (od_get (Crew.crew_id c) d) in
      od_set (Crew.crew_id c) (od_append (Flight.flight_date f) (key f c) inner) d)
      crew d)
    flights [].

Definition _add_rules_constraints (flights : list Flight.t) (crew : list Crew.t)
    : list CpModel.constraint :=
  (map (fun f => CpModel.SumEq (map (key f) crew) 1) flights
   ++ flat_map (fun '(_, dates) => map (fun '(_, xs) => CpModel.SumLe xs 1) dates)
        (crew_flight_dates flights crew))%list.

(** The body is [pass]. *)
Definition _add_fairness_constraints (crew : list Crew.t) : list CpModel.constraint := [].

(** Line for line the body of [simple_opt.calculate_preference_score]. *)
Definition _calculate_preference_score (crew_id : Z) (flight : Flight.t)
    (pref_map : gmap Z (list CrewPreference.t)) : Z :=
  let prefs := default [] (pref_map !! crew_id) in
  fold_left
    (SimpleOpt.pref_contribution (Flight.flight_date flight) (Flight.dep_iata flight)
       (Flight.arr_iata flight) (Flight.flight_no flight))
    prefs 0.

Definition objective_terms (flights : list Flight.t) (crew : list Crew.t)
    (pref_map : gmap Z (list CrewPreference.t)) : list (Z * CpModel.var) :=
  flat_map (fun f =>
    flat_map (fun c =>
      let pref_score := _calculate_preference_score (Crew.crew_id c) f pref_map in
      if negb (pref_score =? 0) then [(pref_score, key f c)] else [])
      crew)
    flights.

Definition _set_objective (m : CpModel.t) (flights : list Flight.t) (crew : list Crew.t)
    (pref_map : gmap Z (list CrewPreference.t)) : CpModel.t :=
  match objective_terms flights crew pref_map with
  | [] => m
  | terms => CpModel.maximize m terms
  end.

(** [self.model] when [Solve] is called. *)
Definition build_model (today : Z) (self : CrewRosteringOptimizer)
    (period_start period_end : Z) : CpModel.t :=
  let flights := _get_flights self period_start period_end in
  let crew := _get_active_crew self in
  let qual_map := _build_qualification_map today (_get_qualifications self) in
  let pref_map := _build_preference_map (_get_preferences today self) in
  let unavailable_crew_map :=
    _build_unavailable_crew_map (_get_unavailable_crew self period_start period_end) in
  let m := CpModel.add (model self) (_add_qualification_constraints flights crew qual_map) in
  let m := CpModel.add m (_add_availability_constraints flights crew unavailable_crew_map) in
  let m := CpModel.add m (_add_rules_constraints flights crew) in
  let m := CpModel.add m (_add_fairness_constraints crew) in
  _set_objective m flights crew pref_map.

(** One iteration of the decoding loop of [_process_solution]: the first
    crew whose variable is 1, or the unassigned entry. *)
Definition decode_flight (v : CpModel.valuation) (crew : list Crew.t)
    (acc : list Assignment.t * gmap Z Z) (flight : Flight.t) : list Assignment.t * gmap Z Z :=
  let '(assignments, crew_duty_count) := acc in
  match head (filter (fun c => CpModel.Value v (key flight c) = 1) crew) with
  | Some c =>
      ((assignments ++
          [Assignment.mk (Some (Crew.crew_id c)) (Some (Crew.name c)) (Flight.flight_id flight)
             (Flight.sched_dep_utc flight) (Flight.sched_arr_utc flight) None])%list,
       <[Crew.crew_id c := default 0 (crew_duty_count !! Crew.crew_id c) + 1]> crew_duty_count)
  | None =>
      ((assignments ++ [SimpleOpt.unassigned flight])%list, crew_duty_count)
  end.

Definition decode (v : CpModel.valuation) (flights : list Flight.t) (crew : list Crew.t)
    : list Assignment.t * gmap Z Z :=
  fold_left (decode_flight v crew) flights ([], ∅).

Definition solution_pref_score (flights : list Flight.t)
    (pref_map : gmap Z (list CrewPreference.t)) (assignments : list Assignment.t) : Z :=
  fold_left (fun total a =>
               if Assignment.has_crew a
               then match head (filter (fun f => Flight.flight_id f = Assignment.flight_id a) flights) with
                    | Some flight =>
                        total + _calculate_preference_score (default 0 (Assignment.crew_id a))
                                  flight pref_map
                    | None => total
                    end
               else total)
            assignments 0.

Definition _process_solution (v : CpModel.valuation) (flights : list Flight.t)
    (crew : list Crew.t) (pref_map : gmap Z (list CrewPreference.t))
    : list Assignment.t * Kpis.t :=
  let '(assignments, crew_duty_count) := decode v flights crew in
  let total_flights := Z.of_nat (length flights) in
  let assigned_count :=
    Z.of_nat (length (filter (fun a => Assignment.has_crew a = true) assignments)) in
  (assignments,
   compute_kpis total_flights assigned_count crew_duty_count
     (solution_pref_score flights pref_map assignments)).

Section Solve.
(** [self.solver.Solve(self.model)] followed by [self.solver.Value]: the
    external solver, given the solver object and the model, answers with
    a status and the values of the variables. *)
Variable Solve : CpModel.solver -> CpModel.t -> CpModel.status * CpModel.valuation.

Definition optimize_roster (today : Z) (self : CrewRosteringOptimizer)
    (period_start period_end : Z) : Result (list Assignment.t * Kpis.t) :=
  let flights := _get_flights self period_start period_end in
  let crew := _get_active_crew self in
  let pref_map := _build_preference_map (_get_preferences today self) in
  let '(status, v) := Solve (solver self) (build_model today self period_start period_end) in
  if CpModel.found status
  then Ok (_process_solution v flights crew pref_map)
  else SimpleOpt.generate_roster today (db self) period_start period_end (rules self).

Definition generate_roster_with_or_tools (today : Z) (db : Db.t)
    (period_start period_end : Z) (rules : RulesEngine.t)
    : Result (list Assignment.t * Kpis.t) :=
  optimize_roster today (init db rules) period_start period_end.
End Solve.

End OrToolsOpt.

(** ** services/orchestrator.py: committing a roster *)

Module Orchestrator.

(** [assignment.get("crew_id") and not assignment.get("note") == "UNASSIGNED"] *)
Definition is_assigned (a : Assignment.t) : bool :=
  Assignment.has_crew a && negb (bool_decide (Assignment.note a = Some "UNASSIGNED")).

(** [crew_duties]: the assigned entries by crew, in order of first appearance. *)
Definition group_by_crew (assignments : list Assignment.t) : list (Z * list Assignment.t) :=
  fold_left (fun d a =>
               if is_assigned a then od_append (default 0 (Assignment.crew_id a)) a d else d)
            assignments [].

Definition next_duty_id (db : Db.t) : Z :=
  match first_max DutyPeriod.duty_id (Db.duty_period db) with
  | Some last_duty => DutyPeriod.duty_id last_duty + 1
  | None => 1
  end.

(** The body of the inner loop: one duty period and one duty flight. *)
Definition add_duty (base_iata : string) (crew_id : Z) (db : Db.t) (a : Assignment.t) : Db.t :=
  match SimpleOpt.flight_by_id db (Assignment.flight_id a) with
  | None => db
  | Some _ =>
      let duty_period :=
        DutyPeriod.mk (next_duty_id db) crew_id (Assignment.duty_start_utc a)
          (Assignment.duty_end_utc a) base_iata in
      let duty_flight := DutyFlight.mk (DutyPeriod.duty_id duty_period) (Assignment.flight_id a) 1 in
      Db.with_duty db (Db.duty_period db ++ [duty_period])%list
        (Db.duty_flight db ++ [duty_flight])%list
  end.

Definition crew_by_id (db : Db.t) (crew_id : Z) : option Crew.t :=
  head (filter (fun c => Crew.crew_id c = crew_id) (Db.crew db)).

(** The body of the outer loop over [crew_duties.items()]. *)
Definition save_crew (db : Db.t) (entry : Z * list Assignment.t) : Db.t :=
  let '(crew_id, crew_assignments) := entry in
  match crew_assignments with
  | [] => db
  | first_assignment :: _ =>
      let flight := SimpleOpt.flight_by_id db (Assignment.flight_id first_assignment) in
      let crew := crew_by_id db crew_id in
      let base_iata :=
        match crew with
        | Some c => Crew.base_iata c
        | None => match flight with Some f => Flight.dep_iata f | None => "DEL" end
        end in
      fold_left (add_duty base_iata crew_id) crew_assignments db
  end.

(** The database as the first [db.commit()] publishes it. *)
Definition cleared (db : Db.t) : Db.t := Db.with_duty db [] [].

Definition save_assignments_to_duty_tables (s : Session.t) (assignments : list Assignment.t)
    : Session.t :=
  let s := Session.set_pending s (Db.with_duty (Session.pending s) (Db.duty_period (Session.pending s)) []) in
  let s := Session.set_pending s (Db.with_duty (Session.pending s) [] (Db.duty_flight (Session.pending s))) in
  let s := Session.commit s in
  let crew_duties := group_by_crew assignments in
  let s := Session.set_pending s (fold_left save_crew crew_duties (Session.pending s)) in
  Session.commit s.

End Orchestrator.

(** ** rules/hard_soft_engine.py *)

Module HardSoftRulesEngine.

(** [self.hard_rules] and [self.soft_rules], as far as the two checkers
    read them. *)
Record t := mk {
  max_duty_per_day : Z;
  min_rest_after_duty : Z;
  max_fdp : Z;
  max_duty_per_week : option Z;
  max_duty_per_month : option Z;
  max_consecutive_duty_days : option Z;
  max_night_duties_per_week : option Z;
  max_flight_time_per_week : option Z;
  max_flight_time_per_month : option Z;
  preferred_max_duty_per_day : Z;
  preferred_max_consecutive_duty_days : Z;
  preferred_night_duties_per_week : Z;
  fairness_weight : Q
}.

(** [HardSoftRulesEngine()] *)
Definition default : t :=
  mk (Time.hours 10) (Time.hours 12) (Time.hours 13) None None None None None None
     (Time.hours 8) 4 2 1%Q.

Definition is_night_duty (self : t) (start end_ : Z) : bool :=
  let night_start := Time.replace_hour start 22 in
  let night_end := Time.replace_hour start 6 in
  if (22 <=? Time.hour start) || (Time.hour start <? 6) then true
  else if (22 <=? Time.hour end_) || (Time.hour end_ <? 6) then true
  else if (start <? night_start) && (night_end <? end_) && (night_start <? night_end) then true
  else false.

(** [violations[name] = True] when the limit is set and exceeded. *)
Definition flag (name : string) (limit : option Z) (exceeded : Z -> bool)
    (violations : list (string * bool)) : list (string * bool) :=
  match limit with
  | Some m => if negb (m =? 0) && exceeded m then od_set name true violations else violations
  | None => violations
  end.

Definition check_rank_specific_hard_rules (self : t) (rank : string) (duty_duration : Z)
    (consecutive_days night_duties : Z) : list (string * bool) :=
  let violations := [] in
  let violations :=
    if (rank =? "Captain")%string
    then flag "consecutive_duty_days_exceeded" (max_consecutive_duty_days self)
           (fun m => m - 1 <? consecutive_days) violations
    else if (rank =? "FirstOfficer")%string
    then flag "consecutive_duty_days_exceeded" (max_consecutive_duty_days self)
           (fun m => m <? consecutive_days) violations
    else violations in
  flag "night_duty_limit_exceeded" (max_night_duties_per_week self)
    (fun m => m <=? night_duties) violations.

Definition check_hard_rule_violations (self : t) (duty_start duty_end : Z) (crew_rank : string)
    (consecutive_days : Z) (weekly_duties monthly_duties : list Z) (weekly_night_duties : Z)
    (weekly_flight_time monthly_flight_time : Z) : list (string * bool) :=
  let violations := [] in
  let duty_duration := duty_end - duty_start in
  let violations :=
    if max_duty_per_day self <? duty_duration
    then od_set "duty_duration_exceeded" true violations else violations in
  let violations :=
    if max_fdp self <? duty_duration
    then od_set "fdp_exceeded" true violations else violations in
  let violations :=
    flag "weekly_duty_exceeded" (max_duty_per_week self)
      (fun m => m <? sum_timedelta weekly_duties) violations in
  let violations :=
    flag "monthly_duty_exceeded" (max_duty_per_month self)
      (fun m => m <? sum_timedelta monthly_duties) violations in
  let violations :=
    flag "consecutive_duty_days_exceeded" (max_consecutive_duty_days self)
      (fun m => m <? consecutive_days) violations in
  let violations :=
    flag "weekly_flight_time_exceeded" (max_flight_time_per_week self)
      (fun m => m <? weekly_flight_time) violations in
  let violations :=
    flag "monthly_flight_time_exceeded" (max_flight_time_per_month self)
      (fun m => m <? monthly_flight_time) violations in
  let violations :=
    if is_night_duty self duty_start duty_end
    then flag "night_duty_limit_exceeded" (max_night_duties_per_week self)
           (fun m => m <=? weekly_night_duties) violations
    else violations in
  let rank_violations :=
    check_rank_specific_hard_rules self crew_rank duty_duration consecutive_days
      weekly_night_duties in
  fold_left (fun d '(k, v) => od_set k v d) rank_violations violations.

Definition check_soft_rule_violations (self : t) (duty_start duty_end : Z) (crew_rank : string)
    (consecutive_days weekly_night_duties crew_duty_count : Z) (avg_duty_count : Q)
    : list (string * Q) :=
  let penalties := [] in
  let duty_duration := duty_end - duty_start in
  let penalties :=
    if preferred_max_duty_per_day self <? duty_duration
    then
      let excess :=
        (inject_Z (duty_duration - preferred_max_duty_per_day self)
         / inject_Z Time.US_PER_SECOND / 3600)%Q in
      od_set "long_duty_hours" (excess * (1 # 2))%Q penalties
    else penalties in
  let penalties :=
    if negb (preferred_max_consecutive_duty_days self =? 0)
       && (preferred_max_consecutive_duty_days self <? consecutive_days)
    then
      let excess := consecutive_days - preferred_max_consecutive_duty_days self in
      od_set "long_consecutive_days" (inject_Z excess * 1)%Q penalties
    else penalties in
  let penalties :=
    if is_night_duty self duty_start duty_end
       && negb (preferred_night_duties_per_week self =? 0)
       && (preferred_night_duties_per_week self <=? weekly_night_duties)
    then od_set "excessive_night_duties" 2%Q penalties
    else penalties in
  if negb (Qle_bool avg_duty_count 0)
  then
    let deviation := Qabs (inject_Z crew_duty_count - avg_duty_count) in
    od_set "fairness_deviation" (deviation * fairness_weight self)%Q penalties
  else penalties.

End HardSoftRulesEngine.

(** ** optimizer/conflict_detector.py *)

Module ConflictDetector.

(** The dicts appended to [conflicts].  [timestamp] is the duty start the
    source renders with [isoformat()]. *)
Record Conflict := mkConflict {
  type : string;
  crew_id : Z;
  crew_name : string;
  description : string;
  severity : string;
  flight_ids : list Z;
  timestamp : Z;
  violation_type : option string;
  penalty_type : option string;
  penalty_value : option Q
}.

(** What is kept per crew in [crew_duties]. *)
Record CrewData := mkCrewData {
  crew : Crew.t;
  duties : list (DutyPeriod.t * Flight.t);
  weekly_duties : list ((Z * Z) * list DutyPeriod.t);
  monthly_duties : list ((Z * Z) * list DutyPeriod.t);
  night_duties : list ((Z * Z) * Z)
}.

(** The three-way join of the first query, filtered to the period. *)
Definition query_duty_periods (db : Db.t) (period_start period_end : Z)
    : list (DutyPeriod.t * Flight.t * Crew.t) :=
  filter (fun '(duty, _, _) =>
            Time.midnight period_start <= DutyPeriod.duty_start_utc duty
            ∧ DutyPeriod.duty_end_utc duty <= Time.midnight period_end)
    (flat_map (fun duty =>
       flat_map (fun link =>
         flat_map (fun flight =>
           map (fun crew => (duty, flight, crew))
             (filter (fun c => DutyPeriod.crew_id duty = Crew.crew_id c) (Db.crew db)))
           (filter (fun f => DutyFlight.flight_id link = Flight.flight_id f) (Db.flight db)))
         (filter (fun l => DutyPeriod.duty_id duty = DutyFlight.duty_id l) (Db.duty_flight db)))
       (Db.duty_period db)).

Section Detect.
(** Python built-ins the detector calls: [dt.isocalendar()[:2]],
    [(dt.year, dt.month)], [s.replace('_', ' ').title()] and the
    rendering [f"{x:.1f}"]. *)
Variable isocalendar_year_week : Z -> Z * Z.
Variable year_month : Z -> Z * Z.
Variable title : string -> string.
Variable format_1f : Q -> string.

Variable rules_engine : HardSoftRulesEngine.t.

(** One iteration of the grouping loop. *)
Definition track (crew_duties : list (Z * CrewData))
    (row : DutyPeriod.t * Flight.t * Crew.t) : list (Z * CrewData) :=
  let '(duty, flight, c) := row in
  let data := default (mkCrewData c [] [] [] []) (od_get (Crew.crew_id c) crew_duties) in
  let week_key := isocalendar_year_week (DutyPeriod.duty_start_utc duty) in
  let month_key := year_month (DutyPeriod.duty_start_utc duty) in
  let night :=
    if HardSoftRulesEngine.is_night_duty rules_engine (DutyPeriod.duty_start_utc duty)
         (DutyPeriod.duty_end_utc duty)
    then od_set week_key (default 0 (od_get week_key (night_duties data)) + 1) (night_duties data)
    else night_duties data in
  od_set (Crew.crew_id c)
    (mkCrewData (crew data) (duties data ++ [(duty, flight)])%list
       (od_append week_key duty (weekly_duties data))
       (od_append month_key duty (monthly_duties data))
       night)
    crew_duties.

(** The loop over [range(len(duties) - 1)]. *)
Fixpoint overlapping_duties (crew_id : Z) (c : Crew.t)
    (duties : list (DutyPeriod.t * Flight.t)) : list Conflict :=
  match duties with
  | (current_duty, current_flight) :: rest =>
      match rest with
      | (next_duty, next_flight) :: _ =>
          ((if DutyPeriod.duty_start_utc next_duty <? DutyPeriod.duty_end_utc current_duty
            then [mkConflict "overlapping_duties" crew_id (Crew.name c)
                    ("Overlapping duties: " +:+ Flight.flight_no current_flight +:+ " and "
                     +:+ Flight.flight_no next_flight)
                    "high" [Flight.flight_id current_flight; Flight.flight_id next_flight]
                    (DutyPeriod.duty_start_utc current_duty) None None None]
            else [])
           ++ overlapping_duties crew_id c rest)%list
      | [] => []
      end
  | [] => []
  end.

Definition durations (l : list DutyPeriod.t) : list Z :=
  map (fun d => DutyPeriod.duty_end_utc d - DutyPeriod.duty_start_utc d) l.

(** The body of "Check individual duty compliance" for one duty. *)
Definition duty_compliance (crew_id : Z) (crew_data : CrewData) (n_crews : Z)
    (sorted : list (DutyPeriod.t * Flight.t)) (entry : DutyPeriod.t * Flight.t)
    : list Conflict :=
  let '(duty, flight) := entry in
  let c := crew crew_data in
  let week_key := isocalendar_year_week (DutyPeriod.duty_start_utc duty) in
  let month_key := year_month (DutyPeriod.duty_start_utc duty) in
  let weekly_duty_durations := durations (default [] (od_get week_key (weekly_duties crew_data))) in
  let monthly_duty_durations := durations (default [] (od_get month_key (monthly_duties crew_data))) in
  let weekly_night_duties := default 0 (od_get week_key (night_duties crew_data)) in
  let consecutive_days := 1 in
  let avg_duty_count :=
    if negb (n_crews =? 0) then true_div (Z.of_nat (length sorted)) n_crews else 0%Q in
  let span := DutyPeriod.duty_end_utc duty - DutyPeriod.duty_start_utc duty in
  let hard_violations :=
    HardSoftRulesEngine.check_hard_rule_violations rules_engine
      (DutyPeriod.duty_start_utc duty) (DutyPeriod.duty_end_utc duty) (Crew.rank c)
      consecutive_days weekly_duty_durations monthly_duty_durations weekly_night_duties
      span span in
  let soft_penalties :=
    HardSoftRulesEngine.check_soft_rule_violations rules_engine
      (DutyPeriod.duty_start_utc duty) (DutyPeriod.duty_end_utc duty) (Crew.rank c)
      consecutive_days weekly_night_duties (Z.of_nat (length sorted)) avg_duty_count in
  (map (fun '(violation_type, _) =>
          mkConflict "hard_rule_violation" crew_id (Crew.name c)
            ("Hard rule violation: " +:+ title violation_type)
            "high" [Flight.flight_id flight] (DutyPeriod.duty_start_utc duty)
            (Some violation_type) None None)
       hard_violations
   ++ flat_map (fun '(penalty_type, penalty_value) =>
          if negb (Qle_bool penalty_value 0)
          then [mkConflict "soft_rule_violation" crew_id (Crew.name c)
                  ("Soft rule concern: " +:+ title penalty_type +:+ " (Penalty: "
                   +:+ format_1f penalty_value +:+ ")")
                  "medium" [Flight.flight_id flight] (DutyPeriod.duty_start_utc duty)
                  None (Some penalty_type) (Some penalty_value)]
          else [])
       soft_penalties)%list.

(** One iteration of [for crew_id, crew_data in crew_duties.items()]. *)
Definition crew_conflicts (n_crews : Z) (entry : Z * CrewData) : list Conflict :=
  let '(crew_id, crew_data) := entry in
  let sorted := sort_by Z.leb (fun x => DutyPeriod.duty_start_utc (fst x)) (duties crew_data) in
  (overlapping_duties crew_id (crew crew_data) sorted
   ++ flat_map (duty_compliance crew_id crew_data n_crews sorted) sorted)%list.

Definition build_qual_map (qualifications : list CrewQualification.t)
    : gmap Z (gmap string CrewQualification.t) :=
  fold_left (fun m q =>
               <[CrewQualification.crew_id q :=
                   <[CrewQualification.aircraft_code q := q]>
                     (default ∅ (m !! CrewQualification.crew_id q))]> m)
            qualifications ∅.

Definition qualification_mismatch (qual_map : gmap Z (gmap string CrewQualification.t))
    (row : DutyPeriod.t * Flight.t * Crew.t) : list Conflict :=
  let '(duty, flight, c) := row in
  let mismatch (what : string) :=
    mkConflict "qualification_mismatch" (Crew.crew_id c) (Crew.name c)
      ("Assigned to " +:+ Flight.aircraft_code flight +:+ what)
      "high" [Flight.flight_id flight] (DutyPeriod.duty_start_utc duty) None None None in
  match default ∅ (qual_map !! Crew.crew_id c) !! Flight.aircraft_code flight with
  | Some qual =>
      match CrewQualification.expires_on qual with
      | Some e => if e <? Flight.flight_date flight
                  then [mismatch " without valid qualification"] else []
      | None => []
      end
  | None => [mismatch " without required qualification"]
  end.

Definition detect_conflicts (db : Db.t) (period_start period_end : Z) : list Conflict :=
  let duty_periods := query_duty_periods db period_start period_end in
  let crew_duties := fold_left track duty_periods [] in
  let n_crews := Z.of_nat (length crew_duties) in
  let qual_map := build_qual_map (Db.crew_qualification db) in
  (flat_map (crew_conflicts n_crews) crew_duties
   ++ flat_map (qualification_mismatch qual_map) duty_periods)%list.

End Detect.

(** The conflicts of one type raised for one crew. *)
Definition of_type_and_crew (ty : string) (cid : Z) (conflicts : list Conflict)
    : list Conflict :=
  filter (fun c => type c = ty ∧ crew_id c = cid) conflicts.

End ConflictDetector.

(** * Properties *)

(** ** Facts about time arithmetic *)

Module TimeFacts.

Lemma date_of_at_time d h m :
  0 <= h -> 0 <= m -> h * 60 + m < 1440 -> Time.date_of (Time.at_time d h m) = d.
Proof.
  intros Hh Hm Hlt.
  unfold Time.date_of, Time.at_time, Time.US_PER_DAY, Time.US_PER_HOUR, Time.US_PER_MINUTE.
  symmetry. apply Z.div_unique with (r := h * 3600000000 + m * 60000000); lia.
Qed.

Lemma hour_range dt : 0 <= Time.hour dt < 24.
Proof.
  unfold Time.hour, Time.US_PER_DAY, Time.US_PER_HOUR.
  pose proof (Z.mod_pos_bound dt 86400000000 ltac:(lia)) as Hm.
  split.
  - apply Z.div_pos; lia.
  - apply Z.div_lt_upper_bound; lia.
Qed.

Lemma date_of_mono a b : a <= b -> Time.date_of a <= Time.date_of b.
Proof. intros H. unfold Time.date_of, Time.US_PER_DAY. apply Z.div_le_mono; lia. Qed.

(** On any one day 22:00 comes after 06:00. *)
Lemma night_end_before_night_start dt :
  (Time.replace_hour dt 22 <? Time.replace_hour dt 6) = false.
Proof. unfold Time.replace_hour, Time.US_PER_HOUR. lia. Qed.

End TimeFacts.

(** ** Night duties *)

(** The hour of [t] lies in the window 22:00 to 06:00. *)
Definition night_hour (t : Z) : bool := (22 <=? Time.hour t) || (Time.hour t <? 6).

(** The third test of [is_night_duty] can never succeed, so the result is
    decided by the hours of the two end points alone. *)
Lemma is_night_duty_endpoints self start end_ :
  RulesEngine.is_night_duty self start end_ = night_hour start || night_hour end_.
Proof.
  unfold RulesEngine.is_night_duty, night_hour.
  rewrite TimeFacts.night_end_before_night_start, andb_false_r.
  destruct (22 <=? Time.hour start), (Time.hour start <? 6),
    (22 <=? Time.hour end_), (Time.hour end_ <? 6); reflexivity.
Qed.

Lemma hard_soft_is_night_duty_endpoints self start end_ :
  HardSoftRulesEngine.is_night_duty self start end_ = night_hour start || night_hour end_.
Proof.
  unfold HardSoftRulesEngine.is_night_duty, night_hour.
  rewrite TimeFacts.night_end_before_night_start, andb_false_r.
  destruct (22 <=? Time.hour start), (Time.hour start <? 6),
    (22 <=? Time.hour end_), (Time.hour end_ <? 6); reflexivity.
Qed.

(** C5 (the code departs from the claim). A duty from 21:00 to 07:00 of the
    next day starts before 22:00, ends after 06:00 and so spans the whole
    night window, yet both rules engines answer that it is not a night duty:
    [night_end] is taken on the day of [start], so the crossing test
    [night_end > night_start] is never true. *)
Theorem C5_spanning_duty_is_not_classified_night :
  let start := Time.at_time 739000 21 0 in
  let end_ := Time.at_time 739001 7 0 in
  start <= end_
  /\ start < Time.at_time 739000 22 0
  /\ Time.at_time 739001 6 0 < end_
  /\ RulesEngine.is_night_duty RulesEngine.default start end_ = false
  /\ HardSoftRulesEngine.is_night_duty HardSoftRulesEngine.default start end_ = false.
Proof. vm_compute. repeat split; congruence. Qed.

(** ** The consecutive-day streak of the greedy assigner *)

Module StreakExample.
Definition crew1 : Crew.t := Crew.mk 1 "E001" "Asha" "Captain" "DEL" "Active".
Definition qual1 : CrewQualification.t := CrewQualification.mk 1 "A320" 738000 None.
Definition flight1 : Flight.t :=
  Flight.mk 1 "6E101" 739000 "DEL" "BOM" (Time.at_time 739000 8 0) (Time.at_time 739000 10 0) "A320".
Definition flight2 : Flight.t :=
  Flight.mk 2 "6E102" 739001 "DEL" "BOM" (Time.at_time 739001 8 0) (Time.at_time 739001 10 0) "A320".
Definition db : Db.t := Db.mk [crew1] [qual1] [] [] [] [flight1; flight2] [] [].
Definition today : Z := 738990.
End StreakExample.

(** Whatever the state, an assignment of a flight that does not arrive
    before it departs leaves the crew's streak at 1: the block reads
    [crew_last_duty_end] after it has stored the new duty's own end. *)
Lemma update_history_streak env st f best :
  Flight.sched_dep_utc f <= Flight.sched_arr_utc f ->
  SimpleOpt.crew_consecutive_days (SimpleOpt.update_history env st f best)
    !! Crew.crew_id (SimpleOpt.cand_crew best) = Some 1.
Proof.
  intros Hle. unfold SimpleOpt.update_history. cbn [SimpleOpt.crew_consecutive_days].
  rewrite lookup_insert_eq.
  pose proof (TimeFacts.date_of_mono _ _ Hle) as Hd.
  destruct (Z.eqb_spec (Time.date_of (Flight.sched_dep_utc f)
                        - Time.date_of (Flight.sched_arr_utc f)) 1) as [Heq | _].
  - lia.
  - apply lookup_insert_eq.
Qed.

(** C4 (the code departs from the claim). One crew flies 08:00 to 10:00 on
    two days in a row.  The second duty starts exactly one calendar day after
    the date of the first duty's end, so the streak should become 2; the
    loop leaves it at 1. *)
Theorem C4_streak_not_incremented_on_next_day :
  let st := SimpleOpt.run_loop StreakExample.today StreakExample.db 739000 739001
              RulesEngine.default in
  map Assignment.crew_id (SimpleOpt.assignments st) = [Some 1; Some 1]
  /\ Time.date_of (Flight.sched_dep_utc StreakExample.flight2)
     - Time.date_of (Flight.sched_arr_utc StreakExample.flight1) = 1
  /\ SimpleOpt.crew_consecutive_days st !! 1 = Some 1.
Proof. vm_compute. repeat split; reflexivity. Qed.

(** ** Stable sorting rearranges, and folds keep invariants *)

Section SortFacts.
Context {A K : Type} (leb : K -> K -> bool) (key : A -> K).

Lemma insert_sorted_perm x l : insert_sorted leb key x l ≡ₚ x :: l.
Proof.
  induction l as [| y ys IH]; simpl; [reflexivity |].
  destruct (leb (key x) (key y)); [reflexivity |].
  rewrite IH. apply perm_swap.
Qed.

Lemma sort_by_perm l : sort_by leb key l ≡ₚ l.
Proof.
  induction l as [| x xs IH]; simpl; [reflexivity |].
  rewrite insert_sorted_perm. by rewrite IH.
Qed.

Lemma sort_by_elem_of x l : x ∈ sort_by leb key l ↔ x ∈ l.
Proof. by rewrite sort_by_perm. Qed.

Lemma sort_by_length l : length (sort_by leb key l) = length l.
Proof. by rewrite sort_by_perm. Qed.
End SortFacts.

Lemma fold_left_invariant {S X : Type} (P : S -> Prop) (step : S -> X -> S) :
  (forall s x, P s -> P (step s x)) ->
  forall l s, P s -> P (fold_left step l s).
Proof.
  intros Hstep l. induction l as [| x xs IH]; simpl; intros s Hs; [done |].
  apply IH, Hstep, Hs.
Qed.

(** A loop that appends one entry per element produces, for the whole list,
    one entry per element, in order. *)
Lemma fold_left_appends {S X Y : Type} (out : S -> list Y) (R : X -> Y -> Prop)
    (step : S -> X -> S) :
  (forall s x, exists y, out (step s x) = (out s ++ [y])%list /\ R x y) ->
  forall l s, exists ys, out (fold_left step l s) = (out s ++ ys)%list /\ Forall2 R l ys.
Proof.
  intros Hstep l. induction l as [| x xs IH]; simpl; intros s.
  - exists []. by rewrite app_nil_r.
  - destruct (Hstep s x) as (y & Hy & HR).
    destruct (IH (step s x)) as (ys & Hys & HF).
    exists (y :: ys). split; [| by constructor].
    by rewrite Hys, Hy, <- app_assoc.
Qed.

(** ** Minima, maxima and the fairness KPI *)

Lemma fold_max_ge xs : forall x, x <= fold_left Z.max xs x.
Proof.
  induction xs as [| y ys IH]; simpl; intros x; [lia |].
  specialize (IH (Z.max x y)). lia.
Qed.

Lemma fold_min_le xs : forall x, fold_left Z.min xs x <= x.
Proof.
  induction xs as [| y ys IH]; simpl; intros x; [lia |].
  specialize (IH (Z.min x y)). lia.
Qed.

Lemma fold_min_lower b xs : Forall (fun v => b <= v) xs ->
  forall x, b <= x -> b <= fold_left Z.min xs x.
Proof.
  induction 1 as [| y ys Hy _ IH]; simpl; intros x Hx; [done |].
  apply IH. lia.
Qed.

Lemma py_min_max_bounds l : Forall (fun v => 0 <= v) l -> 0 <= py_min l <= py_max l.
Proof.
  destruct 1 as [| x xs Hx Hxs]; simpl; [lia |].
  pose proof (fold_min_lower 0 xs Hxs x Hx).
  pose proof (fold_min_le xs x). pose proof (fold_max_ge xs x). lia.
Qed.

Lemma dict_values_Forall (P : Z -> Prop) (m : gmap Z Z) :
  map_Forall (fun _ v => P v) m -> Forall P (dict_values m).
Proof.
  intros Hm. unfold dict_values. apply Forall_fmap.
  apply map_Forall_to_list in Hm.
  eapply Forall_impl; [exact Hm |]. by intros [k v].
Qed.

Lemma true_div_bounds a b : 0 <= a <= b -> 0 < b -> (0 <= true_div a b <= 1)%Q.
Proof.
  intros [Ha Hab] Hb. unfold true_div.
  assert (0 < inject_Z b)%Q as Hb' by (change 0%Q with (inject_Z 0); by rewrite <- Zlt_Qlt).
  split.
  - apply Qle_shift_div_l; [done |]. rewrite Qmult_0_l.
    change 0%Q with (inject_Z 0). by rewrite <- Zle_Qle.
  - apply Qle_shift_div_r; [done |]. rewrite Qmult_1_l. by rewrite <- Zle_Qle.
Qed.

Lemma true_div_zero b : (true_div 0 b == 0)%Q.
Proof. unfold true_div, Qdiv. apply Qmult_0_l. Qed.

(** What C8 asks of a KPI record. *)
Definition fairness_spec (k : Kpis.t) : Prop :=
  let mx := Kpis.max_duty_per_crew k in
  let mn := Kpis.min_duty_per_crew k in
  (Kpis.fairness_score k == 1 - inject_Z (mx - mn) / inject_Z (mx + 1))%Q
  /\ (0 <= Kpis.fairness_score k <= 1)%Q
  /\ (mx = 0 \/ mx = mn -> (Kpis.fairness_score k == 1)%Q).

Lemma compute_kpis_fairness total assigned_count (crew_duty_count : gmap Z Z) total_pref :
  map_Forall (fun _ v => 0 <= v) crew_duty_count ->
  fairness_spec (compute_kpis total assigned_count crew_duty_count total_pref).
Proof.
  intros Hm. unfold fairness_spec, compute_kpis.
  cbn [Kpis.fairness_score Kpis.max_duty_per_crew Kpis.min_duty_per_crew].
  pose proof (py_min_max_bounds _ (dict_values_Forall _ _ Hm)) as Hb.
  set (mx := if negb (bool_decide (crew_duty_count = ∅)) then _ else 0).
  set (mn := if negb (bool_decide (crew_duty_count = ∅)) then py_min _ else 0).
  assert (0 <= mn <= mx) as Hmm.
  { subst mx mn. destruct (negb (bool_decide (crew_duty_count = ∅))); lia. }
  clearbody mx mn. clear Hb Hm.
  destruct (Z.eqb_spec mx 0) as [Hz | Hnz]; cbn [negb].
  - assert (mn = 0) as -> by lia. subst mx. repeat split; done.
  - pose proof (true_div_bounds (mx - mn) (mx + 1) ltac:(lia) ltac:(lia)) as [H0 H1].
    unfold true_div in *. split; [reflexivity |]. split; [split |].
    + lra.
    + lra.
    + intros [? | ->]; [lia |]. rewrite Z.sub_diag.
      change (inject_Z 0) with 0%Q. unfold Qdiv. rewrite Qmult_0_l. reflexivity.
Qed.

(** ** One roster entry per flight *)

(** The entry both strategies emit when crew [c] takes flight [f]. *)
Definition assigned_entry (f : Flight.t) (c : Crew.t) : Assignment.t :=
  Assignment.mk (Some (Crew.crew_id c)) (Some (Crew.name c)) (Flight.flight_id f)
    (Flight.sched_dep_utc f) (Flight.sched_arr_utc f) None.

(** What the greedy loop appends for flight [f]. *)
Definition greedy_entry (env : SimpleOpt.Env) (f : Flight.t) (a : Assignment.t) : Prop :=
  a = SimpleOpt.unassigned f
  \/ exists c,
       c ∈ SimpleOpt.crew env /\ a = assigned_entry f c
       /\ SimpleOpt.is_crew_qualified_for_flight (Crew.crew_id c) f (SimpleOpt.qual_map env)
            (Flight.flight_date f) = true
       /\ SimpleOpt.is_crew_available (Crew.crew_id c) (Flight.flight_date f)
            (SimpleOpt.unavailable_crew_map env) = true.

(** What the decoder appends for flight [f]. *)
Definition decoded_entry (v : CpModel.valuation) (crew : list Crew.t) (f : Flight.t)
    (a : Assignment.t) : Prop :=
  a = SimpleOpt.unassigned f
  \/ exists c, c ∈ crew /\ a = assigned_entry f c /\ CpModel.Value v (OrToolsOpt.key f c) = 1.

Lemma eligible_checks env st f c :
  SimpleOpt.eligible env st f c = true ->
  SimpleOpt.is_crew_qualified_for_flight (Crew.crew_id c) f (SimpleOpt.qual_map env)
    (Flight.flight_date f) = true
  /\ SimpleOpt.is_crew_available (Crew.crew_id c) (Flight.flight_date f)
       (SimpleOpt.unavailable_crew_map env) = true.
Proof.
  unfold SimpleOpt.eligible.
  destruct (SimpleOpt.is_crew_qualified_for_flight _ _ _ _); [| done].
  destruct (SimpleOpt.is_crew_available _ _ _); done.
Qed.

(** The best candidate is one of the eligible crew of the roster. *)
Lemma scored_crew_head env st f best rest :
  SimpleOpt.scored_crew env st f = best :: rest ->
  SimpleOpt.cand_crew best ∈ SimpleOpt.crew env
  /\ SimpleOpt.eligible env st f (SimpleOpt.cand_crew best) = true.
Proof.
  intros Hs.
  assert (best ∈ SimpleOpt.scored_crew env st f) as Hin by (rewrite Hs; left).
  unfold SimpleOpt.scored_crew in Hin. rewrite sort_by_elem_of in Hin.
  apply list_elem_of_In, in_map_iff in Hin as (c & <- & Hc).
  apply list_elem_of_In, list_elem_of_filter in Hc as [He Hc].
  by split.
Qed.

Lemma assign_flight_entry env st f :
  exists a,
    SimpleOpt.assignments (SimpleOpt.assign_flight env st f)
    = (SimpleOpt.assignments st ++ [a])%list
    /\ greedy_entry env f a.
Proof.
  unfold SimpleOpt.assign_flight.
  destruct (SimpleOpt.scored_crew env st f) as [| best rest] eqn:Hs.
  - eexists. split; [reflexivity | by left].
  - apply scored_crew_head in Hs as [Hc He]. apply eligible_checks in He as [Hq Ha].
    eexists. split; [reflexivity |]. right. by exists (SimpleOpt.cand_crew best).
Qed.

Lemma run_loop_entries today db period_start period_end rules :
  Forall2 (greedy_entry (SimpleOpt.make_env today db period_start period_end rules))
    (SimpleOpt.query_flights db period_start period_end)
    (SimpleOpt.assignments (SimpleOpt.run_loop today db period_start period_end rules)).
Proof.
  unfold SimpleOpt.run_loop.
  destruct (fold_left_appends SimpleOpt.assignments
              (greedy_entry (SimpleOpt.make_env today db period_start period_end rules))
              (SimpleOpt.assign_flight (SimpleOpt.make_env today db period_start period_end rules))
              (assign_flight_entry _)
              (SimpleOpt.query_flights db period_start period_end) SimpleOpt.init)
    as (ys & -> & HF).
  exact HF.
Qed.

Lemma decode_flight_entry v crew acc f :
  exists a,
    fst (OrToolsOpt.decode_flight v crew acc f) = (fst acc ++ [a])%list
    /\ decoded_entry v crew f a.
Proof.
  destruct acc as [assignments counts]. unfold OrToolsOpt.decode_flight.
  destruct (head (filter _ crew)) as [c |] eqn:Hh.
  - apply head_Some_elem_of, list_elem_of_filter in Hh as [Hv Hc].
    eexists. split; [reflexivity |]. right. by exists c.
  - eexists. split; [reflexivity | by left].
Qed.

Lemma decode_entries v flights crew :
  Forall2 (decoded_entry v crew) flights (fst (OrToolsOpt.decode v flights crew)).
Proof.
  unfold OrToolsOpt.decode.
  destruct (fold_left_appends fst (decoded_entry v crew) (OrToolsOpt.decode_flight v crew)
              (decode_flight_entry v crew) flights ([], ∅))
    as (ys & -> & HF).
  exact HF.
Qed.

(** The period's flights, as the table holds them. *)
Definition period_flights (db : Db.t) (period_start period_end : Z) : list Flight.t :=
  filter (fun f => SimpleOpt.in_period period_start period_end f = true) (Db.flight db).

Lemma query_flights_perm db period_start period_end :
  SimpleOpt.query_flights db period_start period_end ≡ₚ period_flights db period_start period_end.
Proof. apply sort_by_perm. Qed.

(** Every flight of [flights] has exactly one entry in [asg], and [asg] holds
    nothing else; an entry either names a crew or is the UNASSIGNED entry. *)
Definition exactly_once (flights : list Flight.t) (asg : list Assignment.t) : Prop :=
  (forall f, f ∈ flights ->
     length (filter (fun a => Assignment.flight_id a = Flight.flight_id f) asg) = 1%nat)
  /\ (forall a, a ∈ asg ->
        exists f, f ∈ flights
                  /\ (a = SimpleOpt.unassigned f \/ exists c, a = assigned_entry f c)).

Lemma count_in_NoDup (x : Z) (l : list Z) :
  NoDup l -> x ∈ l -> length (filter (fun y => y = x) l) = 1%nat.
Proof.
  induction 1 as [| y ys Hy Hnd IH]; intros Hin; [by apply elem_of_nil in Hin |].
  rewrite filter_cons. destruct (decide (y = x)) as [-> | Hne].
  - simpl. f_equal. apply length_zero_iff_nil.
    destruct (filter (fun y => y = x) ys) as [| z zs] eqn:Hf; [done |].
    assert (z ∈ filter (fun y => y = x) ys) as Hz by (rewrite Hf; left).
    apply list_elem_of_filter in Hz as [-> Hz]. done.
  - apply IH. apply elem_of_cons in Hin as [-> | Hin]; done.
Qed.

Lemma filter_map_length {A : Type} (g : A -> Z) (x : Z) (l : list A) :
  length (filter (fun a => g a = x) l) = length (filter (fun y => y = x) (map g l)).
Proof.
  induction l as [| a l IH]; [done |]. simpl map. rewrite !filter_cons.
  destruct (decide (g a = x)); simpl; by rewrite IH.
Qed.

Lemma Forall2_elem_of_r {A B : Type} (R : A -> B -> Prop) l k b :
  Forall2 R l k -> b ∈ k -> exists a, a ∈ l /\ R a b.
Proof.
  induction 1 as [| x y xs ys Hxy _ IH]; intros Hb; [by apply elem_of_nil in Hb |].
  apply elem_of_cons in Hb as [-> | Hb].
  - exists x. split; [left | done].
  - destruct (IH Hb) as (a & Ha & HR). exists a. split; [by right | done].
Qed.

Lemma Forall2_exactly_once (R : Flight.t -> Assignment.t -> Prop) flights flights' asg :
  (forall f a, R f a ->
     a = SimpleOpt.unassigned f \/ exists c, a = assigned_entry f c) ->
  NoDup (map Flight.flight_id flights) ->
  flights ≡ₚ flights' ->
  Forall2 R flights asg ->
  exactly_once flights' asg.
Proof.
  intros HR Hnd Hperm HF.
  assert (map Assignment.flight_id asg = map Flight.flight_id flights) as Hids.
  { clear Hnd Hperm. induction HF as [| f a fs as_ Hfa _ IH]; [done |]. simpl.
    rewrite IH. f_equal.
    destruct (HR f a Hfa) as [-> | [c ->]]; reflexivity. }
  split.
  - intros f Hf. rewrite <- Hperm in Hf.
    rewrite filter_map_length, Hids. apply count_in_NoDup; [done |].
    apply list_elem_of_In, in_map, list_elem_of_In, Hf.
  - intros a Ha.
    destruct (Forall2_elem_of_r _ _ _ _ HF Ha) as (f & Hf & Hfa).
    exists f. split; [by rewrite <- Hperm | by apply HR].
Qed.

Lemma period_flights_NoDup db period_start period_end :
  NoDup (map Flight.flight_id (Db.flight db)) ->
  NoDup (map Flight.flight_id (SimpleOpt.query_flights db period_start period_end)).
Proof.
  intros Hnd.
  assert (map Flight.flight_id (SimpleOpt.query_flights db period_start period_end)
          ≡ₚ map Flight.flight_id (period_flights db period_start period_end)) as ->.
  { apply Permutation_map, query_flights_perm. }
  eapply sublist_NoDup; [exact Hnd |].
  unfold period_flights.
  change (Flight.flight_id <$> filter (fun f => SimpleOpt.in_period period_start period_end f = true) (Db.flight db)
          `sublist_of` Flight.flight_id <$> Db.flight db).
  apply fmap_sublist, sublist_filter.
Qed.

(** ** [generate_roster] returns *)

Lemma flight_by_id_is_Some db f :
  f ∈ Db.flight db -> is_Some (SimpleOpt.flight_by_id db (Flight.flight_id f)).
Proof.
  intros Hf. unfold SimpleOpt.flight_by_id. apply head_is_Some.
  intros Hnil. by apply (filter_nil_not_elem_of _ _ f Hnil eq_refl).
Qed.

Lemma total_pref_score_ok db pref_map l :
  Forall (fun a => is_Some (SimpleOpt.flight_by_id db (Assignment.flight_id a))) l ->
  exists z, SimpleOpt.total_pref_score db pref_map l = Ok z.
Proof.
  induction 1 as [| a l [fl Hfl] _ [z IH]]; simpl; [by eexists |].
  destruct (Assignment.has_crew a); [| by eexists].
  rewrite Hfl, IH. simpl. by eexists.
Qed.

Lemma query_flights_in_table db period_start period_end f :
  f ∈ SimpleOpt.query_flights db period_start period_end ->
  f ∈ Db.flight db /\ SimpleOpt.in_period period_start period_end f = true.
Proof.
  rewrite query_flights_perm. unfold period_flights. rewrite list_elem_of_filter. tauto.
Qed.

Lemma generate_roster_ok today db period_start period_end rules :
  exists total_pref,
    SimpleOpt.generate_roster today db period_start period_end rules
    = Ok (SimpleOpt.assignments (SimpleOpt.run_loop today db period_start period_end rules),
          compute_kpis
            (Z.of_nat (length (SimpleOpt.query_flights db period_start period_end)))
            (Z.of_nat (length (filter (fun a => Assignment.has_crew a = true)
               (SimpleOpt.assignments (SimpleOpt.run_loop today db period_start period_end rules)))))
            (SimpleOpt.crew_duty_count (SimpleOpt.run_loop today db period_start period_end rules))
            total_pref).
Proof.
  unfold SimpleOpt.generate_roster.
  destruct (total_pref_score_ok db
              (SimpleOpt.pref_map (SimpleOpt.make_env today db period_start period_end rules))
              (SimpleOpt.assignments (SimpleOpt.run_loop today db period_start period_end rules)))
    as [z Hz].
  - apply Forall_forall. intros a Ha.
    destruct (Forall2_elem_of_r _ _ _ _ (run_loop_entries today db period_start period_end rules) Ha)
      as (f & Hf & Hfa).
    apply query_flights_in_table in Hf as [Hf _].
    replace (Assignment.flight_id a) with (Flight.flight_id f).
    + by apply flight_by_id_is_Some.
    + destruct Hfa as [-> | (c & _ & -> & _)]; reflexivity.
  - exists z. by rewrite Hz.
Qed.

(** ** Duty counts are never negative *)

Definition counts_ok (m : gmap Z Z) : Prop := map_Forall (fun _ v => 0 <= v) m.

Lemma counts_ok_incr (m : gmap Z Z) k :
  counts_ok m -> counts_ok (<[k := default 0 (m !! k) + 1]> m).
Proof.
  intros Hm. apply map_Forall_insert_2; [| exact Hm].
  destruct (m !! k) as [v |] eqn:Hk; simpl; [| lia].
  specialize (Hm k v Hk). simpl in Hm. lia.
Qed.

Lemma assign_flight_counts env st f :
  counts_ok (SimpleOpt.crew_duty_count st) ->
  counts_ok (SimpleOpt.crew_duty_count (SimpleOpt.assign_flight env st f)).
Proof.
  intros Hst. unfold SimpleOpt.assign_flight.
  destruct (SimpleOpt.scored_crew env st f) as [| best rest]; [exact Hst |].
  unfold SimpleOpt.update_history. cbn [SimpleOpt.crew_duty_count].
  by apply counts_ok_incr.
Qed.

Lemma run_loop_counts today db period_start period_end rules :
  counts_ok (SimpleOpt.crew_duty_count
               (SimpleOpt.run_loop today db period_start period_end rules)).
Proof.
  unfold SimpleOpt.run_loop.
  apply (fold_left_invariant (fun st => counts_ok (SimpleOpt.crew_duty_count st))).
  - intros st f. apply assign_flight_counts.
  - apply map_Forall_empty.
Qed.

Lemma decode_counts v flights crew :
  counts_ok (snd (OrToolsOpt.decode v flights crew)).
Proof.
  unfold OrToolsOpt.decode.
  apply (fold_left_invariant (fun acc => counts_ok (snd acc))).
  - intros [asg counts] f Hc. unfold OrToolsOpt.decode_flight.
    destruct (head _); [| exact Hc]. by apply counts_ok_incr.
  - apply map_Forall_empty.
Qed.

Lemma process_solution_unfold v flights crew pref_map :
  exists total_pref,
    OrToolsOpt._process_solution v flights crew pref_map
    = (fst (OrToolsOpt.decode v flights crew),
       compute_kpis (Z.of_nat (length flights))
         (Z.of_nat (length (filter (fun a => Assignment.has_crew a = true)
                      (fst (OrToolsOpt.decode v flights crew)))))
         (snd (OrToolsOpt.decode v flights crew)) total_pref).
Proof.
  unfold OrToolsOpt._process_solution.
  destruct (OrToolsOpt.decode v flights crew) as [asg counts]. by eexists.
Qed.

(** C1. With flight ids unique in the flight table (the primary key), the
    roster [generate_roster] returns, and the roster the decoder of the
    constraint solver builds from any solution, hold exactly one entry for
    every flight of the period and nothing else, each entry either naming a
    crew or being the UNASSIGNED entry of its flight; [generate_roster]
    returns rather than raises, and a flight without eligible crew gets the
    UNASSIGNED entry. *)
Theorem C1_every_flight_exactly_once today db period_start period_end rules :
  NoDup (map Flight.flight_id (Db.flight db)) ->
  let flights := period_flights db period_start period_end in
  (exists asg kpis,
      SimpleOpt.generate_roster today db period_start period_end rules = Ok (asg, kpis)
      /\ exactly_once flights asg)
  /\ (forall v pref_map,
        exactly_once flights
          (fst (OrToolsOpt._process_solution v
                  (OrToolsOpt._get_flights (OrToolsOpt.init db rules) period_start period_end)
                  (OrToolsOpt._get_active_crew (OrToolsOpt.init db rules)) pref_map)))
  /\ (forall env st f,
        SimpleOpt.scored_crew env st f = [] ->
        SimpleOpt.assignments (SimpleOpt.assign_flight env st f)
        = (SimpleOpt.assignments st ++ [SimpleOpt.unassigned f])%list).
Proof.
  intros Hnd flights.
  pose proof (period_flights_NoDup db period_start period_end Hnd) as Hnd'.
  split; [| split].
  - destruct (generate_roster_ok today db period_start period_end rules) as [z Hz].
    eexists _, _. split; [exact Hz |].
    eapply Forall2_exactly_once;
      [| exact Hnd' | apply query_flights_perm | apply run_loop_entries].
    intros f a [-> | (c & _ & -> & _)]; [by left | right; by exists c].
  - intros v pref_map.
    destruct (process_solution_unfold v
                (OrToolsOpt._get_flights (OrToolsOpt.init db rules) period_start period_end)
                (OrToolsOpt._get_active_crew (OrToolsOpt.init db rules)) pref_map) as [z ->].
    cbn [fst].
    eapply Forall2_exactly_once;
      [| exact Hnd' | apply query_flights_perm | apply decode_entries].
    intros f a [-> | (c & _ & -> & _)]; [by left | right; by exists c].
  - intros env st f Hs. unfold SimpleOpt.assign_flight. by rewrite Hs.
Qed.

Lemma C1_every_flight_exactly_once_witness :
  exists asg kpis,
    SimpleOpt.generate_roster StreakExample.today StreakExample.db 739000 739001
      RulesEngine.default = Ok (asg, kpis)
    /\ exactly_once (period_flights StreakExample.db 739000 739001) asg.
Proof.
  refine (proj1 (C1_every_flight_exactly_once StreakExample.today StreakExample.db
                   739000 739001 RulesEngine.default _)).
  apply (bool_decide_unpack _). vm_compute. exact I.
Defined.

(** C8. In the KPI record of every roster, from [generate_roster] and from
    the constraint-solver entry point (whether the solver's solution is
    decoded or the greedy fallback runs), [fairness_score] equals
    1 - (max - min) / (max + 1), lies between 0 and 1, and is 1 when the
    maximum duty count is 0 or equals the minimum.  Floats are read as
    rationals. *)
Theorem C8_fairness_score
    (Solve : CpModel.solver -> CpModel.t -> CpModel.status * CpModel.valuation)
    today db period_start period_end rules :
  (exists asg kpis,
      SimpleOpt.generate_roster today db period_start period_end rules = Ok (asg, kpis)
      /\ fairness_spec kpis)
  /\ (exists asg kpis,
        OrToolsOpt.generate_roster_with_or_tools Solve today db period_start period_end rules
        = Ok (asg, kpis)
        /\ fairness_spec kpis).
Proof.
  assert (exists asg kpis,
             SimpleOpt.generate_roster today db period_start period_end rules = Ok (asg, kpis)
             /\ fairness_spec kpis) as Hgreedy.
  { destruct (generate_roster_ok today db period_start period_end rules) as [z Hz].
    eexists _, _. split; [exact Hz |].
    apply compute_kpis_fairness, run_loop_counts. }
  split; [exact Hgreedy |].
  unfold OrToolsOpt.generate_roster_with_or_tools, OrToolsOpt.optimize_roster.
  destruct (Solve _ _) as [status v].
  destruct (CpModel.found status); [| exact Hgreedy].
  destruct (process_solution_unfold v
              (OrToolsOpt._get_flights (OrToolsOpt.init db rules) period_start period_end)
              (OrToolsOpt._get_active_crew (OrToolsOpt.init db rules))
              (OrToolsOpt._build_preference_map
                 (OrToolsOpt._get_preferences today (OrToolsOpt.init db rules)))) as [z ->].
  eexists _, _. split; [reflexivity |].
  apply compute_kpis_fairness, decode_counts.
Qed.

(** ** The delay handler *)

Lemma first_max_nil {A : Type} (key : A -> Z) l : first_max key l = None -> l = [].
Proof.
  destruct l as [| x xs]; [done |]. simpl.
  destruct (first_max key xs) as [y |]; [| done]. by destruct (key x <? key y).
Qed.

Lemma first_max_elem_of {A : Type} (key : A -> Z) l x : first_max key l = Some x -> x ∈ l.
Proof.
  revert x. induction l as [| y ys IH]; intros x; simpl; [done |].
  destruct (first_max key ys) as [z |].
  - destruct (key y <? key z); intros [= <-]; [right; by apply IH | left].
  - intros [= <-]. left.
Qed.

(** The flight the handler picks carries the requested number; there is one
    exactly when the table has a flight with that number. *)
Lemma latest_flight_Some db flight_no f :
  SimpleOpt.latest_flight db flight_no = Some f ->
  f ∈ Db.flight db /\ Flight.flight_no f = flight_no.
Proof.
  intros H. apply first_max_elem_of, list_elem_of_filter in H. tauto.
Qed.

Lemma latest_flight_None db flight_no :
  SimpleOpt.latest_flight db flight_no = None ->
  forall f, f ∈ Db.flight db -> Flight.flight_no f <> flight_no.
Proof.
  intros H f Hf Hno. apply first_max_nil in H.
  by apply (filter_nil_not_elem_of _ _ f H Hno).
Qed.

(** What the date arithmetic of the handler needs: the delay is a
    [timedelta] and the moved departure and arrival are datetimes. *)
Definition delay_representable (f : Flight.t) (delay_minutes : Z) : Prop :=
  DateTime.is_timedelta (Time.minutes delay_minutes)
  /\ DateTime.is_datetime (Flight.sched_dep_utc f + Time.minutes delay_minutes)
  /\ DateTime.is_datetime (Flight.sched_arr_utc f + Time.minutes delay_minutes).

Lemma shifted_times f delay_minutes {A : Type} (k : Z -> Z -> Result A) :
  bind (DateTime.timedelta_minutes delay_minutes) (fun delta =>
  bind (DateTime.add (Flight.sched_dep_utc f) delta) (fun new_dep =>
  bind (DateTime.timedelta_minutes delay_minutes) (fun delta =>
  bind (DateTime.add (Flight.sched_arr_utc f) delta) (fun new_arr =>
  k new_dep new_arr))))
  = if bool_decide (delay_representable f delay_minutes)
    then k (Flight.sched_dep_utc f + Time.minutes delay_minutes)
           (Flight.sched_arr_utc f + Time.minutes delay_minutes)
    else Raise OverflowError.
Proof.
  unfold delay_representable, DateTime.timedelta_minutes, DateTime.add.
  destruct (bool_decide_reflect (DateTime.is_timedelta (Time.minutes delay_minutes)))
    as [Ht | Ht]; simpl.
  - destruct (bool_decide_reflect
                (DateTime.is_datetime (Flight.sched_dep_utc f + Time.minutes delay_minutes)))
      as [Hd | Hd]; simpl.
    + destruct (bool_decide_reflect
                  (DateTime.is_datetime (Flight.sched_arr_utc f + Time.minutes delay_minutes)))
        as [Ha | Ha]; simpl.
      * by rewrite bool_decide_true.
      * rewrite bool_decide_false; [done | tauto].
    + rewrite bool_decide_false; [done | tauto].
  - rewrite bool_decide_false; [done | tauto].
Qed.

(** C9. When the flight table has a flight with the given number, the
    handler answers with a patch for such a flight in which departure and
    arrival are each moved by exactly the delay, and whose feasibility flag
    is [duty_duration_ok] of the caller's rules on the moved window,
    provided the delay is a [timedelta] and the moved times are datetimes
    (years 1 to 9999); when no flight has the number it returns the
    [flight_not_found] result, leaves the session as it was, and does not
    raise. *)
Theorem C9_delay_patch now s flight_no delay_minutes rules :
  ((exists f, f ∈ Db.flight (Session.pending s) /\ Flight.flight_no f = flight_no) ->
   exists f,
     f ∈ Db.flight (Session.pending s) /\ Flight.flight_no f = flight_no
     /\ (delay_representable f delay_minutes ->
         snd (SimpleOpt.propose_patch_for_delay now s flight_no delay_minutes rules)
         = Ok (SimpleOpt.DelayShift (Flight.flight_id f) (Flight.flight_no f)
                 (Flight.sched_dep_utc f + delay_minutes * Time.US_PER_MINUTE)
                 (Flight.sched_arr_utc f + delay_minutes * Time.US_PER_MINUTE)
                 (RulesEngine.duty_duration_ok rules
                    (Flight.sched_dep_utc f + delay_minutes * Time.US_PER_MINUTE)
                    (Flight.sched_arr_utc f + delay_minutes * Time.US_PER_MINUTE)))))
  /\ ((forall f, f ∈ Db.flight (Session.pending s) -> Flight.flight_no f <> flight_no) ->
      SimpleOpt.propose_patch_for_delay now s flight_no delay_minutes rules
      = (s, Ok (SimpleOpt.DelayError "flight_not_found"))).
Proof.
  unfold SimpleOpt.propose_patch_for_delay.
  destruct (SimpleOpt.latest_flight (Session.pending s) flight_no) as [f |] eqn:Hl.
  - apply latest_flight_Some in Hl as [Hf Hno]. split.
    + intros _. exists f. split; [done |]. split; [done |]. intros Hrep.
      cbn [snd]. rewrite shifted_times, bool_decide_true by done. reflexivity.
    + intros Hnone. by destruct (Hnone f Hf).
  - split; [| done].
    intros (f & Hf & Hno). by destruct (latest_flight_None _ _ Hl f Hf).
Qed.

Module DelayExample.
Definition flight1 : Flight.t :=
  Flight.mk 1 "6E101" 739000 "DEL" "BOM" (Time.at_time 739000 8 0) (Time.at_time 739000 10 0) "A320".
Definition db : Db.t := Db.mk [] [] [] [] [] [flight1] [] [].
Definition now : Z := Time.at_time 739000 6 0.
End DelayExample.

Lemma C9_delay_patch_witness :
  snd (SimpleOpt.propose_patch_for_delay DelayExample.now (Session.of_db DelayExample.db)
         "6E101" 60 RulesEngine.default)
  = Ok (SimpleOpt.DelayShift 1 "6E101" (Time.at_time 739000 9 0) (Time.at_time 739000 11 0)
          true)
  /\ SimpleOpt.propose_patch_for_delay DelayExample.now (Session.of_db DelayExample.db)
       "6E999" 60 RulesEngine.default
     = (Session.of_db DelayExample.db, Ok (SimpleOpt.DelayError "flight_not_found")).
Proof.
  split.
  - destruct (proj1 (C9_delay_patch DelayExample.now (Session.of_db DelayExample.db)
                       "6E101" 60 RulesEngine.default)) as (f & Hf & Hno & Hres).
    + exists DelayExample.flight1. split; [left | reflexivity].
    + vm_compute in Hf. apply list_elem_of_In in Hf as [<- | []].
      rewrite Hres; [vm_compute; reflexivity |].
      apply (bool_decide_unpack _). vm_compute. exact I.
  - apply (proj2 (C9_delay_patch DelayExample.now (Session.of_db DelayExample.db)
                    "6E999" 60 RulesEngine.default)).
    intros f Hf. vm_compute in Hf. apply list_elem_of_In in Hf as [<- | []]. discriminate.
Defined.

(** ** Qualifications *)

(** Every entry of a qualification map is a row of the table, filed under
    its own crew and aircraft type. *)
Definition qual_map_sound (quals : list CrewQualification.t)
    (m : gmap Z (gmap string CrewQualification.t)) : Prop :=
  forall cid inner code q,
    m !! cid = Some inner -> inner !! code = Some q ->
    q ∈ quals /\ CrewQualification.crew_id q = cid /\ CrewQualification.aircraft_code q = code.

Lemma qual_map_sound_insert quals m q :
  q ∈ quals -> qual_map_sound quals m ->
  qual_map_sound quals
    (<[CrewQualification.crew_id q :=
         <[CrewQualification.aircraft_code q := q]>
           (default ∅ (m !! CrewQualification.crew_id q))]> m).
Proof.
  intros Hq Hm cid inner code q' Hcid Hcode.
  destruct (decide (CrewQualification.crew_id q = cid)) as [<- | Hne].
  - rewrite lookup_insert_eq in Hcid. injection Hcid as <-.
    destruct (decide (CrewQualification.aircraft_code q = code)) as [<- | Hne].
    + rewrite lookup_insert_eq in Hcode. by injection Hcode as <-.
    + rewrite lookup_insert_ne in Hcode by done.
      destruct (m !! CrewQualification.crew_id q) as [old |] eqn:Hold; simpl in Hcode.
      * by apply (Hm _ _ _ _ Hold Hcode).
      * by rewrite lookup_empty in Hcode.
  - rewrite lookup_insert_ne in Hcid by done. by apply (Hm _ _ _ _ Hcid Hcode).
Qed.

Lemma fold_left_elem_invariant {S X : Type} (P : S -> Prop) (step : S -> X -> S) (l : list X) :
  (forall s x, x ∈ l -> P s -> P (step s x)) ->
  forall s, P s -> P (fold_left step l s).
Proof.
  induction l as [| x xs IH]; simpl; intros Hstep s Hs; [done |].
  apply IH.
  - intros s' y Hy. apply Hstep. by right.
  - apply Hstep; [left | done].
Qed.

Lemma build_qualification_map_sound today quals :
  qual_map_sound quals (SimpleOpt.build_qualification_map today quals).
Proof.
  unfold SimpleOpt.build_qualification_map.
  apply (fold_left_elem_invariant (qual_map_sound quals)).
  - intros m q Hq Hm.
    destruct (CrewQualification.expires_on q) as [e |].
    + destruct (today <=? e); [by apply qual_map_sound_insert | done].
    + by apply qual_map_sound_insert.
  - intros cid inner code q Hcid. by rewrite lookup_empty in Hcid.
Qed.

(** A crew holds, in the table, a qualification for the aircraft type of
    [f] that has not expired before the flight date. *)
Definition validly_qualified (db : Db.t) (f : Flight.t) (cid : Z) : Prop :=
  exists q,
    q ∈ Db.crew_qualification db
    /\ CrewQualification.crew_id q = cid
    /\ CrewQualification.aircraft_code q = Flight.aircraft_code f
    /\ match CrewQualification.expires_on q with
       | Some e => Flight.flight_date f <= e
       | None => True
       end.

Lemma is_crew_qualified_valid today db f cid :
  SimpleOpt.is_crew_qualified_for_flight cid f
    (SimpleOpt.build_qualification_map today (Db.crew_qualification db))
    (Flight.flight_date f) = true ->
  validly_qualified db f cid.
Proof.
  unfold SimpleOpt.is_crew_qualified_for_flight.
  destruct (SimpleOpt.build_qualification_map today (Db.crew_qualification db) !! cid)
    as [inner |] eqn:Hcid; simpl; [| by rewrite lookup_empty].
  destruct (inner !! Flight.aircraft_code f) as [q |] eqn:Hcode; [| done].
  destruct (build_qualification_map_sound today _ _ _ _ _ Hcid Hcode) as (Hq & Hc & Ha).
  intros Hexp. exists q. repeat split; try done.
  destruct (CrewQualification.expires_on q) as [e |]; [| done].
  destruct (Z.ltb_spec e (Flight.flight_date f)); [done | lia].
Qed.

(** The greedy half of C2: every crew in the greedy roster is validly
    qualified for its flight. *)
Lemma greedy_roster_qualified today db period_start period_end rules :
  Forall2 (fun f a => forall cid, Assignment.crew_id a = Some cid -> validly_qualified db f cid)
    (SimpleOpt.query_flights db period_start period_end)
    (SimpleOpt.assignments (SimpleOpt.run_loop today db period_start period_end rules)).
Proof.
  eapply Forall2_impl; [apply run_loop_entries |].
  intros f a [-> | (c & _ & -> & Hq & _)] cid; [done |].
  intros [= <-]. by apply (is_crew_qualified_valid today).
Qed.

Module ExpiryExample.
Definition today : Z := 739000.
Definition crew1 : Crew.t := Crew.mk 1 "E001" "Asha" "Captain" "DEL" "Active".
Definition qual1 : CrewQualification.t := CrewQualification.mk 1 "A320" 738000 (Some 739005).
Definition flight1 : Flight.t :=
  Flight.mk 1 "6E101" 739010 "DEL" "BOM" (Time.at_time 739010 8 0) (Time.at_time 739010 10 0) "A320".
Definition db : Db.t := Db.mk [crew1] [qual1] [] [] [] [flight1] [] [].
Definition self : OrToolsOpt.CrewRosteringOptimizer := OrToolsOpt.init db RulesEngine.default.
End ExpiryExample.

(** C2 (the code departs from the claim on the constraint-solver path).
    Crew 1 holds an A320 qualification that expires on day 739005, after
    today (739000) and before the flight (739010).  The model the optimizer
    builds has a solution, and every solution decodes to the roster that
    puts crew 1 on the flight: [_add_qualification_constraints] only asks
    for a record in [qual_map], which is filtered by today's date, and never
    compares the expiry with the flight date.  The greedy assigner, on the
    same data, leaves the flight unassigned. *)
Theorem C2_solver_assigns_qualification_expired_before_flight :
  let m := OrToolsOpt.build_model ExpiryExample.today ExpiryExample.self 739010 739010 in
  let flights := OrToolsOpt._get_flights ExpiryExample.self 739010 739010 in
  let crew := OrToolsOpt._get_active_crew ExpiryExample.self in
  (exists v, CpModel.satisfies v m = true)
  /\ (forall v, CpModel.satisfies v m = true ->
        fst (OrToolsOpt.decode v flights crew)
        = [assigned_entry ExpiryExample.flight1 ExpiryExample.crew1])
  /\ Db.crew_qualification ExpiryExample.db = [ExpiryExample.qual1]
  /\ CrewQualification.expires_on ExpiryExample.qual1 = Some 739005
  /\ 739005 < Flight.flight_date ExpiryExample.flight1
  /\ SimpleOpt.assignments
       (SimpleOpt.run_loop ExpiryExample.today ExpiryExample.db 739010 739010 RulesEngine.default)
     = [SimpleOpt.unassigned ExpiryExample.flight1].
Proof.
  cbv zeta. split; [| split; [| repeat split]].
  - exists (fun _ => true). vm_compute. reflexivity.
  - intros v Hv.
    assert (v (1, 1) = true) as Hv1.
    { vm_compute in Hv. destruct (v (1, 1)); [done | discriminate]. }
    vm_compute. rewrite Hv1. reflexivity.
Qed.

(** ** Availability *)

(** Record [r] is filed under its crew in the map. *)
Definition filed (m : gmap Z (list CrewAvailability.t)) (r : CrewAvailability.t) : Prop :=
  exists l, m !! CrewAvailability.crew_id r = Some l /\ r ∈ l.

Definition file_record (m : gmap Z (list CrewAvailability.t)) (record : CrewAvailability.t)
    : gmap Z (list CrewAvailability.t) :=
  <[CrewAvailability.crew_id record :=
      (default [] (m !! CrewAvailability.crew_id record) ++ [record])%list]> m.

Lemma file_record_new m r : filed (file_record m r) r.
Proof.
  eexists. unfold file_record. rewrite lookup_insert_eq. split; [done |].
  apply elem_of_app. right. left.
Qed.

Lemma file_record_keeps m r r' : filed m r -> filed (file_record m r') r.
Proof.
  intros (l & Hl & Hr). unfold filed, file_record.
  destruct (decide (CrewAvailability.crew_id r' = CrewAvailability.crew_id r)) as [Heq | Hne].
  - rewrite Heq, lookup_insert_eq, Hl. eexists. split; [done |].
    apply elem_of_app. by left.
  - rewrite lookup_insert_ne by done. by exists l.
Qed.

Lemma fold_file_record_keeps records : forall m r,
  filed m r -> filed (fold_left file_record records m) r.
Proof.
  induction records as [| x xs IH]; simpl; intros m r Hr; [done |].
  by apply IH, file_record_keeps.
Qed.

Lemma build_unavailable_crew_map_filed records r :
  r ∈ records -> filed (SimpleOpt.build_unavailable_crew_map records) r.
Proof.
  unfold SimpleOpt.build_unavailable_crew_map.
  change (fun m record => _) with file_record.
  generalize (∅ : gmap Z (list CrewAvailability.t)).
  induction records as [| x xs IH]; intros m Hr; [by apply elem_of_nil in Hr |].
  simpl. apply elem_of_cons in Hr as [-> | Hr].
  - apply fold_file_record_keeps, file_record_new.
  - by apply IH.
Qed.

(** No approved record of crew [cid] covers the date of flight [f]. *)
Definition no_approved_unavailability (db : Db.t) (f : Flight.t) (cid : Z) : Prop :=
  forall r,
    r ∈ Db.crew_availability db ->
    CrewAvailability.crew_id r = cid ->
    CrewAvailability.status r = "approved" ->
    ~ (CrewAvailability.unavailable_from r <= Flight.flight_date f
       <= CrewAvailability.unavailable_to r).

(** What C3 asks of a roster entry. *)
Definition availability_respected (db : Db.t) (f : Flight.t) (a : Assignment.t) : Prop :=
  forall cid, Assignment.crew_id a = Some cid -> no_approved_unavailability db f cid.

Lemma is_crew_available_sound db period_start period_end f cid :
  SimpleOpt.in_period period_start period_end f = true ->
  SimpleOpt.is_crew_available cid (Flight.flight_date f)
    (SimpleOpt.build_unavailable_crew_map
       (SimpleOpt.query_unavailable_crew db period_start period_end)) = true ->
  no_approved_unavailability db f cid.
Proof.
  intros Hper Hav r Hr Hcid Hst [Hfrom Hto].
  unfold SimpleOpt.in_period in Hper. apply andb_prop in Hper as [Hps Hpe].
  assert (r ∈ SimpleOpt.query_unavailable_crew db period_start period_end) as Hq.
  { unfold SimpleOpt.query_unavailable_crew. apply list_elem_of_filter. split; [| done].
    repeat split; [lia | lia | done]. }
  apply build_unavailable_crew_map_filed in Hq as (l & Hl & Hrl).
  unfold SimpleOpt.is_crew_available in Hav. rewrite <- Hcid, Hl in Hav.
  apply negb_true_iff in Hav.
  assert (existsb (SimpleOpt.covers (Flight.flight_date f)) l = true) as Hex.
  { apply existsb_exists. exists r. split; [by apply list_elem_of_In |].
    unfold SimpleOpt.covers. apply andb_true_intro. split; lia. }
  congruence.
Qed.

Lemma greedy_roster_available today db period_start period_end rules :
  Forall2 (availability_respected db)
    (SimpleOpt.query_flights db period_start period_end)
    (SimpleOpt.assignments (SimpleOpt.run_loop today db period_start period_end rules)).
Proof.
  pose proof (run_loop_entries today db period_start period_end rules) as HF.
  apply Forall2_same_length_lookup. split; [by eapply Forall2_length |].
  intros i f a Hf Ha. pose proof (Forall2_lookup_lr _ _ _ _ _ _ HF Hf Ha) as Hfa.
  apply list_elem_of_lookup_2, query_flights_in_table in Hf as [_ Hper].
  destruct Hfa as [-> | (c & _ & -> & _ & Hav)]; intros cid; [done |].
  intros [= <-]. by apply (is_crew_available_sound db period_start period_end).
Qed.

(** The solver contract the optimizer relies on: when the status is
    [OPTIMAL] or [FEASIBLE], the values satisfy every constraint of the
    model. *)
Definition solver_sound
    (Solve : CpModel.solver -> CpModel.t -> CpModel.status * CpModel.valuation) : Prop :=
  forall s m, CpModel.found (fst (Solve s m)) = true ->
              CpModel.satisfies (snd (Solve s m)) m = true.

Lemma set_objective_constraints m flights crew pref_map :
  CpModel.constraints (OrToolsOpt._set_objective m flights crew pref_map)
  = CpModel.constraints m.
Proof.
  unfold OrToolsOpt._set_objective. by destruct (OrToolsOpt.objective_terms _ _ _).
Qed.

Lemma availability_constraint_in_model today self period_start period_end f c :
  f ∈ OrToolsOpt._get_flights self period_start period_end ->
  c ∈ OrToolsOpt._get_active_crew self ->
  OrToolsOpt.unavailable_on
    (OrToolsOpt._build_unavailable_crew_map
       (OrToolsOpt._get_unavailable_crew self period_start period_end)) f c = true ->
  CpModel.EqZero (OrToolsOpt.key f c)
  ∈ CpModel.constraints (OrToolsOpt.build_model today self period_start period_end).
Proof.
  intros Hf Hc Hu. unfold OrToolsOpt.build_model.
  rewrite set_objective_constraints. unfold CpModel.add. cbn [CpModel.constraints].
  rewrite !elem_of_app. left. left. right.
  unfold OrToolsOpt._add_availability_constraints.
  apply list_elem_of_In, in_flat_map. exists f. split; [by apply list_elem_of_In |].
  apply in_flat_map. exists c. split; [by apply list_elem_of_In |].
  rewrite Hu. by left.
Qed.

Lemma satisfies_holds v m c :
  CpModel.satisfies v m = true -> c ∈ CpModel.constraints m -> CpModel.holds v c = true.
Proof.
  unfold CpModel.satisfies. rewrite forallb_forall. intros H Hc.
  by apply H, list_elem_of_In.
Qed.

Lemma unavailable_on_false_sound db period_start period_end rules f c :
  SimpleOpt.in_period period_start period_end f = true ->
  OrToolsOpt.unavailable_on
    (OrToolsOpt._build_unavailable_crew_map
       (OrToolsOpt._get_unavailable_crew (OrToolsOpt.init db rules) period_start period_end))
    f c = false ->
  no_approved_unavailability db f (Crew.crew_id c).
Proof.
  intros Hper Hu.
  apply (is_crew_available_sound db period_start period_end); [done |].
  unfold SimpleOpt.is_crew_available. unfold OrToolsOpt.unavailable_on in Hu.
  change (OrToolsOpt._build_unavailable_crew_map
            (OrToolsOpt._get_unavailable_crew (OrToolsOpt.init db rules) period_start period_end))
    with (SimpleOpt.build_unavailable_crew_map
            (SimpleOpt.query_unavailable_crew db period_start period_end)) in Hu.
  destruct (_ !! Crew.crew_id c) as [records |]; [| done].
  unfold SimpleOpt.covers. by rewrite Hu.
Qed.

Lemma solution_roster_available today db period_start period_end rules v :
  CpModel.satisfies v
    (OrToolsOpt.build_model today (OrToolsOpt.init db rules) period_start period_end) = true ->
  Forall2 (availability_respected db)
    (SimpleOpt.query_flights db period_start period_end)
    (fst (OrToolsOpt.decode v
            (OrToolsOpt._get_flights (OrToolsOpt.init db rules) period_start period_end)
            (OrToolsOpt._get_active_crew (OrToolsOpt.init db rules)))).
Proof.
  intros Hsat.
  pose proof (decode_entries v
                (OrToolsOpt._get_flights (OrToolsOpt.init db rules) period_start period_end)
                (OrToolsOpt._get_active_crew (OrToolsOpt.init db rules))) as HF.
  change (OrToolsOpt._get_flights (OrToolsOpt.init db rules) period_start period_end)
    with (SimpleOpt.query_flights db period_start period_end) in *.
  apply Forall2_same_length_lookup. split; [by eapply Forall2_length |].
  intros i f a Hf Ha. pose proof (Forall2_lookup_lr _ _ _ _ _ _ HF Hf Ha) as Hfa.
  apply list_elem_of_lookup_2 in Hf. pose proof Hf as Hf'.
  apply query_flights_in_table in Hf' as [_ Hper].
  destruct Hfa as [-> | (c & Hc & -> & Hval)]; intros cid; [done |].
  intros [= <-].
  apply (unavailable_on_false_sound db period_start period_end rules); [done |].
  destruct (OrToolsOpt.unavailable_on _ f c) eqn:Hu; [| done].
  pose proof (availability_constraint_in_model today (OrToolsOpt.init db rules)
                period_start period_end f c Hf Hc Hu) as Hin.
  pose proof (satisfies_holds _ _ _ Hsat Hin) as Hh. simpl in Hh. lia.
Qed.

(** The database with every availability record that is not approved
    removed. *)
Definition approved_only (db : Db.t) : Db.t :=
  Db.with_availability db
    (filter (fun r => CrewAvailability.status r = "approved") (Db.crew_availability db)).

Lemma query_unavailable_crew_approved_only db period_start period_end :
  SimpleOpt.query_unavailable_crew (approved_only db) period_start period_end
  = SimpleOpt.query_unavailable_crew db period_start period_end.
Proof.
  unfold SimpleOpt.query_unavailable_crew, approved_only. cbn [Db.crew_availability Db.with_availability].
  apply list_filter_filter_l. tauto.
Qed.

Lemma total_pref_score_ext db1 db2 pref_map l :
  Db.flight db1 = Db.flight db2 ->
  SimpleOpt.total_pref_score db1 pref_map l = SimpleOpt.total_pref_score db2 pref_map l.
Proof.
  intros Hfl. induction l as [| a l IH]; simpl; [done |].
  rewrite IH. unfold SimpleOpt.flight_by_id. by rewrite Hfl.
Qed.

Lemma generate_roster_approved_only today db period_start period_end rules :
  SimpleOpt.generate_roster today (approved_only db) period_start period_end rules
  = SimpleOpt.generate_roster today db period_start period_end rules.
Proof.
  unfold SimpleOpt.generate_roster, SimpleOpt.run_loop, SimpleOpt.make_env.
  rewrite query_unavailable_crew_approved_only.
  rewrite (total_pref_score_ext (approved_only db) db) by reflexivity.
  reflexivity.
Qed.

Lemma build_model_approved_only today db period_start period_end rules :
  OrToolsOpt.build_model today (OrToolsOpt.init (approved_only db) rules) period_start period_end
  = OrToolsOpt.build_model today (OrToolsOpt.init db rules) period_start period_end.
Proof.
  unfold OrToolsOpt.build_model.
  change (OrToolsOpt._get_unavailable_crew (OrToolsOpt.init (approved_only db) rules)
            period_start period_end)
    with (SimpleOpt.query_unavailable_crew (approved_only db) period_start period_end).
  rewrite query_unavailable_crew_approved_only. reflexivity.
Qed.

Lemma or_tools_roster_approved_only Solve today db period_start period_end rules :
  OrToolsOpt.generate_roster_with_or_tools Solve today (approved_only db)
    period_start period_end rules
  = OrToolsOpt.generate_roster_with_or_tools Solve today db period_start period_end rules.
Proof.
  unfold OrToolsOpt.generate_roster_with_or_tools, OrToolsOpt.optimize_roster.
  rewrite build_model_approved_only.
  cbn [OrToolsOpt.db OrToolsOpt.init OrToolsOpt.rules OrToolsOpt.solver].
  rewrite generate_roster_approved_only. reflexivity.
Qed.

(** C3. Under the solver's contract, in the roster of either strategy (the
    greedy one, and the constraint solver's whether decoded from a solution
    or produced by the fallback) no entry names a crew that has an approved
    availability record covering the flight's date; and two databases that
    differ only in availability records that are not approved yield the same
    roster and KPIs under both strategies. *)
Theorem C3_approved_unavailability_excludes
    (Solve : CpModel.solver -> CpModel.t -> CpModel.status * CpModel.valuation)
    today db db' period_start period_end rules :
  solver_sound Solve ->
  approved_only db' = approved_only db ->
  (exists asg kpis,
      SimpleOpt.generate_roster today db period_start period_end rules = Ok (asg, kpis)
      /\ Forall2 (availability_respected db)
           (SimpleOpt.query_flights db period_start period_end) asg)
  /\ (exists asg kpis,
        OrToolsOpt.generate_roster_with_or_tools Solve today db period_start period_end rules
        = Ok (asg, kpis)
        /\ Forall2 (availability_respected db)
             (SimpleOpt.query_flights db period_start period_end) asg)
  /\ SimpleOpt.generate_roster today db' period_start period_end rules
     = SimpleOpt.generate_roster today db period_start period_end rules
  /\ OrToolsOpt.generate_roster_with_or_tools Solve today db' period_start period_end rules
     = OrToolsOpt.generate_roster_with_or_tools Solve today db period_start period_end rules.
Proof.
  intros Hsound Hsame.
  assert (exists asg kpis,
             SimpleOpt.generate_roster today db period_start period_end rules = Ok (asg, kpis)
             /\ Forall2 (availability_respected db)
                  (SimpleOpt.query_flights db period_start period_end) asg) as Hgreedy.
  { destruct (generate_roster_ok today db period_start period_end rules) as [z Hz].
    eexists _, _. split; [exact Hz | apply greedy_roster_available]. }
  split; [exact Hgreedy |]. split; [| split].
  - unfold OrToolsOpt.generate_roster_with_or_tools, OrToolsOpt.optimize_roster.
    pose proof (Hsound (OrToolsOpt.solver (OrToolsOpt.init db rules))
                  (OrToolsOpt.build_model today (OrToolsOpt.init db rules)
                     period_start period_end)) as Hs.
    destruct (Solve _ _) as [status v]. cbn [fst snd] in Hs.
    destruct (CpModel.found status); [| exact Hgreedy].
    destruct (process_solution_unfold v
                (OrToolsOpt._get_flights (OrToolsOpt.init db rules) period_start period_end)
                (OrToolsOpt._get_active_crew (OrToolsOpt.init db rules))
                (OrToolsOpt._build_preference_map
                   (OrToolsOpt._get_preferences today (OrToolsOpt.init db rules)))) as [z ->].
    eexists _, _. split; [reflexivity |].
    apply (solution_roster_available today). by apply Hs.
  - rewrite <- (generate_roster_approved_only today db'),
      <- (generate_roster_approved_only today db). by rewrite Hsame.
  - rewrite <- (or_tools_roster_approved_only Solve today db'),
      <- (or_tools_roster_approved_only Solve today db). by rewrite Hsame.
Qed.

Module AvailabilityExample.
Definition today : Z := 738990.
Definition crew1 : Crew.t := Crew.mk 1 "E001" "Asha" "Captain" "DEL" "Active".
Definition crew2 : Crew.t := Crew.mk 2 "E002" "Ravi" "Captain" "DEL" "Active".
Definition qual1 : CrewQualification.t := CrewQualification.mk 1 "A320" 738000 None.
Definition qual2 : CrewQualification.t := CrewQualification.mk 2 "A320" 738000 None.
Definition leave1 : CrewAvailability.t :=
  CrewAvailability.mk 1 "leave" None 738999 739001 "approved" 738900 (Some 738910) (Some "ops").
Definition leave2 : CrewAvailability.t :=
  CrewAvailability.mk 2 "leave" None 738999 739001 "pending" 738900 None None.
Definition flight1 : Flight.t :=
  Flight.mk 1 "6E101" 739000 "DEL" "BOM" (Time.at_time 739000 8 0) (Time.at_time 739000 10 0) "A320".
Definition db : Db.t := Db.mk [crew1; crew2] [qual1; qual2] [] [leave1; leave2] [] [flight1] [] [].
Definition db' : Db.t := Db.mk [crew1; crew2] [qual1; qual2] [] [leave1] [] [flight1] [] [].

(** A solver that proposes crew 2 for flight 1 and reports [OPTIMAL] exactly
    when that proposal satisfies the model. *)
Definition Solve (_ : CpModel.solver) (m : CpModel.t) : CpModel.status * CpModel.valuation :=
  let v : CpModel.valuation := fun x => bool_decide (x = (1, 2)) in
  if CpModel.satisfies v m then (CpModel.OPTIMAL, v) else (CpModel.INFEASIBLE, v).
End AvailabilityExample.

Lemma C3_approved_unavailability_excludes_witness :
  map Assignment.crew_id
    (SimpleOpt.assignments
       (SimpleOpt.run_loop AvailabilityExample.today AvailabilityExample.db 739000 739000
          RulesEngine.default)) = [Some 2]
  /\ exists asg kpis,
       OrToolsOpt.generate_roster_with_or_tools AvailabilityExample.Solve
         AvailabilityExample.today AvailabilityExample.db 739000 739000 RulesEngine.default
       = Ok (asg, kpis)
       /\ Forall2 (availability_respected AvailabilityExample.db)
            (SimpleOpt.query_flights AvailabilityExample.db 739000 739000) asg.
Proof.
  split; [vm_compute; reflexivity |].
  refine (proj1 (proj2 (C3_approved_unavailability_excludes AvailabilityExample.Solve
                          AvailabilityExample.today AvailabilityExample.db
                          AvailabilityExample.db' 739000 739000 RulesEngine.default _ _))).
  - intros s m. unfold AvailabilityExample.Solve.
    destruct (CpModel.satisfies _ m) eqn:Hs; simpl; [by rewrite Hs | discriminate].
  - vm_compute. reflexivity.
Defined.

(** ** The solver's time budget and the fallback *)

(** The solver object of the optimizer carries a wall-clock limit. *)
Definition has_time_budget (self : OrToolsOpt.CrewRosteringOptimizer) : Prop :=
  is_Some (CpModel.max_time_in_seconds (OrToolsOpt.solver self)).

(** C6, as stated, fails: the optimizer built by [__init__] holds a solver
    on which no time limit was ever set. *)
Lemma C6_solver_has_no_time_budget :
  ~ has_time_budget (OrToolsOpt.init Db.empty RulesEngine.default).
Proof. intros [t Ht]. discriminate Ht. Qed.

(** C6, amended. The solve call is made on a solver whose time limit the
    program never sets; whenever the solver's status is neither [OPTIMAL]
    nor [FEASIBLE] (infeasible, unknown after a limit, invalid model), the
    caller receives exactly what [generate_roster] returns for the same
    database, period and rules, and that is a result, not an exception. *)
Theorem C6_no_solution_falls_back_to_greedy
    (Solve : CpModel.solver -> CpModel.t -> CpModel.status * CpModel.valuation)
    today db period_start period_end rules :
  CpModel.found
    (fst (Solve (OrToolsOpt.solver (OrToolsOpt.init db rules))
            (OrToolsOpt.build_model today (OrToolsOpt.init db rules) period_start period_end)))
  = false ->
  CpModel.max_time_in_seconds (OrToolsOpt.solver (OrToolsOpt.init db rules)) = None
  /\ OrToolsOpt.generate_roster_with_or_tools Solve today db period_start period_end rules
     = SimpleOpt.generate_roster today db period_start period_end rules
  /\ exists r,
       OrToolsOpt.generate_roster_with_or_tools Solve today db period_start period_end rules
       = Ok r.
Proof.
  intros Hnone.
  assert (OrToolsOpt.generate_roster_with_or_tools Solve today db period_start period_end rules
          = SimpleOpt.generate_roster today db period_start period_end rules) as Heq.
  { unfold OrToolsOpt.generate_roster_with_or_tools, OrToolsOpt.optimize_roster.
    destruct (Solve _ _) as [status v]. cbn [fst] in Hnone. by rewrite Hnone. }
  split; [reflexivity |]. split; [exact Heq |].
  rewrite Heq. destruct (generate_roster_ok today db period_start period_end rules) as [z Hz].
  eexists. exact Hz.
Qed.

Module FallbackExample.
(** A solver that gives up: status [UNKNOWN], as after a limit. *)
Definition Solve (_ : CpModel.solver) (_ : CpModel.t) : CpModel.status * CpModel.valuation :=
  (CpModel.UNKNOWN, fun _ => false).
End FallbackExample.

Lemma C6_no_solution_falls_back_to_greedy_witness :
  OrToolsOpt.generate_roster_with_or_tools FallbackExample.Solve StreakExample.today
    StreakExample.db 739000 739001 RulesEngine.default
  = SimpleOpt.generate_roster StreakExample.today StreakExample.db 739000 739001
      RulesEngine.default.
Proof.
  refine (proj1 (proj2 (C6_no_solution_falls_back_to_greedy FallbackExample.Solve
                          StreakExample.today StreakExample.db 739000 739001
                          RulesEngine.default _))).
  reflexivity.
Defined.

(** ** Committing a roster *)

(** A duty that starts on a day outside the requested period. *)
Definition outside_period (period_start period_end : Z) (d : DutyPeriod.t) : Prop :=
  Time.date_of (DutyPeriod.duty_start_utc d) < period_start
  \/ period_end < Time.date_of (DutyPeriod.duty_start_utc d).

(** The two halves of C7: duty rows outside the period survive the commit,
    and the commit publishes one new state. *)
Definition keeps_rows_outside (s : Session.t) (period_start period_end : Z)
    (assignments : list Assignment.t) : Prop :=
  forall d,
    d ∈ Db.duty_period (Session.committed s) ->
    outside_period period_start period_end d ->
    d ∈ Db.duty_period
          (Session.committed (Orchestrator.save_assignments_to_duty_tables s assignments)).

Definition single_transaction (s : Session.t) (assignments : list Assignment.t) : Prop :=
  exists final,
    Session.commits (Orchestrator.save_assignments_to_duty_tables s assignments)
    = final :: Session.commits s.

Module CommitExample.
Definition crew1 : Crew.t := Crew.mk 1 "E001" "Asha" "Captain" "DEL" "Active".
Definition qual1 : CrewQualification.t := CrewQualification.mk 1 "A320" 738000 None.
Definition flight1 : Flight.t :=
  Flight.mk 1 "6E101" 739000 "DEL" "BOM" (Time.at_time 739000 8 0) (Time.at_time 739000 10 0) "A320".
Definition flight9 : Flight.t :=
  Flight.mk 9 "6E909" 739100 "DEL" "BOM" (Time.at_time 739100 8 0) (Time.at_time 739100 10 0) "A320".
(** A duty committed earlier, for a day far outside the period below. *)
Definition old_duty : DutyPeriod.t :=
  DutyPeriod.mk 7 1 (Time.at_time 739100 8 0) (Time.at_time 739100 10 0) "DEL".
Definition old_link : DutyFlight.t := DutyFlight.mk 7 9 1.
Definition db : Db.t :=
  Db.mk [crew1] [qual1] [] [] [] [flight1; flight9] [old_duty] [old_link].
Definition today : Z := 738990.
(** The roster generated for the one-day period 739000. *)
Definition roster : list Assignment.t :=
  SimpleOpt.assignments (SimpleOpt.run_loop today db 739000 739000 RulesEngine.default).
End CommitExample.

(** C7, as stated, fails on both counts: regenerating day 739000 deletes the
    committed duty of day 739100, and the commit publishes two states, the
    first with both duty tables empty. *)
Lemma C7_commit_clears_everything_in_two_commits :
  CommitExample.roster = [assigned_entry CommitExample.flight1 CommitExample.crew1]
  /\ ~ keeps_rows_outside (Session.of_db CommitExample.db) 739000 739000 CommitExample.roster
  /\ ~ single_transaction (Session.of_db CommitExample.db) CommitExample.roster.
Proof.
  split; [vm_compute; reflexivity |]. split.
  - intros H. specialize (H CommitExample.old_duty).
    assert (CommitExample.old_duty
            ∈ Db.duty_period
                (Session.committed
                   (Orchestrator.save_assignments_to_duty_tables
                      (Session.of_db CommitExample.db) CommitExample.roster))) as Hin.
    { apply H; [left | right; vm_compute; reflexivity]. }
    vm_compute in Hin. apply list_elem_of_In in Hin as [Heq | []]. discriminate Heq.
  - intros [final Hf]. vm_compute in Hf. discriminate Hf.
Qed.

(** *** Grouping by crew keeps every assigned entry once *)

(** The entries of an insertion-ordered dict of lists, each with its key. *)
Definition flatten {K V : Type} (d : list (K * list V)) : list (K * V) :=
  flat_map (fun '(k, l) => map (pair k) l) d.

Lemma flatten_od_append {K V : Type} `{EqDecision K} (k : K) (x : V) (d : list (K * list V)) :
  flatten (od_append k x d) ≡ₚ (flatten d ++ [(k, x)])%list.
Proof.
  unfold od_append. induction d as [| [k' l'] rest IH]; simpl; [done |].
  destruct (decide (k = k')) as [<- | Hne]; simpl.
  - rewrite map_app. simpl. rewrite <- !app_assoc.
    apply Permutation_app_head, Permutation_app_comm.
  - rewrite <- app_assoc. apply Permutation_app_head, IH.
Qed.

Lemma flatten_group_by_crew assignments :
  flatten (Orchestrator.group_by_crew assignments)
  ≡ₚ map (fun a => (default 0 (Assignment.crew_id a), a))
       (filter (fun a => Orchestrator.is_assigned a = true) assignments).
Proof.
  unfold Orchestrator.group_by_crew.
  assert (forall d,
             flatten (fold_left (fun d a =>
                        if Orchestrator.is_assigned a
                        then od_append (default 0 (Assignment.crew_id a)) a d else d)
                        assignments d)
             ≡ₚ (flatten d
                 ++ map (fun a => (default 0 (Assignment.crew_id a), a))
                      (filter (fun a => Orchestrator.is_assigned a = true) assignments))%list)
    as H.
  { induction assignments as [| a rest IH]; intros d; simpl; [by rewrite app_nil_r |].
    rewrite IH, filter_cons.
    destruct (Orchestrator.is_assigned a) eqn:Ha.
    - rewrite decide_True by done. rewrite flatten_od_append. simpl.
      by rewrite <- app_assoc.
    - by rewrite decide_False by done. }
  apply (H []).
Qed.

(** *** What one commit writes *)

(** The flight table has a flight with the id the entry names. *)
Definition names_flight (flights : list Flight.t) (a : Assignment.t) : Prop :=
  is_Some (head (filter (fun f => Flight.flight_id f = Assignment.flight_id a) flights)).

(** A duty period and its duty flight, reduced to what the roster fixes. *)
Definition row_of (d : DutyPeriod.t) (l : DutyFlight.t) : Z * Z * Z * Z :=
  (DutyPeriod.crew_id d, DutyPeriod.duty_start_utc d, DutyPeriod.duty_end_utc d,
   DutyFlight.flight_id l).

Definition rows (db : Db.t) : list (Z * Z * Z * Z) :=
  zip_with row_of (Db.duty_period db) (Db.duty_flight db).

Definition entry_row (cid : Z) (a : Assignment.t) : Z * Z * Z * Z :=
  (cid, Assignment.duty_start_utc a, Assignment.duty_end_utc a, Assignment.flight_id a).

(** Duty ids run 1, 2, ... in table order, and the i-th duty flight is leg 1
    of the i-th duty period. *)
Definition well_numbered (db : Db.t) : Prop :=
  map DutyPeriod.duty_id (Db.duty_period db)
  = map Z.of_nat (seq 1 (length (Db.duty_period db)))
  /\ map (fun l => (DutyFlight.duty_id l, DutyFlight.leg_seq l)) (Db.duty_flight db)
     = map (fun d => (DutyPeriod.duty_id d, 1)) (Db.duty_period db).

(** The tables a commit must not touch agree. *)
Definition same_reference_data (a b : Db.t) : Prop :=
  Db.crew a = Db.crew b
  /\ Db.crew_qualification a = Db.crew_qualification b
  /\ Db.crew_preference a = Db.crew_preference b
  /\ Db.crew_availability a = Db.crew_availability b
  /\ Db.disruption_record a = Db.disruption_record b
  /\ Db.flight a = Db.flight b.

Lemma first_max_greatest {A : Type} (key : A -> Z) l x :
  first_max key l = Some x -> forall y, y ∈ l -> key y <= key x.
Proof.
  revert x. induction l as [| z zs IH]; intros x; simpl; [done |].
  destruct (first_max key zs) as [w |] eqn:Hw.
  - destruct (Z.ltb_spec (key z) (key w)); intros [= <-] y Hy;
      apply elem_of_cons in Hy as [-> | Hy]; try lia.
    + by apply IH.
    + specialize (IH w eq_refl y Hy). lia.
  - apply first_max_nil in Hw as ->. intros [= <-] y Hy.
    apply elem_of_cons in Hy as [-> | Hy]; [lia | by apply elem_of_nil in Hy].
Qed.

Lemma next_duty_id_well_numbered db :
  well_numbered db ->
  Orchestrator.next_duty_id db = Z.of_nat (S (length (Db.duty_period db))).
Proof.
  intros [Hids _]. unfold Orchestrator.next_duty_id.
  destruct (first_max DutyPeriod.duty_id (Db.duty_period db)) as [x |] eqn:Hx.
  - pose proof (first_max_elem_of _ _ _ Hx) as Hin.
    pose proof (first_max_greatest _ _ _ Hx) as Hmax.
    set (n := length (Db.duty_period db)) in *.
    assert (DutyPeriod.duty_id x ∈ map Z.of_nat (seq 1 n)) as Hrange.
    { rewrite <- Hids. by apply list_elem_of_In, in_map, list_elem_of_In. }
    apply list_elem_of_In, in_map_iff in Hrange as (i & Hi & Hseq). apply in_seq in Hseq.
    assert (0 < n)%nat as Hn by lia.
    assert (Z.of_nat n ∈ map DutyPeriod.duty_id (Db.duty_period db)) as Hlast.
    { rewrite Hids. apply list_elem_of_In, in_map, in_seq. lia. }
    apply list_elem_of_In, in_map_iff in Hlast as (y & Hy & Hyin).
    apply list_elem_of_In in Hyin. specialize (Hmax y Hyin). lia.
  - apply first_max_nil in Hx. rewrite Hx. reflexivity.
Qed.

(** The state of the rewrite loop: reference tables as at the start, duty
    tables well numbered and holding [written]. *)
Definition rewrite_state (before db : Db.t) (written : list (Z * Z * Z * Z)) : Prop :=
  same_reference_data db before /\ well_numbered db /\ rows db = written.

Lemma well_numbered_lengths db :
  well_numbered db -> length (Db.duty_period db) = length (Db.duty_flight db).
Proof.
  intros [_ H]. apply (f_equal length) in H. by rewrite !length_map in H.
Qed.

Lemma add_duty_state before base_iata cid db a written :
  rewrite_state before db written ->
  rewrite_state before (Orchestrator.add_duty base_iata cid db a)
    (written ++ if decide (names_flight (Db.flight before) a) then [entry_row cid a] else [])%list.
Proof.
  intros (Href & Hnum & Hrows). unfold Orchestrator.add_duty, SimpleOpt.flight_by_id.
  assert (Db.flight db = Db.flight before) as Hfl by apply Href.
  rewrite Hfl. unfold names_flight.
  destruct (head (filter _ (Db.flight before))) as [f |] eqn:Hf.
  - rewrite decide_True by (by eexists).
    pose proof (next_duty_id_well_numbered db Hnum) as Hnext.
    pose proof (well_numbered_lengths db Hnum) as Hlen.
    destruct Hnum as [Hids Hlinks].
    split; [exact Href |]. split; [split |].
    + cbn [Db.duty_period Db.with_duty]. rewrite map_app, length_app, Hids. simpl.
      rewrite Nat.add_1_r, seq_S, map_app. simpl.
      rewrite Hnext. reflexivity.
    + cbn [Db.duty_period Db.duty_flight Db.with_duty]. rewrite !map_app, Hlinks.
      reflexivity.
    + unfold rows. cbn [Db.duty_period Db.duty_flight Db.with_duty].
      rewrite zip_with_app by done. by rewrite <- Hrows.
  - rewrite decide_False by (intros [? ?]; done).
    rewrite app_nil_r. by repeat split; try apply Href; try apply Hnum.
Qed.

Lemma save_crew_state before db cid crew_assignments written :
  rewrite_state before db written ->
  rewrite_state before (Orchestrator.save_crew db (cid, crew_assignments))
    (written
     ++ map (entry_row cid) (filter (names_flight (Db.flight before)) crew_assignments))%list.
Proof.
  unfold Orchestrator.save_crew.
  destruct crew_assignments as [| first_assignment others]; [by rewrite app_nil_r |].
  generalize (match Orchestrator.crew_by_id db cid with
              | Some c => Crew.base_iata c
              | None =>
                  match SimpleOpt.flight_by_id db (Assignment.flight_id first_assignment) with
                  | Some f => Flight.dep_iata f
                  | None => "DEL"
                  end
              end) as base_iata.
  intros base_iata. generalize (first_assignment :: others) as l. clear.
  intros l. revert db written.
  induction l as [| a l IH]; intros db written Hst; simpl; [by rewrite app_nil_r |].
  apply (add_duty_state before base_iata cid db a written) in Hst.
  apply IH in Hst. rewrite <- app_assoc in Hst.
  rewrite filter_cons. destruct (decide (names_flight (Db.flight before) a)); exact Hst.
Qed.

Lemma save_all_state before crew_duties : forall db written,
  rewrite_state before db written ->
  rewrite_state before (fold_left Orchestrator.save_crew crew_duties db)
    (written
     ++ map (fun '(cid, a) => entry_row cid a)
          (filter (fun p => names_flight (Db.flight before) (snd p)) (flatten crew_duties)))%list.
Proof.
  induction crew_duties as [| [cid l] rest IH]; intros db written Hst; simpl;
    [by rewrite app_nil_r |].
  apply (save_crew_state before db cid l written) in Hst.
  apply IH in Hst. rewrite <- app_assoc in Hst.
  rewrite filter_app, map_app.
  assert (map (fun '(cid, a) => entry_row cid a)
            (filter (fun p => names_flight (Db.flight before) (snd p)) (map (pair cid) l))
          = map (entry_row cid) (filter (names_flight (Db.flight before)) l)) as ->; [| exact Hst].
  clear. induction l as [| a l IH]; [done |]. simpl map. rewrite !filter_cons. simpl.
  destruct (decide (names_flight (Db.flight before) a)); simpl; by rewrite IH.
Qed.

Lemma assigned_rows_filter flights assignments :
  map (fun '(cid, a) => entry_row cid a)
    (filter (fun p => names_flight flights (snd p))
       (map (fun a => (default 0 (Assignment.crew_id a), a))
          (filter (fun a => Orchestrator.is_assigned a = true) assignments)))
  = map (fun a => entry_row (default 0 (Assignment.crew_id a)) a)
      (filter (fun a => Orchestrator.is_assigned a = true /\ names_flight flights a)
         assignments).
Proof.
  induction assignments as [| a rest IH]; [done |].
  rewrite !(filter_cons _ a).
  destruct (decide (Orchestrator.is_assigned a = true)) as [Ha | Ha].
  - simpl map. rewrite filter_cons. cbn [snd].
    destruct (decide (names_flight flights a)) as [Hf | Hf].
    + rewrite decide_True by done. simpl. by rewrite IH.
    + rewrite decide_False by tauto. exact IH.
  - rewrite decide_False by tauto. exact IH.
Qed.

(** C7, amended. Committing a roster deletes every persisted DutyPeriod and
    DutyFlight row, whatever period it belongs to, and publishes that empty
    state in a commit of its own; it then writes, and publishes in a second
    commit, one DutyPeriod with one DutyFlight (leg 1) for each assigned
    entry of the roster whose flight exists, numbered 1, 2, ... ; the rows
    of every other table are unchanged. *)
Theorem C7_commit_rewrites_all_duty_rows s assignments :
  let s' := Orchestrator.save_assignments_to_duty_tables s assignments in
  let before := Session.pending s in
  let final := Session.committed s' in
  same_reference_data final before
  /\ well_numbered final
  /\ rows final
     ≡ₚ map (fun a => entry_row (default 0 (Assignment.crew_id a)) a)
          (filter (fun a => Orchestrator.is_assigned a = true
                            /\ names_flight (Db.flight before) a) assignments)
  /\ Session.commits s' = final :: Orchestrator.cleared before :: Session.commits s
  /\ Db.duty_period (Orchestrator.cleared before) = []
  /\ Db.duty_flight (Orchestrator.cleared before) = [].
Proof.
  intros s' before final.
  assert (rewrite_state before (Orchestrator.cleared before) []) as Hst.
  { by repeat split. }
  apply (save_all_state before (Orchestrator.group_by_crew assignments)) in Hst.
  change (fold_left Orchestrator.save_crew (Orchestrator.group_by_crew assignments)
            (Orchestrator.cleared before)) with final in Hst.
  destruct Hst as (Href & Hnum & Hrows).
  split; [exact Href |]. split; [exact Hnum |]. split; [| by repeat split].
  rewrite Hrows, app_nil_l, <- assigned_rows_filter.
  apply Permutation_map, filter_Permutation, flatten_group_by_crew.
Qed.

(** ** Insertion-ordered dicts: facts *)

Section OrderedDictFacts.
Context {K V : Type} `{EqDecision K}.
Implicit Types (d : list (K * V)) (k : K) (v : V).

Lemma od_get_Some k v d : od_get k d = Some v -> (k, v) ∈ d.
Proof.
  induction d as [| [k' v'] rest IH]; simpl; [done |].
  destruct (decide (k = k')) as [<- | Hne].
  - intros [= <-]. left.
  - intros H. right. by apply IH.
Qed.

Lemma od_get_None k d : od_get k d = None -> k ∉ map fst d.
Proof.
  induction d as [| [k' v'] rest IH]; simpl; [intros _; apply not_elem_of_nil |].
  destruct (decide (k = k')) as [<- | Hne]; [done |].
  intros H. apply not_elem_of_cons. split; [done | by apply IH].
Qed.

Lemma od_set_keys k v d :
  map fst (od_set k v d)
  = if decide (k ∈ map fst d) then map fst d else (map fst d ++ [k])%list.
Proof.
  induction d as [| [k0 v0] rest IH]; cbn [od_set map fst].
  - rewrite decide_False by apply not_elem_of_nil. reflexivity.
  - destruct (decide (k = k0)) as [<- | Hne]; cbn [map fst].
    + rewrite decide_True by left. reflexivity.
    + rewrite IH. destruct (decide (k ∈ map fst rest)) as [Hin | Hout].
      * rewrite decide_True by (by right). reflexivity.
      * rewrite decide_False; [reflexivity |].
        intros Hin. apply elem_of_cons in Hin as [? | ?]; done.
Qed.

Lemma od_set_NoDup k v d : NoDup (map fst d) -> NoDup (map fst (od_set k v d)).
Proof.
  intros Hnd. rewrite od_set_keys. destruct (decide (k ∈ map fst d)); [done |].
  apply NoDup_app. split; [done |]. split.
  - intros x Hx Hk. apply list_elem_of_singleton in Hk as ->. done.
  - apply NoDup_singleton.
Qed.

Lemma od_set_key_elem_of k v d k' :
  k' ∈ map fst (od_set k v d) <-> k' = k \/ k' ∈ map fst d.
Proof.
  rewrite od_set_keys. destruct (decide (k ∈ map fst d)) as [Hin | Hout].
  - split; [by right | intros [-> | ?]; done].
  - rewrite elem_of_app, list_elem_of_singleton. tauto.
Qed.

Lemma od_set_elem_of k v d k' v' :
  NoDup (map fst d) ->
  (k', v') ∈ od_set k v d -> (k' = k /\ v' = v) \/ (k' <> k /\ (k', v') ∈ d).
Proof.
  induction d as [| [k0 v0] rest IH]; simpl; intros Hnd.
  - intros Hin. apply list_elem_of_singleton in Hin as [= -> ->]. by left.
  - apply NoDup_cons in Hnd as [Hk0 Hnd].
    destruct (decide (k = k0)) as [<- | Hne]; intros Hin;
      apply elem_of_cons in Hin as [[= -> ->] | Hin].
    + by left.
    + right. split; [| by right]. intros ->. apply Hk0.
      apply list_elem_of_In, in_map_iff. exists (k, v'). split; [done | by apply list_elem_of_In].
    + right. split; [done | left].
    + destruct (IH Hnd Hin) as [? | [? ?]]; [by left | right; split; [done | by right]].
Qed.

Lemma od_set_same k v d : (k, v) ∈ od_set k v d.
Proof.
  induction d as [| [k0 v0] rest IH]; simpl; [left |].
  destruct (decide (k = k0)); [left | by right].
Qed.

(** Only the entry filed under [k] contributes to a concatenation in which
    every other entry yields nothing. *)
Lemma flat_map_single {B : Type} (F : K * V -> list B) k v d :
  NoDup (map fst d) -> (k, v) ∈ d ->
  (forall k' v', (k', v') ∈ d -> k' <> k -> F (k', v') = []) ->
  flat_map F d = F (k, v).
Proof.
  induction d as [| [k0 v0] rest IH]; simpl; intros Hnd Hin Hother;
    [by apply elem_of_nil in Hin |].
  apply NoDup_cons in Hnd as [Hk0 Hnd].
  apply elem_of_cons in Hin as [[= <- <-] | Hin].
  - assert (flat_map F rest = []) as ->; [| by rewrite app_nil_r].
    clear IH. induction rest as [| [k1 v1] rest IH]; [done |]. simpl.
    rewrite (Hother k1 v1); [| right; left |].
    + simpl. apply IH.
      * intros Hk. apply Hk0. simpl. by right.
      * by apply NoDup_cons in Hnd as [_ ?].
      * intros k' v' Hin' Hne. apply Hother; [| done].
        apply elem_of_cons in Hin' as [-> | Hin']; [left | right; by right].
    + intros ->. apply Hk0. left.
  - rewrite (Hother k0 v0); [| left |].
    + simpl. apply IH; [done | done |]. intros k' v' Hin' Hne. apply Hother; [by right | done].
    + intros ->. apply Hk0. apply list_elem_of_In, in_map_iff.
      exists (k, v). split; [done | by apply list_elem_of_In].
Qed.

End OrderedDictFacts.

(** ** The conflict detector *)

Lemma filter_flat_map {A B : Type} (P : B -> Prop) `{forall x, Decision (P x)}
    (G : A -> list B) (l : list A) :
  filter P (flat_map G l) = flat_map (fun x => filter P (G x)) l.
Proof.
  induction l as [| x xs IH]; [done |]. simpl. by rewrite filter_app, IH.
Qed.

Lemma filter_none {A : Type} (P : A -> Prop) `{forall x, Decision (P x)} (l : list A) :
  (forall x, x ∈ l -> ~ P x) -> filter P l = [].
Proof.
  induction l as [| x xs IH]; intros Hl; [done |].
  rewrite filter_cons_False by (apply Hl; left). apply IH. intros y Hy. apply Hl. by right.
Qed.

Lemma filter_all {A : Type} (P : A -> Prop) `{forall x, Decision (P x)} (l : list A) :
  (forall x, x ∈ l -> P x) -> filter P l = l.
Proof.
  induction l as [| x xs IH]; intros Hl; [done |].
  rewrite filter_cons_True by (apply Hl; left). f_equal. apply IH. intros y Hy. apply Hl. by right.
Qed.

Lemma of_type_and_crew_app ty cid l1 l2 :
  ConflictDetector.of_type_and_crew ty cid (l1 ++ l2)
  = (ConflictDetector.of_type_and_crew ty cid l1
     ++ ConflictDetector.of_type_and_crew ty cid l2)%list.
Proof. apply filter_app. Qed.

Lemma of_type_and_crew_flat_map {A : Type} ty cid (G : A -> list ConflictDetector.Conflict) l :
  ConflictDetector.of_type_and_crew ty cid (flat_map G l)
  = flat_map (fun x => ConflictDetector.of_type_and_crew ty cid (G x)) l.
Proof. apply filter_flat_map. Qed.

Section DetectFacts.
Variable isocalendar_year_week : Z -> Z * Z.
Variable year_month : Z -> Z * Z.
Variable title : string -> string.
Variable format_1f : Q -> string.
Variable rules_engine : HardSoftRulesEngine.t.

Abbreviation track := (ConflictDetector.track isocalendar_year_week year_month rules_engine).
Abbreviation crew_conflicts :=
  (ConflictDetector.crew_conflicts isocalendar_year_week year_month title format_1f rules_engine).
Abbreviation duty_compliance :=
  (ConflictDetector.duty_compliance isocalendar_year_week year_month title format_1f rules_engine).
Abbreviation detect_conflicts :=
  (ConflictDetector.detect_conflicts isocalendar_year_week year_month title format_1f rules_engine).

Implicit Types (row : DutyPeriod.t * Flight.t * Crew.t).

Definition row_crew row : Z := Crew.crew_id (snd row).

(** The (duty, flight) pairs of crew [k] among [rows], in order. *)
Definition duties_of (k : Z) (rows : list (DutyPeriod.t * Flight.t * Crew.t))
    : list (DutyPeriod.t * Flight.t) :=
  map (fun row => (fst (fst row), snd (fst row))) (filter (fun row => row_crew row = k) rows).

(** [crew_duties] after the rows [processed]: one entry per crew seen, whose
    [duties] are that crew's rows in order. *)
Definition grouped (acc : list (Z * ConflictDetector.CrewData))
    (processed : list (DutyPeriod.t * Flight.t * Crew.t)) : Prop :=
  NoDup (map fst acc)
  /\ (forall k data, (k, data) ∈ acc -> ConflictDetector.duties data = duties_of k processed)
  /\ (forall row, row ∈ processed -> row_crew row ∈ map fst acc).

Lemma duties_of_snoc_same k processed row :
  row_crew row = k ->
  duties_of k (processed ++ [row]) = (duties_of k processed ++ [(fst (fst row), snd (fst row))])%list.
Proof.
  intros Hk. unfold duties_of. rewrite filter_app, map_app.
  by rewrite (filter_cons_True _ row []) by done.
Qed.

Lemma duties_of_snoc_other k processed row :
  row_crew row <> k -> duties_of k (processed ++ [row]) = duties_of k processed.
Proof.
  intros Hk. unfold duties_of. rewrite filter_app.
  rewrite (filter_cons_False _ row []) by done. by rewrite app_nil_r.
Qed.

Lemma duties_of_unseen k processed :
  (forall row, row ∈ processed -> row_crew row <> k) -> duties_of k processed = [].
Proof.
  intros Hk. unfold duties_of. by rewrite filter_none.
Qed.

Lemma track_grouped acc processed row :
  grouped acc processed -> grouped (track acc row) (processed ++ [row]).
Proof.
  intros (Hnd & Hduties & Hkeys). destruct row as [[duty flight] c].
  unfold ConflictDetector.track.
  set (data := default _ (od_get (Crew.crew_id c) acc)).
  set (new_data := ConflictDetector.mkCrewData _ _ _ _ _).
  assert (ConflictDetector.duties data = duties_of (Crew.crew_id c) processed) as Hdata.
  { subst data. destruct (od_get (Crew.crew_id c) acc) as [old |] eqn:Hget; simpl.
    - apply Hduties. by apply od_get_Some.
    - symmetry. apply duties_of_unseen. intros row Hrow Heq.
      apply od_get_None in Hget. apply Hget. rewrite <- Heq. by apply Hkeys. }
  split; [by apply od_set_NoDup |]. split.
  - intros k d Hin. apply od_set_elem_of in Hin as [[-> ->] | [Hne Hin]]; [| | done].
    + rewrite duties_of_snoc_same by done. subst new_data. simpl. by rewrite Hdata.
    + rewrite duties_of_snoc_other by (unfold row_crew; simpl; congruence).
      by apply Hduties.
  - intros row Hrow. apply od_set_key_elem_of.
    apply elem_of_app in Hrow as [Hrow | Hrow].
    + right. by apply Hkeys.
    + left. by apply list_elem_of_singleton in Hrow as ->.
Qed.

Lemma fold_track_grouped rest : forall acc processed,
  grouped acc processed -> grouped (fold_left track rest acc) (processed ++ rest).
Proof.
  induction rest as [| row rest IH]; intros acc processed Hg; simpl.
  - by rewrite app_nil_r.
  - replace (processed ++ row :: rest)%list with ((processed ++ [row]) ++ rest)%list
      by (by rewrite <- app_assoc).
    by apply IH, track_grouped.
Qed.

Lemma crew_duties_grouped rows : grouped (fold_left track rows []) rows.
Proof.
  apply (fold_track_grouped rows [] []).
  split; [constructor |]. split; [| intros row Hrow; by apply elem_of_nil in Hrow].
  intros k data Hin. by apply elem_of_nil in Hin.
Qed.

(** Which conflicts are overlapping-duty conflicts of crew [cid]. *)
Abbreviation overlaps_of cid := (ConflictDetector.of_type_and_crew "overlapping_duties" cid).

Lemma overlapping_duties_shape k c duties x :
  x ∈ ConflictDetector.overlapping_duties k c duties ->
  ConflictDetector.type x = "overlapping_duties" /\ ConflictDetector.crew_id x = k.
Proof.
  induction duties as [| [d f] rest IH]; simpl; [intros Hx; by apply elem_of_nil in Hx |].
  destruct rest as [| [d' f'] rest']; [intros Hx; by apply elem_of_nil in Hx |].
  rewrite elem_of_app. intros [Hx | Hx]; [| by apply IH].
  destruct (_ <? _); [| by apply elem_of_nil in Hx].
  by apply list_elem_of_singleton in Hx as ->.
Qed.

Lemma duty_compliance_shape k data n sorted entry x :
  x ∈ duty_compliance k data n sorted entry ->
  ConflictDetector.type x <> "overlapping_duties".
Proof.
  destruct entry as [duty flight]. unfold ConflictDetector.duty_compliance.
  rewrite elem_of_app. intros [Hx | Hx].
  - apply list_elem_of_In, in_map_iff in Hx as ([vt b] & <- & _). done.
  - apply list_elem_of_In, in_flat_map in Hx as ([pt pv] & _ & Hx).
    destruct (negb _); [| done]. destruct Hx as [<- | []]. done.
Qed.

Lemma overlaps_of_crew_conflicts cid n k data :
  overlaps_of cid (crew_conflicts n (k, data))
  = if decide (k = cid)
    then ConflictDetector.overlapping_duties k (ConflictDetector.crew data)
           (sort_by Z.leb (fun x => DutyPeriod.duty_start_utc (fst x))
              (ConflictDetector.duties data))
    else [].
Proof.
  unfold ConflictDetector.of_type_and_crew, ConflictDetector.crew_conflicts.
  rewrite filter_app.
  rewrite (filter_none _ (flat_map _ _)); [rewrite app_nil_r |].
  - destruct (decide (k = cid)) as [-> | Hne].
    + apply filter_all. intros x Hx. by apply overlapping_duties_shape in Hx.
    + apply filter_none. intros x Hx [_ Hc]. apply overlapping_duties_shape in Hx as [_ Hk].
      congruence.
  - intros x Hx [Hty _]. apply list_elem_of_In, in_flat_map in Hx as (entry & _ & Hx).
    apply list_elem_of_In in Hx. by apply duty_compliance_shape in Hx.
Qed.

Lemma overlaps_of_qualification_mismatch cid qual_map row :
  overlaps_of cid (ConflictDetector.qualification_mismatch qual_map row) = [].
Proof.
  apply filter_none. intros x Hx [Hty _].
  destruct row as [[duty flight] c]. unfold ConflictDetector.qualification_mismatch in Hx.
  destruct (_ !! Flight.aircraft_code flight) as [qual |].
  - destruct (CrewQualification.expires_on qual) as [e |]; [| by apply elem_of_nil in Hx].
    destruct (e <? _); [| by apply elem_of_nil in Hx].
    apply list_elem_of_singleton in Hx as ->. done.
  - apply list_elem_of_singleton in Hx as ->. done.
Qed.

(** The overlapping-duty conflicts of one crew are those found between
    neighbours in that crew's duties of the period, sorted by start. *)
Lemma overlaps_of_detect db period_start period_end cid :
  cid ∈ map row_crew (ConflictDetector.query_duty_periods db period_start period_end) ->
  exists c,
    overlaps_of cid (detect_conflicts db period_start period_end)
    = ConflictDetector.overlapping_duties cid c
        (sort_by Z.leb (fun x => DutyPeriod.duty_start_utc (fst x))
           (duties_of cid (ConflictDetector.query_duty_periods db period_start period_end))).
Proof.
  intros Hcid. unfold ConflictDetector.detect_conflicts.
  set (rows := ConflictDetector.query_duty_periods db period_start period_end) in *.
  destruct (crew_duties_grouped rows) as (Hnd & Hduties & Hkeys).
  set (crew_duties := fold_left track rows []) in *.
  assert (cid ∈ map fst crew_duties) as Hin.
  { apply list_elem_of_In, in_map_iff in Hcid as (row & <- & Hrow).
    by apply Hkeys, list_elem_of_In. }
  apply list_elem_of_In, in_map_iff in Hin as ([k data] & Hk & Hin). simpl in Hk. subst k.
  apply list_elem_of_In in Hin.
  exists (ConflictDetector.crew data).
  rewrite of_type_and_crew_app, !of_type_and_crew_flat_map.
  rewrite (flat_map_single _ cid data crew_duties Hnd Hin).
  - rewrite overlaps_of_crew_conflicts, decide_True by done.
    rewrite (Hduties cid data Hin).
    assert (forall qm,
               flat_map (fun x => overlaps_of cid (ConflictDetector.qualification_mismatch qm x))
                 rows = []) as ->; [| by rewrite app_nil_r].
    intros qm. clear. induction rows as [| row rows IH]; [done |]. simpl.
    rewrite IH, app_nil_r. apply overlaps_of_qualification_mismatch.
  - intros k' data' _ Hne.
    rewrite overlaps_of_crew_conflicts. by rewrite decide_False.
Qed.

End DetectFacts.

(** When the detector's query returns exactly two duties (each with its
    flight) for a crew, the detector reports one overlapping-duty conflict
    for that crew if the later duty (by start; on equal starts, the one the
    query lists second) starts before the earlier one ends, and none
    otherwise; duties that touch end to start do not overlap. *)
Lemma two_queried_duties_one_overlap_conflict
    (isocalendar_year_week year_month : Z -> Z * Z) (title : string -> string)
    (format_1f : Q -> string) (rules_engine : HardSoftRulesEngine.t)
    db period_start period_end cid (x y : DutyPeriod.t * Flight.t) :
  duties_of cid (ConflictDetector.query_duty_periods db period_start period_end) = [x; y] ->
  let swap := DutyPeriod.duty_start_utc (fst y) <? DutyPeriod.duty_start_utc (fst x) in
  let earlier := if swap then y else x in
  let later := if swap then x else y in
  length (ConflictDetector.of_type_and_crew "overlapping_duties" cid
            (ConflictDetector.detect_conflicts isocalendar_year_week year_month title format_1f
               rules_engine db period_start period_end))
  = if DutyPeriod.duty_start_utc (fst later) <? DutyPeriod.duty_end_utc (fst earlier)
    then 1%nat else 0%nat.
Proof.
  intros Hxy swap earlier later.
  destruct (overlaps_of_detect isocalendar_year_week year_month title format_1f rules_engine
              db period_start period_end cid) as [c ->].
  - unfold duties_of in Hxy.
    destruct (filter _ (ConflictDetector.query_duty_periods db period_start period_end))
      as [| row rest] eqn:Hf; [discriminate |].
    assert (row ∈ filter (fun row => row_crew row = cid)
                    (ConflictDetector.query_duty_periods db period_start period_end)) as Hrow
      by (rewrite Hf; left).
    apply list_elem_of_filter in Hrow as [Hk Hrow].
    apply list_elem_of_In, in_map_iff. exists row. split; [done | by apply list_elem_of_In].
  - rewrite Hxy. subst swap earlier later. destruct x as [dx fx], y as [dy fy]. simpl.
    destruct (Z.leb_spec (DutyPeriod.duty_start_utc dx) (DutyPeriod.duty_start_utc dy)) as [Hle | Hgt];
      destruct (Z.ltb_spec (DutyPeriod.duty_start_utc dy) (DutyPeriod.duty_start_utc dx)) as [Hlt | Hge];
      try lia; simpl.
    + destruct (DutyPeriod.duty_start_utc dy <? DutyPeriod.duty_end_utc dx); reflexivity.
    + destruct (DutyPeriod.duty_start_utc dx <? DutyPeriod.duty_end_utc dy); reflexivity.
Qed.

Module ConflictExample.
Definition crew1 : Crew.t := Crew.mk 1 "E001" "Asha" "Captain" "DEL" "Active".
Definition qual1 : CrewQualification.t := CrewQualification.mk 1 "A320" 738000 None.
Definition flight1 : Flight.t :=
  Flight.mk 1 "6E101" 739000 "DEL" "BOM" (Time.at_time 739000 8 0) (Time.at_time 739000 10 0) "A320".
Definition flight2 : Flight.t :=
  Flight.mk 2 "6E102" 739000 "DEL" "BLR" (Time.at_time 739000 9 0) (Time.at_time 739000 11 0) "A320".
Definition flight3 : Flight.t :=
  Flight.mk 3 "6E103" 739000 "BOM" "DEL" (Time.at_time 739000 10 0) (Time.at_time 739000 12 0) "A320".
Definition duty1 : DutyPeriod.t :=
  DutyPeriod.mk 1 1 (Time.at_time 739000 8 0) (Time.at_time 739000 10 0) "DEL".
Definition duty2 : DutyPeriod.t :=
  DutyPeriod.mk 2 1 (Time.at_time 739000 9 0) (Time.at_time 739000 11 0) "DEL".
Definition duty3 : DutyPeriod.t :=
  DutyPeriod.mk 2 1 (Time.at_time 739000 10 0) (Time.at_time 739000 12 0) "DEL".
(** Two duties of crew 1 that overlap from 09:00 to 10:00. *)
Definition overlapping : Db.t :=
  Db.mk [crew1] [qual1] [] [] [] [flight1; flight2] [duty1; duty2]
    [DutyFlight.mk 1 1 1; DutyFlight.mk 2 2 1].
(** Two duties of crew 1 that touch at 10:00. *)
Definition touching : Db.t :=
  Db.mk [crew1] [qual1] [] [] [] [flight1; flight3] [duty1; duty3]
    [DutyFlight.mk 1 1 1; DutyFlight.mk 2 3 1].
(** Ordinal day 739000 is Wednesday 24 April 2024: every timestamp of the
    example lies in ISO week 17 of 2024 and in April 2024. *)
Definition isocalendar_year_week (_ : Z) : Z * Z := (2024, 17).
Definition year_month (_ : Z) : Z * Z := (2024, 4).
(** The renderings inside descriptions play no part in the count. *)
Definition title (s : string) : string := s.
Definition format_1f (_ : Q) : string := "".
Definition detect (db : Db.t) : list ConflictDetector.Conflict :=
  ConflictDetector.detect_conflicts isocalendar_year_week year_month title format_1f
    HardSoftRulesEngine.default db 739000 739001.
End ConflictExample.

Lemma two_queried_duties_example :
  length (ConflictDetector.of_type_and_crew "overlapping_duties" 1
            (ConflictExample.detect ConflictExample.overlapping)) = 1%nat
  /\ length (ConflictDetector.of_type_and_crew "overlapping_duties" 1
               (ConflictExample.detect ConflictExample.touching)) = 0%nat.
Proof.
  split.
  - refine (two_queried_duties_one_overlap_conflict ConflictExample.isocalendar_year_week
              ConflictExample.year_month ConflictExample.title ConflictExample.format_1f
              HardSoftRulesEngine.default ConflictExample.overlapping 739000 739001 1
              (ConflictExample.duty1, ConflictExample.flight1)
              (ConflictExample.duty2, ConflictExample.flight2) _).
    vm_compute. reflexivity.
  - refine (two_queried_duties_one_overlap_conflict ConflictExample.isocalendar_year_week
              ConflictExample.year_month ConflictExample.title ConflictExample.format_1f
              HardSoftRulesEngine.default ConflictExample.touching 739000 739001 1
              (ConflictExample.duty1, ConflictExample.flight1)
              (ConflictExample.duty3, ConflictExample.flight3) _).
    vm_compute. reflexivity.
Qed.

(** The query keeps a duty only if it ends by 00:00 of [period_end]: the
    bound is a date, the column a datetime. *)
Lemma query_duty_periods_ends_by_midnight db period_start period_end row :
  row ∈ ConflictDetector.query_duty_periods db period_start period_end ->
  Time.midnight period_start <= DutyPeriod.duty_start_utc (fst (fst row))
  /\ DutyPeriod.duty_end_utc (fst (fst row)) <= Time.midnight period_end.
Proof.
  unfold ConflictDetector.query_duty_periods. rewrite list_elem_of_filter.
  destruct row as [[duty flight] c]. tauto.
Qed.

(** C10 (the code departs from the claim on the last day of the period).
    Crew 1 has exactly two committed duties, each linked to a flight, both
    on day 739000; the second starts at 09:00, before the first ends at
    10:00.  Audited for the period 739000..739000 the detector reports no
    conflict at all, where the claim asks for one overlapping-duty conflict:
    the query compares the datetime [duty_end_utc] with the date
    [period_end], that is with its midnight, so no duty that ends during the
    day [period_end] is ever audited.  Audited up to the next day, the same
    two duties give the one conflict.  [generate_roster], for the same
    period, takes the flights of day [period_end] in. *)
Theorem C10_last_day_overlap_not_reported :
  let db := ConflictExample.overlapping in
  let detect period_start period_end :=
    ConflictDetector.detect_conflicts ConflictExample.isocalendar_year_week
      ConflictExample.year_month ConflictExample.title ConflictExample.format_1f
      HardSoftRulesEngine.default db period_start period_end in
  Db.duty_period db = [ConflictExample.duty1; ConflictExample.duty2]
  /\ Forall (fun d => DutyPeriod.crew_id d = 1
                      /\ Time.date_of (DutyPeriod.duty_start_utc d) = 739000
                      /\ Time.date_of (DutyPeriod.duty_end_utc d) = 739000)
       (Db.duty_period db)
  /\ DutyPeriod.duty_start_utc ConflictExample.duty2
     < DutyPeriod.duty_end_utc ConflictExample.duty1
  /\ detect 739000 739000 = []
  /\ length (ConflictDetector.of_type_and_crew "overlapping_duties" 1 (detect 739000 739001))
     = 1%nat
  /\ SimpleOpt.query_flights db 739000 739000
     = [ConflictExample.flight1; ConflictExample.flight2].
Proof.
  cbv zeta. split; [reflexivity |]. split; [by repeat constructor |].
  split; [reflexivity |]. split; [vm_compute; reflexivity |].
  split; vm_compute; reflexivity.
Qed.

(** * Further code of the cited files *)

From Stdlib Require Import Sorted.

(** ** rules/engine.py: extended duty periods *)

Module ExtendedRules.

Definition extended_fdp_ok (self : RulesEngine.t) (start end_ : Z) (is_extended : bool) : bool :=
  let duty_duration := end_ - start in
  match RulesEngine.max_extended_fdp self with
  | Some m =>
      if is_extended && negb (m =? 0) then duty_duration <=? m
      else duty_duration <=? RulesEngine.max_fdp self
  | None => duty_duration <=? RulesEngine.max_fdp self
  end.

(** [td.total_seconds() / 3600] *)
Definition hours_of (td : Z) : Q := (inject_Z td / inject_Z Time.US_PER_SECOND / 3600)%Q.

Definition get_rest_period_for_extended_fdp (self : RulesEngine.t) (duty_duration : Z) : Z :=
  let hours := hours_of duty_duration in
  if Qle_bool hours 8 then Time.hours 10
  else if Qle_bool hours 10 then Time.hours 12
  else if Qle_bool hours 12 then Time.hours 14
  else Time.hours 16.

Definition is_duty_extendable (self : RulesEngine.t) (start end_ : Z) (rank : string)
    (consecutive_days : Z) : Result bool :=
  let duty_duration := end_ - start in
  if negb (extended_fdp_ok self start end_ true) then Ok false
  else if match RulesEngine.max_consecutive_duty_days self with
          | Some m => negb (m =? 0) && (m <=? consecutive_days)
          | None => false
          end
  then Ok false
  else if (rank =? "Captain")%string
  then bind (attr_of (RulesEngine.max_extended_fdp self) hours_of) (fun limit =>
       Ok (Qle_bool (hours_of duty_duration) (limit - 1)))
  else Ok true.

End ExtendedRules.

Lemma hours_of_le a b : a <= b -> (ExtendedRules.hours_of a <= ExtendedRules.hours_of b)%Q.
Proof.
  intros Hab. unfold ExtendedRules.hours_of, Qdiv.
  apply Qmult_le_compat_r; [| done]. apply Qmult_le_compat_r; [| done].
  by rewrite <- Zle_Qle.
Qed.

Lemma hours_of_hours h : (ExtendedRules.hours_of (Time.hours h) == inject_Z h)%Q.
Proof.
  unfold ExtendedRules.hours_of, Time.hours, Time.US_PER_HOUR, Time.US_PER_SECOND.
  rewrite inject_Z_mult. field.
Qed.

Lemma hours_of_lt a b : a < b -> (ExtendedRules.hours_of a < ExtendedRules.hours_of b)%Q.
Proof.
  intros Hab. unfold ExtendedRules.hours_of, Qdiv.
  apply Qmult_lt_compat_r; [done |]. apply Qmult_lt_compat_r; [done |].
  by rewrite <- Zlt_Qlt.
Qed.

(** X1. The rest period demanded after a duty lies between 10 and 16
    hours, never shrinks when the duty gets longer, and is 10 hours up to
    and including an 8-hour duty and 16 hours beyond a 12-hour duty. *)
Theorem rest_period_monotone self d1 d2 :
  (d1 <= d2 ->
   ExtendedRules.get_rest_period_for_extended_fdp self d1
   <= ExtendedRules.get_rest_period_for_extended_fdp self d2)
  /\ Time.hours 10 <= ExtendedRules.get_rest_period_for_extended_fdp self d1 <= Time.hours 16
  /\ (d1 <= Time.hours 8 ->
      ExtendedRules.get_rest_period_for_extended_fdp self d1 = Time.hours 10)
  /\ (Time.hours 12 < d1 ->
      ExtendedRules.get_rest_period_for_extended_fdp self d1 = Time.hours 16).
Proof.
  unfold ExtendedRules.get_rest_period_for_extended_fdp.
  split; [| split; [| split]].
  - intros Hle. pose proof (hours_of_le _ _ Hle) as Hh.
    destruct (Qle_bool (ExtendedRules.hours_of d1) 8) eqn:H1,
             (Qle_bool (ExtendedRules.hours_of d1) 10) eqn:H2,
             (Qle_bool (ExtendedRules.hours_of d1) 12) eqn:H3,
             (Qle_bool (ExtendedRules.hours_of d2) 8) eqn:H4,
             (Qle_bool (ExtendedRules.hours_of d2) 10) eqn:H5,
             (Qle_bool (ExtendedRules.hours_of d2) 12) eqn:H6;
      try (vm_compute; congruence);
      repeat match goal with
             | H : Qle_bool _ _ = true |- _ => apply Qle_bool_iff in H
             | H : Qle_bool _ _ = false |- _ =>
                 apply not_true_iff_false in H; rewrite Qle_bool_iff in H
             end;
      exfalso; lra.
  - destruct (Qle_bool (ExtendedRules.hours_of d1) 8),
             (Qle_bool (ExtendedRules.hours_of d1) 10),
             (Qle_bool (ExtendedRules.hours_of d1) 12); vm_compute; split; congruence.
  - intros Hle. apply hours_of_le in Hle. rewrite hours_of_hours in Hle.
    change (inject_Z 8) with 8%Q in Hle. apply Qle_bool_iff in Hle. by rewrite Hle.
  - intros Hlt. apply hours_of_lt in Hlt. rewrite hours_of_hours in Hlt.
    assert (forall k : Q, (k <= 12)%Q -> Qle_bool (ExtendedRules.hours_of d1) k = false) as Hk.
    { intros k Hk12. apply not_true_iff_false. rewrite Qle_bool_iff.
      change (inject_Z 12) with 12%Q in Hlt. lra. }
    rewrite !Hk; [done | lra | lra | lra].
Qed.

Lemma rest_period_monotone_witness :
  ExtendedRules.get_rest_period_for_extended_fdp RulesEngine.default (Time.hours 9)
  <= ExtendedRules.get_rest_period_for_extended_fdp RulesEngine.default (Time.hours 13).
Proof.
  refine (proj1 (rest_period_monotone RulesEngine.default (Time.hours 9) (Time.hours 13)) _).
  vm_compute. congruence.
Defined.

(** X2. [is_duty_extendable] raises (an attribute read on [None]) exactly
    for a Captain when no extended FDP is configured and the duty passes the
    two earlier tests: it fits [max_fdp] and the consecutive-day ceiling,
    if any, is not reached.  For every other rank it returns. *)
Theorem is_duty_extendable_raises self start end_ rank consecutive_days :
  ExtendedRules.is_duty_extendable self start end_ rank consecutive_days = Raise AttributeError
  <-> rank = "Captain"
      /\ RulesEngine.max_extended_fdp self = None
      /\ end_ - start <= RulesEngine.max_fdp self
      /\ match RulesEngine.max_consecutive_duty_days self with
         | Some m => m = 0 \/ consecutive_days < m
         | None => True
         end.
Proof.
  unfold ExtendedRules.is_duty_extendable, ExtendedRules.extended_fdp_ok.
  destruct (String.eqb_spec rank "Captain") as [Hr | Hr];
    destruct (RulesEngine.max_extended_fdp self) as [ext |];
    destruct (RulesEngine.max_consecutive_duty_days self) as [m |]; simpl;
    repeat match goal with
           | |- context [?a <=? ?b] => destruct (Z.leb_spec a b)
           | |- context [?a =? ?b] => destruct (Z.eqb_spec a b)
           end; simpl; split; try (intros [= ]); try tauto;
    try (intros (? & ? & ? & ?)); try (intros _); try congruence; try lia;
    repeat split; try done; try lia.
Qed.

(** ** optimizer/simple_opt.py: disruption records and the delay patch *)

(** The feasibility flag of a patch, if it is one. *)
Definition patch_feasible (p : SimpleOpt.DelayPatch) : option bool :=
  match p with
  | SimpleOpt.DelayShift _ _ _ _ feasible => Some feasible
  | SimpleOpt.DelayError _ => None
  end.

Lemma duty_duration_ok_shift rules start end_ delta :
  RulesEngine.duty_duration_ok rules (start + delta) (end_ + delta)
  = RulesEngine.duty_duration_ok rules start end_.
Proof.
  unfold RulesEngine.duty_duration_ok.
  by replace (end_ + delta - (start + delta)) with (end_ - start) by lia.
Qed.

(** X3. The feasibility flag of a delay patch does not depend on the delay:
    both ends of the window move together, so whenever the handler returns,
    the flag is [duty_duration_ok] of the flight's original schedule.  The
    handler raises, with [OverflowError], exactly when a flight carries the
    number and the delay is no [timedelta] or moves the departure or the
    arrival out of the datetime range.  The flight patched is one with the
    latest flight date among those carrying the number. *)
Theorem delay_feasibility_ignores_delay now s flight_no delay_minutes rules :
  (forall p,
     snd (SimpleOpt.propose_patch_for_delay now s flight_no delay_minutes rules) = Ok p ->
     patch_feasible p
     = (fun f => RulesEngine.duty_duration_ok rules (Flight.sched_dep_utc f)
                   (Flight.sched_arr_utc f))
         <$> SimpleOpt.latest_flight (Session.pending s) flight_no)
  /\ (forall e,
        snd (SimpleOpt.propose_patch_for_delay now s flight_no delay_minutes rules) = Raise e
        <-> e = OverflowError
            /\ exists f, SimpleOpt.latest_flight (Session.pending s) flight_no = Some f
                         /\ ~ delay_representable f delay_minutes)
  /\ forall f g,
       SimpleOpt.latest_flight (Session.pending s) flight_no = Some f ->
       g ∈ Db.flight (Session.pending s) -> Flight.flight_no g = flight_no ->
       Flight.flight_date g <= Flight.flight_date f.
Proof.
  split; [| split].
  - intros p. unfold SimpleOpt.propose_patch_for_delay.
    destruct (SimpleOpt.latest_flight (Session.pending s) flight_no) as [f |];
      [| by intros [= <-]].
    cbn [snd]. rewrite shifted_times.
    destruct (bool_decide (delay_representable f delay_minutes)); [| done].
    intros [= <-]. simpl. by rewrite duty_duration_ok_shift.
  - intros e. unfold SimpleOpt.propose_patch_for_delay.
    destruct (SimpleOpt.latest_flight (Session.pending s) flight_no) as [f |].
    + cbn [snd]. rewrite shifted_times.
      destruct (bool_decide_reflect (delay_representable f delay_minutes)) as [Hrep | Hrep].
      * split; [done |]. intros (_ & f' & [= <-] & Hno). by destruct Hno.
      * split.
        -- intros [= <-]. split; [done |]. by exists f.
        -- by intros [-> _].
    + split; [done |]. by intros (_ & f & Hf & _).
  - intros f g Hf Hg Hno. unfold SimpleOpt.latest_flight in Hf.
    apply (first_max_greatest Flight.flight_date _ _ Hf).
    by apply list_elem_of_filter.
Qed.

Lemma delay_feasibility_ignores_delay_witness :
  patch_feasible (SimpleOpt.DelayShift 1 "6E101" (Time.at_time 739000 18 0)
                    (Time.at_time 739000 20 0) true)
  = (fun f => RulesEngine.duty_duration_ok RulesEngine.default (Flight.sched_dep_utc f)
                (Flight.sched_arr_utc f))
      <$> SimpleOpt.latest_flight DelayExample.db "6E101".
Proof.
  refine (proj1 (delay_feasibility_ignores_delay DelayExample.now
                   (Session.of_db DelayExample.db) "6E101" 600 RulesEngine.default) _ _).
  vm_compute. reflexivity.
Defined.



(** ** optimizer/simple_opt.py: what the greedy loop guarantees *)

(** The entries of crew [cid] in a roster, in order, and what the loop's
    running aggregates are meant to record about them. *)
Definition entries_of (cid : Z) (asg : list Assignment.t) : list Assignment.t :=
  filter (fun a => Assignment.crew_id a = Some cid) asg.

Definition last_end_of (cid : Z) (asg : list Assignment.t) : option Z :=
  last (map Assignment.duty_end_utc (entries_of cid asg)).

Definition durations_of (cid : Z) (asg : list Assignment.t) : list Z :=
  map (fun a => Assignment.duty_end_utc a - Assignment.duty_start_utc a) (entries_of cid asg).

Definition night_entries_of (rules : RulesEngine.t) (cid : Z) (asg : list Assignment.t)
    : list Assignment.t :=
  filter (fun a => RulesEngine.is_night_duty rules (Assignment.duty_start_utc a)
                     (Assignment.duty_end_utc a) = true)
    (entries_of cid asg).

(** The aggregates of the state agree with the roster built so far. *)
Definition mirrors (rules : RulesEngine.t) (st : SimpleOpt.State) : Prop :=
  forall cid,
    SimpleOpt.crew_last_duty_end st !! cid = last_end_of cid (SimpleOpt.assignments st)
    /\ default 0 (SimpleOpt.crew_duty_count st !! cid)
       = Z.of_nat (length (entries_of cid (SimpleOpt.assignments st)))
    /\ default [] (SimpleOpt.crew_weekly_duties st !! cid)
       = durations_of cid (SimpleOpt.assignments st)
    /\ default [] (SimpleOpt.crew_duty_history st !! cid)
       = durations_of cid (SimpleOpt.assignments st)
    /\ default 0 (SimpleOpt.crew_night_duties st !! cid)
       = Z.of_nat (length (night_entries_of rules cid (SimpleOpt.assignments st))).

Lemma entries_of_snoc cid asg a :
  entries_of cid (asg ++ [a])
  = (entries_of cid asg ++ if decide (Assignment.crew_id a = Some cid) then [a] else [])%list.
Proof.
  unfold entries_of. rewrite filter_app. reflexivity.
Qed.

Lemma default_Some {A : Type} (d x : A) : default d (Some x) = x.
Proof. reflexivity. Qed.

Lemma scored_crew_head_fields env st f best rest :
  SimpleOpt.scored_crew env st f = best :: rest ->
  SimpleOpt.cand_crew best ∈ SimpleOpt.crew env
  /\ SimpleOpt.eligible env st f (SimpleOpt.cand_crew best) = true
  /\ best = SimpleOpt.score_candidate env st f (SimpleOpt.cand_crew best).
Proof.
  intros Hs.
  assert (best ∈ SimpleOpt.scored_crew env st f) as Hin by (rewrite Hs; left).
  unfold SimpleOpt.scored_crew in Hin. rewrite sort_by_elem_of in Hin.
  apply list_elem_of_In, in_map_iff in Hin as (c & <- & Hc).
  apply list_elem_of_In, list_elem_of_filter in Hc as [He Hc].
  by repeat split.
Qed.

Lemma mirrors_init rules : mirrors rules SimpleOpt.init.
Proof. intros cid. by repeat split. Qed.

Lemma mirrors_unassigned rules st f :
  mirrors rules st ->
  mirrors rules
    (SimpleOpt.mkState (SimpleOpt.crew_duty_history st) (SimpleOpt.crew_last_duty_end st)
       (SimpleOpt.crew_duty_count st) (SimpleOpt.crew_weekly_duties st)
       (SimpleOpt.crew_consecutive_days st) (SimpleOpt.crew_night_duties st)
       (SimpleOpt.assignments st ++ [SimpleOpt.unassigned f])).
Proof.
  intros Hm cid. specialize (Hm cid).
  unfold last_end_of, durations_of, night_entries_of in *. cbn [SimpleOpt.assignments
    SimpleOpt.crew_last_duty_end SimpleOpt.crew_duty_count SimpleOpt.crew_weekly_duties
    SimpleOpt.crew_duty_history SimpleOpt.crew_night_duties].
  rewrite entries_of_snoc. rewrite decide_False by done. by rewrite app_nil_r.
Qed.

Lemma mirrors_update_history env st f best :
  mirrors (SimpleOpt.rules env) st ->
  best = SimpleOpt.score_candidate env st f (SimpleOpt.cand_crew best) ->
  mirrors (SimpleOpt.rules env) (SimpleOpt.update_history env st f best).
Proof.
  intros Hm Hbest cid. specialize (Hm cid) as (Hlast & Hcount & Hweekly & Hhist & Hnight).
  set (cid0 := Crew.crew_id (SimpleOpt.cand_crew best)).
  assert (SimpleOpt.night_count best = default 0 (SimpleOpt.crew_night_duties st !! cid0))
    as Hnc by (by rewrite Hbest).
  unfold SimpleOpt.update_history. fold cid0.
  unfold last_end_of, durations_of, night_entries_of in *.
  cbn [SimpleOpt.assignments SimpleOpt.crew_last_duty_end SimpleOpt.crew_duty_count
       SimpleOpt.crew_weekly_duties SimpleOpt.crew_duty_history SimpleOpt.crew_night_duties].
  rewrite entries_of_snoc. cbn [Assignment.crew_id].
  destruct (decide (cid0 = cid)) as [<- | Hne].
  - rewrite decide_True by done. rewrite !lookup_insert_eq, !default_Some.
    rewrite !map_app, filter_app, !length_app, filter_cons. cbn [map length Assignment.duty_end_utc
      Assignment.duty_start_utc]. rewrite last_snoc.
    rewrite Hweekly, Hhist. split; [done |]. split; [lia |]. split; [done |]. split; [done |].
    destruct (RulesEngine.is_night_duty (SimpleOpt.rules env) (Flight.sched_dep_utc f)
                (Flight.sched_arr_utc f)) eqn:Hn.
    + rewrite decide_True by done. rewrite lookup_insert_eq, default_Some, filter_nil.
      cbn [length]. rewrite Hnc. lia.
    + rewrite decide_False
        by (intros Hc; cbv beta in Hc;
            cbn [Assignment.duty_start_utc Assignment.duty_end_utc] in Hc; congruence).
      rewrite filter_nil. cbn [length]. lia.
  - rewrite decide_False by congruence. rewrite app_nil_r.
    rewrite !lookup_insert_ne by done. repeat split; try done.
    destruct (RulesEngine.is_night_duty _ _ _); [by rewrite lookup_insert_ne | done].
Qed.

Lemma assign_flight_mirrors env st f :
  mirrors (SimpleOpt.rules env) st -> mirrors (SimpleOpt.rules env) (SimpleOpt.assign_flight env st f).
Proof.
  intros Hm. unfold SimpleOpt.assign_flight.
  destruct (SimpleOpt.scored_crew env st f) as [| best rest] eqn:Hs.
  - by apply mirrors_unassigned.
  - apply scored_crew_head_fields in Hs as (_ & _ & Hbest). by apply mirrors_update_history.
Qed.

Lemma run_loop_mirrors today db period_start period_end rules :
  mirrors rules (SimpleOpt.run_loop today db period_start period_end rules).
Proof.
  unfold SimpleOpt.run_loop.
  apply (fold_left_invariant
           (mirrors (SimpleOpt.rules (SimpleOpt.make_env today db period_start period_end rules)))).
  - intros st f. apply assign_flight_mirrors.
  - apply mirrors_init.
Qed.

(** What the loop has checked before it appends entry [b] after the
    entries [pre]: the duty fits the daily and FDP limits, starts rested
    after the crew's previous duty of the roster, the crew's earlier duties
    fit the weekly ceiling, and for a night duty the crew's earlier night
    duties fit the night ceiling. *)
Definition admissible (rules : RulesEngine.t) (pre : list Assignment.t) (b : Assignment.t)
    : Prop :=
  forall cid,
    Assignment.crew_id b = Some cid ->
    RulesEngine.duty_duration_ok rules (Assignment.duty_start_utc b) (Assignment.duty_end_utc b)
    = true
    /\ RulesEngine.rest_ok rules (last_end_of cid pre) (Assignment.duty_start_utc b) = true
    /\ RulesEngine.weekly_duty_ok rules (durations_of cid pre) = true
    /\ (RulesEngine.is_night_duty rules (Assignment.duty_start_utc b) (Assignment.duty_end_utc b)
        = true ->
        RulesEngine.night_duty_ok rules (Z.of_nat (length (night_entries_of rules cid pre)))
        = true).

Lemma eligible_rules env st f c :
  SimpleOpt.eligible env st f c = true ->
  RulesEngine.duty_duration_ok (SimpleOpt.rules env) (Flight.sched_dep_utc f)
    (Flight.sched_arr_utc f) = true
  /\ RulesEngine.rest_ok (SimpleOpt.rules env)
       (SimpleOpt.crew_last_duty_end st !! Crew.crew_id c) (Flight.sched_dep_utc f) = true
  /\ RulesEngine.weekly_duty_ok (SimpleOpt.rules env)
       (default [] (SimpleOpt.crew_weekly_duties st !! Crew.crew_id c)) = true
  /\ RulesEngine.consecutive_duty_days_ok (SimpleOpt.rules env)
       (default 0 (SimpleOpt.crew_consecutive_days st !! Crew.crew_id c)) = true
  /\ (RulesEngine.is_night_duty (SimpleOpt.rules env) (Flight.sched_dep_utc f)
        (Flight.sched_arr_utc f) = true ->
      RulesEngine.night_duty_ok (SimpleOpt.rules env)
        (default 0 (SimpleOpt.crew_night_duties st !! Crew.crew_id c)) = true).
Proof.
  unfold SimpleOpt.eligible.
  destruct (SimpleOpt.is_crew_qualified_for_flight _ _ _ _); [| done].
  destruct (SimpleOpt.is_crew_available _ _ _); [| done].
  destruct (RulesEngine.duty_duration_ok _ _ _); [| done].
  destruct (RulesEngine.rest_ok _ _ _); [| done].
  destruct (RulesEngine.weekly_duty_ok _ _); [| done].
  destruct (RulesEngine.consecutive_duty_days_ok _ _); [| done].
  destruct (RulesEngine.is_night_duty _ _ _); [| done].
  destruct (RulesEngine.night_duty_ok _ _); done.
Qed.

Lemma snoc_split {A : Type} (l pre post : list A) (e b : A) :
  (l ++ [e])%list = (pre ++ b :: post)%list ->
  (post = [] /\ pre = l /\ b = e)
  \/ exists post', post = (post' ++ [e])%list /\ l = (pre ++ b :: post')%list.
Proof.
  destruct post as [| x post _] using rev_ind.
  - intros H. apply (app_inj_tail l pre e b) in H as [-> ->]. by left.
  - intros H. right. exists post.
    replace (pre ++ b :: post ++ [x])%list with ((pre ++ b :: post) ++ [x])%list in H
      by (by rewrite <- app_assoc).
    apply app_inj_tail in H as [-> ->]. done.
Qed.

Lemma assign_flight_admissible env st f :
  mirrors (SimpleOpt.rules env) st ->
  exists a,
    SimpleOpt.assignments (SimpleOpt.assign_flight env st f)
    = (SimpleOpt.assignments st ++ [a])%list
    /\ admissible (SimpleOpt.rules env) (SimpleOpt.assignments st) a.
Proof.
  intros Hm. unfold SimpleOpt.assign_flight.
  destruct (SimpleOpt.scored_crew env st f) as [| best rest] eqn:Hs.
  - eexists. split; [reflexivity |]. intros cid Hc. discriminate Hc.
  - apply scored_crew_head_fields in Hs as (_ & He & _).
    apply eligible_rules in He as (Hd & Hr & Hw & _ & Hn).
    eexists. split; [reflexivity |]. intros cid [= <-].
    destruct (Hm (Crew.crew_id (SimpleOpt.cand_crew best))) as (Hlast & _ & Hweekly & _ & Hnight).
    cbn [Assignment.duty_start_utc Assignment.duty_end_utc].
    rewrite <- Hlast, <- Hweekly, <- Hnight. done.
Qed.

Lemma run_loop_admissible today db period_start period_end rules pre b post :
  SimpleOpt.assignments (SimpleOpt.run_loop today db period_start period_end rules)
  = (pre ++ b :: post)%list ->
  admissible rules pre b.
Proof.
  unfold SimpleOpt.run_loop.
  set (env := SimpleOpt.make_env today db period_start period_end rules).
  assert (SimpleOpt.rules env = rules) as Hrules by reflexivity.
  revert pre b post.
  apply (fold_left_invariant
           (fun st => mirrors rules st
                      /\ forall pre b post,
                           SimpleOpt.assignments st = (pre ++ b :: post)%list ->
                           admissible rules pre b)).
  - intros st f [Hm Hadm]. split; [by apply (assign_flight_mirrors env) |].
    destruct (assign_flight_admissible env st f Hm) as (a & -> & Ha).
    intros pre b post Hsplit.
    apply snoc_split in Hsplit as [(-> & -> & ->) | (post' & -> & Hst)]; [done |].
    by apply (Hadm pre b post').
  - split; [apply mirrors_init |]. intros pre b post H. by destruct pre.
Qed.

(** X6. Every duty in the greedy roster passed the rules against the
    crew's earlier duties in that roster: it fits the daily and FDP limits,
    it starts at least the minimum rest after the end of the same crew's
    previous duty, the crew's earlier duties sum to no more than the weekly
    ceiling, and a night duty is only given while the crew's earlier night
    duties are within the night ceiling. *)
Theorem greedy_duties_admissible today db period_start period_end rules pre b post :
  SimpleOpt.assignments (SimpleOpt.run_loop today db period_start period_end rules)
  = (pre ++ b :: post)%list ->
  (exists kpis,
      SimpleOpt.generate_roster today db period_start period_end rules
      = Ok ((pre ++ b :: post)%list, kpis))
  /\ admissible rules pre b.
Proof.
  intros Hsplit. split; [| by eapply run_loop_admissible].
  destruct (generate_roster_ok today db period_start period_end rules) as [z Hz].
  rewrite Hsplit in Hz. eexists. exact Hz.
Qed.

Lemma greedy_duties_admissible_witness :
  admissible RulesEngine.default
    [assigned_entry StreakExample.flight1 StreakExample.crew1]
    (assigned_entry StreakExample.flight2 StreakExample.crew1).
Proof.
  refine (proj2 (greedy_duties_admissible StreakExample.today StreakExample.db 739000 739001
                   RulesEngine.default
                   [assigned_entry StreakExample.flight1 StreakExample.crew1]
                   (assigned_entry StreakExample.flight2 StreakExample.crew1) [] _)).
  vm_compute. reflexivity.
Defined.

Lemma night_entries_of_snoc rules cid asg a :
  night_entries_of rules cid (asg ++ [a])
  = (night_entries_of rules cid asg
     ++ if decide (Assignment.crew_id a = Some cid)
        then if RulesEngine.is_night_duty rules (Assignment.duty_start_utc a)
                  (Assignment.duty_end_utc a)
             then [a] else []
        else [])%list.
Proof.
  unfold night_entries_of. rewrite entries_of_snoc, filter_app. f_equal.
  destruct (decide (Assignment.crew_id a = Some cid)); [| done].
  rewrite filter_cons, filter_nil.
  destruct (RulesEngine.is_night_duty rules _ _) eqn:Hn.
  - by rewrite decide_True.
  - rewrite decide_False; [done | congruence].
Qed.

(** X7. With a positive night-duty ceiling [m] configured, no crew gets more
    than [m + 1] night duties in a greedy roster: the ceiling is tested,
    with [<=], against the count before the new duty is added. *)
Theorem greedy_night_duties_bounded today db period_start period_end rules m cid :
  RulesEngine.max_night_duties_per_week rules = Some m ->
  0 < m ->
  Z.of_nat (length (night_entries_of rules cid
                      (SimpleOpt.assignments
                         (SimpleOpt.run_loop today db period_start period_end rules))))
  <= m + 1.
Proof.
  intros Hmax Hm0. unfold SimpleOpt.run_loop.
  set (env := SimpleOpt.make_env today db period_start period_end rules).
  revert cid.
  apply (fold_left_invariant
           (fun st => mirrors rules st
                      /\ forall cid,
                           Z.of_nat (length (night_entries_of rules cid (SimpleOpt.assignments st)))
                           <= m + 1)).
  - intros st f [Hm Hbound]. split; [by apply (assign_flight_mirrors env) |].
    destruct (assign_flight_admissible env st f Hm) as (a & -> & Ha).
    intros cid. rewrite night_entries_of_snoc, length_app.
    specialize (Hbound cid).
    destruct (decide (Assignment.crew_id a = Some cid)) as [Hc | Hc]; [| simpl; lia].
    destruct (RulesEngine.is_night_duty rules _ _) eqn:Hn; [| simpl; lia].
    destruct (Ha cid Hc) as (_ & _ & _ & Hok). specialize (Hok Hn).
    unfold RulesEngine.night_duty_ok in Hok. change (SimpleOpt.rules env) with rules in Hok.
    rewrite Hmax in Hok. simpl in Hok.
    destruct (Z.eqb_spec m 0); [lia |]. simpl in Hok. simpl. lia.
  - split; [apply mirrors_init |]. intros cid. simpl. lia.
Qed.

Module NightExample.
(** One crew, three flights 22:00 to 23:30 on three nights in a row, and a
    ceiling of one night duty. *)
Definition rules : RulesEngine.t :=
  RulesEngine.mk (Time.hours 10) (Time.hours 12) (Time.hours 13)
    None None None None (Some 1) None None None None None.
Definition crew1 : Crew.t := Crew.mk 1 "E001" "Asha" "Captain" "DEL" "Active".
Definition qual1 : CrewQualification.t := CrewQualification.mk 1 "A320" 738000 None.
Definition night_flight (id day : Z) : Flight.t :=
  Flight.mk id "6E700" day "DEL" "BOM" (Time.at_time day 22 0) (Time.at_time day 23 30) "A320".
Definition db : Db.t :=
  Db.mk [crew1] [qual1] [] [] []
    [night_flight 1 739000; night_flight 2 739001; night_flight 3 739002] [] [].
Definition roster : list Assignment.t :=
  SimpleOpt.assignments (SimpleOpt.run_loop 738990 db 739000 739002 rules).
End NightExample.

(** The bound is reached: with a ceiling of 1 the crew flies two nights and
    is refused the third. *)
Lemma greedy_night_duties_bounded_witness :
  map Assignment.crew_id NightExample.roster = [Some 1; Some 1; None]
  /\ Z.of_nat (length (night_entries_of NightExample.rules 1 NightExample.roster)) <= 1 + 1.
Proof.
  split; [vm_compute; reflexivity |].
  apply (greedy_night_duties_bounded 738990 NightExample.db 739000 739002 NightExample.rules 1 1).
  - reflexivity.
  - lia.
Defined.

(** ** The KPI record *)

Lemma fold_max_mono xs : forall a b, a <= b -> fold_left Z.max xs a <= fold_left Z.max xs b.
Proof.
  induction xs as [| x xs IH]; simpl; intros a b Hab; [done |]. apply IH. lia.
Qed.

Lemma fold_min_mono xs : forall a b, a <= b -> fold_left Z.min xs a <= fold_left Z.min xs b.
Proof.
  induction xs as [| x xs IH]; simpl; intros a b Hab; [done |]. apply IH. lia.
Qed.

Lemma py_max_elem l y : y ∈ l -> y <= py_max l.
Proof.
  destruct l as [| x0 xs]; [intros H; by apply elem_of_nil in H |]. simpl.
  revert x0. induction xs as [| x xs IH]; intros x0 Hy; simpl.
  - apply list_elem_of_singleton in Hy. lia.
  - apply elem_of_cons in Hy as [-> | Hy].
    + pose proof (fold_max_ge xs (Z.max x0 x)). lia.
    + etransitivity; [apply (IH x Hy) |]. apply fold_max_mono. lia.
Qed.

Lemma py_min_elem l y : y ∈ l -> py_min l <= y.
Proof.
  destruct l as [| x0 xs]; [intros H; by apply elem_of_nil in H |]. simpl.
  revert x0. induction xs as [| x xs IH]; intros x0 Hy; simpl.
  - apply list_elem_of_singleton in Hy. lia.
  - apply elem_of_cons in Hy as [-> | Hy].
    + pose proof (fold_min_le xs (Z.min x0 x)). lia.
    + etransitivity; [| apply (IH x Hy)]. apply fold_min_mono. lia.
Qed.

Lemma py_max_upper b l : 0 <= b -> Forall (fun v => v <= b) l -> py_max l <= b.
Proof.
  intros Hb Hl. destruct Hl as [| x xs Hx Hxs]; simpl; [done |].
  revert x Hx. induction Hxs as [| y ys Hy _ IH]; intros x Hx; simpl; [done |].
  apply IH. lia.
Qed.

Lemma dict_values_elem_of (m : gmap Z Z) v :
  v ∈ dict_values m <-> exists k, m !! k = Some v.
Proof.
  unfold dict_values. rewrite list_elem_of_fmap. split.
  - intros ([k v'] & -> & Hin). exists k. by apply elem_of_map_to_list in Hin.
  - intros [k Hk]. exists (k, v). split; [done |]. by apply elem_of_map_to_list.
Qed.

(** What a KPI record says about the roster [asg] it comes with. *)
Definition kpis_describe (flights : list Flight.t) (asg : list Assignment.t) (k : Kpis.t)
    : Prop :=
  Kpis.flights_total k = Z.of_nat (length flights)
  /\ length asg = length flights
  /\ Kpis.flights_assigned k
     = Z.of_nat (length (filter (fun a => Assignment.has_crew a = true) asg))
  /\ 0 <= Kpis.flights_assigned k <= Kpis.flights_total k
  /\ (0 <= Kpis.assignment_rate k <= 1)%Q
  /\ Kpis.duty_distribution_range k = Kpis.max_duty_per_crew k - Kpis.min_duty_per_crew k
  /\ 0 <= Kpis.min_duty_per_crew k <= Kpis.max_duty_per_crew k
  /\ Kpis.max_duty_per_crew k <= Kpis.flights_total k
  /\ forall cid,
       entries_of cid asg <> [] ->
       Kpis.min_duty_per_crew k <= Z.of_nat (length (entries_of cid asg))
       <= Kpis.max_duty_per_crew k.

Lemma compute_kpis_describe flights asg (counts : gmap Z Z) total_pref :
  length asg = length flights ->
  (forall cid, default 0 (counts !! cid) = Z.of_nat (length (entries_of cid asg))) ->
  counts_ok counts ->
  kpis_describe flights asg
    (compute_kpis (Z.of_nat (length flights))
       (Z.of_nat (length (filter (fun a => Assignment.has_crew a = true) asg)))
       counts total_pref).
Proof.
  intros Hlen Hcounts Hok. unfold kpis_describe, compute_kpis.
  cbn [Kpis.flights_total Kpis.flights_assigned Kpis.assignment_rate
       Kpis.duty_distribution_range Kpis.max_duty_per_crew Kpis.min_duty_per_crew].
  pose proof (length_filter (fun a => Assignment.has_crew a = true) asg) as Hf.
  pose proof (py_min_max_bounds _ (dict_values_Forall _ _ Hok)) as Hb.
  assert (forall v, v ∈ dict_values counts -> v <= Z.of_nat (length flights)) as Hle.
  { intros v Hv. apply dict_values_elem_of in Hv as [k Hk].
    specialize (Hcounts k). rewrite Hk in Hcounts. simpl in Hcounts. subst v.
    pose proof (length_filter (fun a => Assignment.crew_id a = Some k) asg).
    unfold entries_of. lia. }
  assert (py_max (dict_values counts) <= Z.of_nat (length flights)) as Hmax.
  { apply py_max_upper; [lia |]. apply Forall_forall. intros v Hv. by apply Hle. }
  split; [done |]. split; [done |]. split; [done |]. split; [lia |]. split.
  { destruct (Z.eqb_spec (Z.of_nat (length flights)) 0) as [Hz | Hnz]; cbn [negb].
    - split; done.
    - apply true_div_bounds; lia. }
  split; [done |].
  destruct (bool_decide (counts = ∅)) eqn:Hempty; cbn [negb].
  - apply bool_decide_eq_true in Hempty. subst counts.
    split; [lia |]. split; [lia |]. intros cid Hne.
    specialize (Hcounts cid). rewrite lookup_empty in Hcounts. simpl in Hcounts.
    destruct (entries_of cid asg); [done | simpl in Hcounts; lia].
  - split; [lia |]. split; [lia |]. intros cid Hne.
    assert (Z.of_nat (length (entries_of cid asg)) ∈ dict_values counts) as Hin.
    { apply dict_values_elem_of. exists cid. specialize (Hcounts cid).
      destruct (counts !! cid) as [v |]; simpl in Hcounts; [by rewrite Hcounts |].
      destruct (entries_of cid asg); [done | simpl in Hcounts; lia]. }
    split; [by apply py_min_elem | by apply py_max_elem].
Qed.

(** X8. The KPI record of the greedy roster describes that roster:
    [flights_total] is the number of flights of the period and of roster
    entries, [flights_assigned] counts the entries with a (non-zero) crew id
    and does not exceed the total, [assignment_rate] lies in [0, 1], the
    distribution range is max minus min, and every crew that appears in the
    roster has between [min_duty_per_crew] and [max_duty_per_crew] entries. *)
Theorem greedy_kpis_describe_roster today db period_start period_end rules :
  exists asg kpis,
    SimpleOpt.generate_roster today db period_start period_end rules = Ok (asg, kpis)
    /\ kpis_describe (period_flights db period_start period_end) asg kpis.
Proof.
  destruct (generate_roster_ok today db period_start period_end rules) as [z Hz].
  eexists _, _. split; [exact Hz |].
  assert (length (SimpleOpt.query_flights db period_start period_end)
          = length (period_flights db period_start period_end)) as Hq
    by apply sort_by_length.
  rewrite Hq. apply compute_kpis_describe.
  - rewrite <- Hq. symmetry. eapply Forall2_length, run_loop_entries.
  - intros cid. apply (run_loop_mirrors today db period_start period_end rules cid).
  - apply run_loop_counts.
Qed.

(** ** optimizer/or_tools_opt.py: what a solution of the model guarantees *)

Lemma fold_add_shift l : forall a, fold_left Z.add l a = a + fold_left Z.add l 0.
Proof.
  induction l as [| x xs IH]; simpl; intros a; [lia |].
  rewrite (IH (a + x)), (IH (0 + x)). lia.
Qed.

Lemma py_sum_cons x l : py_sum (x :: l) = x + py_sum l.
Proof. unfold py_sum. simpl. apply fold_add_shift. Qed.

Lemma py_sum_app l1 l2 : py_sum (l1 ++ l2) = py_sum l1 + py_sum l2.
Proof.
  induction l1 as [| x xs IH]; [done |]. simpl app. rewrite !py_sum_cons, IH. lia.
Qed.

Lemma sum_values_nonneg v xs : 0 <= py_sum (map (CpModel.Value v) xs).
Proof.
  induction xs as [| x xs IH]; [done |]. simpl map. rewrite py_sum_cons.
  unfold CpModel.Value at 1. destruct (v x); lia.
Qed.

Lemma sum_values_elem v xs x :
  x ∈ xs -> CpModel.Value v x = 1 -> 1 <= py_sum (map (CpModel.Value v) xs).
Proof.
  induction xs as [| y ys IH]; intros Hx Hv; [by apply elem_of_nil in Hx |].
  simpl map. rewrite py_sum_cons. apply elem_of_cons in Hx as [<- | Hx].
  - pose proof (sum_values_nonneg v ys). lia.
  - specialize (IH Hx Hv). unfold CpModel.Value at 1. destruct (v y); lia.
Qed.

Lemma sum_values_pos v xs :
  1 <= py_sum (map (CpModel.Value v) xs) -> exists x, x ∈ xs /\ CpModel.Value v x = 1.
Proof.
  induction xs as [| y ys IH]; [unfold py_sum; simpl; lia |].
  simpl map. rewrite py_sum_cons. unfold CpModel.Value at 1.
  destruct (v y) eqn:Hy.
  - intros _. exists y. split; [left |]. unfold CpModel.Value. by rewrite Hy.
  - intros H. destruct IH as (x & Hx & Hv); [lia |]. exists x. split; [by right | done].
Qed.

Lemma build_model_constraints today db period_start period_end rules :
  CpModel.constraints
    (OrToolsOpt.build_model today (OrToolsOpt.init db rules) period_start period_end)
  = (OrToolsOpt._add_qualification_constraints
       (OrToolsOpt._get_flights (OrToolsOpt.init db rules) period_start period_end)
       (OrToolsOpt._get_active_crew (OrToolsOpt.init db rules))
       (OrToolsOpt._build_qualification_map today
          (OrToolsOpt._get_qualifications (OrToolsOpt.init db rules)))
     ++ OrToolsOpt._add_availability_constraints
          (OrToolsOpt._get_flights (OrToolsOpt.init db rules) period_start period_end)
          (OrToolsOpt._get_active_crew (OrToolsOpt.init db rules))
          (OrToolsOpt._build_unavailable_crew_map
             (OrToolsOpt._get_unavailable_crew (OrToolsOpt.init db rules)
                period_start period_end))
     ++ OrToolsOpt._add_rules_constraints
          (OrToolsOpt._get_flights (OrToolsOpt.init db rules) period_start period_end)
          (OrToolsOpt._get_active_crew (OrToolsOpt.init db rules)))%list.
Proof.
  unfold OrToolsOpt.build_model. rewrite set_objective_constraints.
  unfold CpModel.add, OrToolsOpt._add_fairness_constraints. cbn [CpModel.constraints].
  cbn [OrToolsOpt.model OrToolsOpt.init CpModel.empty CpModel.constraints].
  by rewrite app_nil_r, app_nil_l, <- app_assoc.
Qed.

(** The entry the decoder appends names a crew as soon as some crew's
    variable is 1. *)
Lemma decode_flight_assigned v crew acc f :
  exists a,
    fst (OrToolsOpt.decode_flight v crew acc f) = (fst acc ++ [a])%list
    /\ ((exists c, c ∈ crew /\ CpModel.Value v (OrToolsOpt.key f c) = 1) ->
        is_Some (Assignment.crew_id a) /\ Assignment.note a = None).
Proof.
  destruct acc as [assignments counts]. unfold OrToolsOpt.decode_flight.
  destruct (head (filter _ crew)) as [c |] eqn:Hh.
  - eexists. split; [reflexivity |]. intros _. by split; [eexists |].
  - eexists. split; [reflexivity |]. intros (c & Hc & Hv). exfalso.
    apply head_None in Hh. by apply (filter_nil_not_elem_of _ _ c Hh Hv).
Qed.

Lemma exactly_one_in_model today db period_start period_end rules f :
  f ∈ OrToolsOpt._get_flights (OrToolsOpt.init db rules) period_start period_end ->
  CpModel.SumEq (map (OrToolsOpt.key f) (OrToolsOpt._get_active_crew (OrToolsOpt.init db rules))) 1
  ∈ CpModel.constraints
      (OrToolsOpt.build_model today (OrToolsOpt.init db rules) period_start period_end).
Proof.
  intros Hf. rewrite build_model_constraints, !elem_of_app. right. right.
  unfold OrToolsOpt._add_rules_constraints. apply elem_of_app. left.
  apply list_elem_of_In, in_map_iff. exists f. split; [done | by apply list_elem_of_In].
Qed.

(** X9. In a solution of the model every flight of the period has a crew:
    the decoded roster has no UNASSIGNED entry.  Hence with at least one
    flight and no active crew the model has no solution at all. *)
Theorem solution_assigns_every_flight today db period_start period_end rules v :
  CpModel.satisfies v
    (OrToolsOpt.build_model today (OrToolsOpt.init db rules) period_start period_end) = true ->
  Forall (fun a => is_Some (Assignment.crew_id a) /\ Assignment.note a = None)
    (fst (OrToolsOpt.decode v
            (OrToolsOpt._get_flights (OrToolsOpt.init db rules) period_start period_end)
            (OrToolsOpt._get_active_crew (OrToolsOpt.init db rules))))
  /\ (OrToolsOpt._get_flights (OrToolsOpt.init db rules) period_start period_end <> [] ->
      OrToolsOpt._get_active_crew (OrToolsOpt.init db rules) <> []).
Proof.
  intros Hsat.
  set (flights := OrToolsOpt._get_flights (OrToolsOpt.init db rules) period_start period_end).
  set (crew := OrToolsOpt._get_active_crew (OrToolsOpt.init db rules)).
  assert (forall f, f ∈ flights ->
                    exists c, c ∈ crew /\ CpModel.Value v (OrToolsOpt.key f c) = 1) as Hone.
  { intros f Hf.
    pose proof (satisfies_holds _ _ _ Hsat
                  (exactly_one_in_model today db period_start period_end rules f Hf)) as Hh.
    simpl in Hh. apply Z.eqb_eq in Hh. fold crew in Hh.
    destruct (sum_values_pos v (map (OrToolsOpt.key f) crew)) as (x & Hx & Hv); [lia |].
    apply list_elem_of_In, in_map_iff in Hx as (c & <- & Hc). exists c.
    split; [by apply list_elem_of_In | done]. }
  split.
  - unfold OrToolsOpt.decode.
    destruct (fold_left_appends fst
                (fun f a => (exists c, c ∈ crew /\ CpModel.Value v (OrToolsOpt.key f c) = 1) ->
                            is_Some (Assignment.crew_id a) /\ Assignment.note a = None)
                (OrToolsOpt.decode_flight v crew) (decode_flight_assigned v crew)
                flights ([], ∅)) as (ys & -> & HF).
    simpl. apply Forall_forall. intros a Ha.
    destruct (Forall2_elem_of_r _ _ _ _ HF Ha) as (f & Hf & Himp). by apply Himp, Hone.
  - intros Hne Hcrew. destruct flights as [| f rest]; [done |].
    destruct (Hone f ltac:(left)) as (c & Hc & _). rewrite Hcrew in Hc.
    by apply elem_of_nil in Hc.
Qed.

Lemma solution_assigns_every_flight_witness :
  Forall (fun a => is_Some (Assignment.crew_id a) /\ Assignment.note a = None)
    (fst (OrToolsOpt.decode (fun x => bool_decide (x = (1, 2)))
            (OrToolsOpt._get_flights
               (OrToolsOpt.init AvailabilityExample.db RulesEngine.default) 739000 739000)
            (OrToolsOpt._get_active_crew
               (OrToolsOpt.init AvailabilityExample.db RulesEngine.default)))).
Proof.
  refine (proj1 (solution_assigns_every_flight AvailabilityExample.today AvailabilityExample.db
                   739000 739000 RulesEngine.default (fun x => bool_decide (x = (1, 2))) _)).
  vm_compute. reflexivity.
Defined.

(** *** One flight per crew and calendar day *)

Section OrderedDictLookup.
Context {K V : Type} `{EqDecision K}.

Lemma od_get_set_eq (k : K) (v : V) d : od_get k (od_set k v d) = Some v.
Proof.
  induction d as [| [k0 v0] rest IH]; simpl.
  - by rewrite decide_True.
  - destruct (decide (k = k0)) as [-> | Hne]; simpl.
    + by rewrite decide_True.
    + by rewrite decide_False.
Qed.

Lemma od_get_set_ne (k k' : K) (v : V) d : k' <> k -> od_get k' (od_set k v d) = od_get k' d.
Proof.
  intros Hne. induction d as [| [k0 v0] rest IH]; simpl.
  - by rewrite decide_False.
  - destruct (decide (k = k0)) as [-> | Hne0]; simpl.
    + by rewrite !decide_False.
    + destruct (decide (k' = k0)); [done | exact IH].
Qed.
End OrderedDictLookup.

(** The variables filed under crew [cid] and date [date]. *)
Definition lookup_day (d : list (Z * list (Z * list CpModel.var))) (cid date : Z)
    : list CpModel.var :=
  default [] (od_get date (default [] (od_get cid d))).

(** The variables of crew id [cid] for the flights of [date], in the order
    the loops of [_add_rules_constraints] meet them. *)
Definition day_vars (flights : list Flight.t) (crew : list Crew.t) (cid date : Z)
    : list CpModel.var :=
  flat_map (fun f =>
              if decide (Flight.flight_date f = date)
              then flat_map (fun c => if decide (Crew.crew_id c = cid)
                                      then [OrToolsOpt.key f c] else [])
                     crew
              else [])
    flights.

Definition file_var (f : Flight.t) (d : list (Z * list (Z * list CpModel.var))) (c : Crew.t)
    : list (Z * list (Z * list CpModel.var)) :=
  od_set (Crew.crew_id c)
    (od_append (Flight.flight_date f) (OrToolsOpt.key f c)
       (default [] (od_get (Crew.crew_id c) d)))
    d.

Lemma lookup_day_file_var f d c cid date :
  lookup_day (file_var f d c) cid date
  = (lookup_day d cid date
     ++ if decide (Flight.flight_date f = date)
        then if decide (Crew.crew_id c = cid) then [OrToolsOpt.key f c] else []
        else [])%list.
Proof.
  unfold lookup_day, file_var.
  destruct (decide (Crew.crew_id c = cid)) as [<- | Hne].
  - rewrite od_get_set_eq. simpl. unfold od_append.
    destruct (decide (Flight.flight_date f = date)) as [<- | Hd].
    + by rewrite od_get_set_eq.
    + rewrite od_get_set_ne by done. by rewrite app_nil_r.
  - rewrite od_get_set_ne by done. by destruct (decide _); rewrite app_nil_r.
Qed.

Lemma lookup_day_crew_loop f crew : forall d cid date,
  lookup_day (fold_left (file_var f) crew d) cid date
  = (lookup_day d cid date
     ++ if decide (Flight.flight_date f = date)
        then flat_map (fun c => if decide (Crew.crew_id c = cid)
                                then [OrToolsOpt.key f c] else []) crew
        else [])%list.
Proof.
  induction crew as [| c crew IH]; intros d cid date; simpl.
  - by destruct (decide _); rewrite app_nil_r.
  - rewrite IH, lookup_day_file_var, <- app_assoc.
    by destruct (decide (Flight.flight_date f = date)).
Qed.

Lemma lookup_day_crew_flight_dates flights crew cid date :
  lookup_day (OrToolsOpt.crew_flight_dates flights crew) cid date
  = day_vars flights crew cid date.
Proof.
  unfold OrToolsOpt.crew_flight_dates.
  change (fun d f => fold_left _ crew d) with (fun d f => fold_left (file_var f) crew d).
  assert (forall d,
             lookup_day (fold_left (fun d f => fold_left (file_var f) crew d) flights d) cid date
             = (lookup_day d cid date ++ day_vars flights crew cid date)%list) as H.
  { induction flights as [| f flights IH]; intros d; simpl; [by rewrite app_nil_r |].
    by rewrite IH, lookup_day_crew_loop, <- app_assoc. }
  by rewrite H.
Qed.

Lemma day_constraint_in_rules flights crew cid date :
  day_vars flights crew cid date <> [] ->
  CpModel.SumLe (day_vars flights crew cid date) 1
  ∈ OrToolsOpt._add_rules_constraints flights crew.
Proof.
  intros Hne. rewrite <- lookup_day_crew_flight_dates in *.
  unfold lookup_day in *.
  destruct (od_get cid (OrToolsOpt.crew_flight_dates flights crew)) as [dates |] eqn:Hc;
    [| done].
  simpl in *. destruct (od_get date dates) as [xs |] eqn:Hd; [| done]. simpl in *.
  unfold OrToolsOpt._add_rules_constraints. apply elem_of_app. right.
  apply list_elem_of_In, in_flat_map. exists (cid, dates).
  split; [by apply list_elem_of_In, od_get_Some |].
  apply in_map_iff. exists (date, xs). split; [done | by apply list_elem_of_In, od_get_Some].
Qed.

Lemma day_vars_app l1 l2 crew cid date :
  day_vars (l1 ++ l2) crew cid date
  = (day_vars l1 crew cid date ++ day_vars l2 crew cid date)%list.
Proof. unfold day_vars. apply flat_map_app. Qed.

Lemma day_vars_elem flights crew f c :
  f ∈ flights -> c ∈ crew ->
  OrToolsOpt.key f c ∈ day_vars flights crew (Crew.crew_id c) (Flight.flight_date f).
Proof.
  intros Hf Hc. unfold day_vars. apply list_elem_of_In, in_flat_map.
  exists f. split; [by apply list_elem_of_In |]. rewrite decide_True by done.
  apply in_flat_map. exists c. split; [by apply list_elem_of_In |].
  rewrite decide_True by done. by left.
Qed.

(** In a solution, one crew id cannot hold two flights of one date. *)
Lemma solution_one_flight_per_day today db period_start period_end rules v l1 f1 l2 c1 f2 c2 :
  CpModel.satisfies v
    (OrToolsOpt.build_model today (OrToolsOpt.init db rules) period_start period_end) = true ->
  OrToolsOpt._get_flights (OrToolsOpt.init db rules) period_start period_end
  = (l1 ++ f1 :: l2)%list ->
  f2 ∈ l2 ->
  c1 ∈ OrToolsOpt._get_active_crew (OrToolsOpt.init db rules) ->
  c2 ∈ OrToolsOpt._get_active_crew (OrToolsOpt.init db rules) ->
  Flight.flight_date f1 = Flight.flight_date f2 ->
  Crew.crew_id c1 = Crew.crew_id c2 ->
  CpModel.Value v (OrToolsOpt.key f1 c1) = 1 ->
  CpModel.Value v (OrToolsOpt.key f2 c2) = 1 ->
  False.
Proof.
  intros Hsat Hfl Hf2 Hc1 Hc2 Hdate Hcid Hv1 Hv2.
  set (crew := OrToolsOpt._get_active_crew (OrToolsOpt.init db rules)) in *.
  set (xs := day_vars (l1 ++ f1 :: l2) crew (Crew.crew_id c1) (Flight.flight_date f1)).
  assert (CpModel.SumLe xs 1
          ∈ CpModel.constraints
              (OrToolsOpt.build_model today (OrToolsOpt.init db rules) period_start period_end))
    as Hin.
  { rewrite build_model_constraints, !elem_of_app. right. right. rewrite Hfl. fold crew.
    apply day_constraint_in_rules. intros Hnil.
    assert (OrToolsOpt.key f1 c1 ∈ xs) as Hk
      by (apply day_vars_elem; [apply elem_of_app; right; left | done]).
    fold xs in Hnil. rewrite Hnil in Hk. by apply elem_of_nil in Hk. }
  pose proof (satisfies_holds _ _ _ Hsat Hin) as Hh. simpl in Hh. apply Z.leb_le in Hh.
  subst xs. replace (l1 ++ f1 :: l2)%list with (l1 ++ [f1] ++ l2)%list in Hh by done.
  rewrite !day_vars_app, !map_app, !py_sum_app in Hh.
  pose proof (sum_values_nonneg v (day_vars l1 crew (Crew.crew_id c1) (Flight.flight_date f1))).
  assert (1 <= py_sum (map (CpModel.Value v)
                         (day_vars [f1] crew (Crew.crew_id c1) (Flight.flight_date f1)))) as H1.
  { apply (sum_values_elem v _ (OrToolsOpt.key f1 c1)); [| done].
    apply day_vars_elem; [left | done]. }
  assert (1 <= py_sum (map (CpModel.Value v)
                         (day_vars l2 crew (Crew.crew_id c1) (Flight.flight_date f1)))) as H2.
  { apply (sum_values_elem v _ (OrToolsOpt.key f2 c2)); [| done].
    rewrite Hcid, Hdate. by apply day_vars_elem. }
  lia.
Qed.

(** X10. In the roster decoded from a solution of the model, two entries
    that name the same crew belong to flights of different dates: the
    same-day constraint holds for the decoded roster. *)
Theorem solution_roster_one_flight_per_day today db period_start period_end rules v
    asg1 a1 asg2 a2 asg3 cid :
  CpModel.satisfies v
    (OrToolsOpt.build_model today (OrToolsOpt.init db rules) period_start period_end) = true ->
  fst (OrToolsOpt.decode v
         (OrToolsOpt._get_flights (OrToolsOpt.init db rules) period_start period_end)
         (OrToolsOpt._get_active_crew (OrToolsOpt.init db rules)))
  = (asg1 ++ a1 :: asg2 ++ a2 :: asg3)%list ->
  Assignment.crew_id a1 = Some cid ->
  Assignment.crew_id a2 = Some cid ->
  exists f1 f2,
    f1 ∈ OrToolsOpt._get_flights (OrToolsOpt.init db rules) period_start period_end
    /\ f2 ∈ OrToolsOpt._get_flights (OrToolsOpt.init db rules) period_start period_end
    /\ Assignment.flight_id a1 = Flight.flight_id f1
    /\ Assignment.flight_id a2 = Flight.flight_id f2
    /\ Flight.flight_date f1 <> Flight.flight_date f2.
Proof.
  intros Hsat Hasg Ha1 Ha2.
  pose proof (decode_entries v
                (OrToolsOpt._get_flights (OrToolsOpt.init db rules) period_start period_end)
                (OrToolsOpt._get_active_crew (OrToolsOpt.init db rules))) as HF.
  rewrite Hasg in HF.
  apply Forall2_app_inv_r in HF as (l1 & rest & _ & HF & Hfl).
  apply Forall2_cons_inv_r in HF as (f1 & l2 & He1 & HF & ->).
  apply Forall2_app_inv_r in HF as (m1 & rest2 & _ & HF & ->).
  apply Forall2_cons_inv_r in HF as (f2 & m2 & He2 & _ & ->).
  destruct He1 as [-> | (c1 & Hc1 & -> & Hv1)]; [discriminate |].
  destruct He2 as [-> | (c2 & Hc2 & -> & Hv2)]; [discriminate |].
  injection Ha1 as Hid1. injection Ha2 as Hid2.
  exists f1, f2. rewrite Hfl. repeat split.
  - apply elem_of_app. right. left.
  - apply elem_of_app. right. right. apply elem_of_app. right. left.
  - intros Hdate.
    apply (solution_one_flight_per_day today db period_start period_end rules v
             l1 f1 (m1 ++ f2 :: m2) c1 f2 c2 Hsat Hfl); try done.
    + apply elem_of_app. right. left.
    + congruence.
Qed.

Lemma solution_roster_one_flight_per_day_witness :
  exists f1 f2,
    f1 ∈ OrToolsOpt._get_flights (OrToolsOpt.init StreakExample.db RulesEngine.default)
           739000 739001
    /\ f2 ∈ OrToolsOpt._get_flights (OrToolsOpt.init StreakExample.db RulesEngine.default)
              739000 739001
    /\ 1 = Flight.flight_id f1 /\ 2 = Flight.flight_id f2
    /\ Flight.flight_date f1 <> Flight.flight_date f2.
Proof.
  refine (solution_roster_one_flight_per_day StreakExample.today StreakExample.db
            739000 739001 RulesEngine.default (fun _ => true)
            [] (assigned_entry StreakExample.flight1 StreakExample.crew1)
            [] (assigned_entry StreakExample.flight2 StreakExample.crew1) [] 1 _ _ _ _).
  - vm_compute. reflexivity.
  - vm_compute. reflexivity.
  - reflexivity.
  - reflexivity.
Defined.

(** *** Qualification records in a solution *)

(** Every entry of the map satisfies [P] and is filed under its own crew
    and aircraft type. *)
Definition qual_map_all (P : CrewQualification.t -> Prop)
    (m : gmap Z (gmap string CrewQualification.t)) : Prop :=
  forall cid inner code q,
    m !! cid = Some inner -> inner !! code = Some q ->
    P q /\ CrewQualification.crew_id q = cid /\ CrewQualification.aircraft_code q = code.

Lemma qual_map_all_insert P m q :
  P q -> qual_map_all P m ->
  qual_map_all P
    (<[CrewQualification.crew_id q :=
         <[CrewQualification.aircraft_code q := q]>
           (default ∅ (m !! CrewQualification.crew_id q))]> m).
Proof.
  intros Hq Hm cid inner code q' Hcid Hcode.
  destruct (decide (CrewQualification.crew_id q = cid)) as [<- | Hne].
  - rewrite lookup_insert_eq in Hcid. injection Hcid as <-.
    destruct (decide (CrewQualification.aircraft_code q = code)) as [<- | Hne].
    + rewrite lookup_insert_eq in Hcode. by injection Hcode as <-.
    + rewrite lookup_insert_ne in Hcode by done.
      destruct (m !! CrewQualification.crew_id q) as [old |] eqn:Hold; simpl in Hcode.
      * by apply (Hm _ _ _ _ Hold Hcode).
      * by rewrite lookup_empty in Hcode.
  - rewrite lookup_insert_ne in Hcid by done. by apply (Hm _ _ _ _ Hcid Hcode).
Qed.

(** A row of the table that has not expired before [today]. *)
Definition current_row (today : Z) (quals : list CrewQualification.t)
    (q : CrewQualification.t) : Prop :=
  q ∈ quals
  /\ match CrewQualification.expires_on q with
     | Some e => today <= e
     | None => True
     end.

Lemma or_tools_qualification_map_current today quals :
  qual_map_all (current_row today quals) (OrToolsOpt._build_qualification_map today quals).
Proof.
  unfold OrToolsOpt._build_qualification_map.
  apply (fold_left_elem_invariant (qual_map_all (current_row today quals))).
  - intros m q Hq Hm.
    destruct (CrewQualification.expires_on q) as [e |] eqn:He.
    + destruct (Z.leb_spec today e); [| done].
      apply qual_map_all_insert; [| done]. split; [done |]. by rewrite He.
    + apply qual_map_all_insert; [| done]. split; [done |]. by rewrite He.
  - intros cid inner code q Hcid. by rewrite lookup_empty in Hcid.
Qed.

(** Crew [cid] holds a qualification row for the aircraft type of [f] that
    has not expired before [today]. *)
Definition qualified_as_of (db : Db.t) (today : Z) (f : Flight.t) (cid : Z) : Prop :=
  exists q,
    q ∈ Db.crew_qualification db
    /\ CrewQualification.crew_id q = cid
    /\ CrewQualification.aircraft_code q = Flight.aircraft_code f
    /\ match CrewQualification.expires_on q with
       | Some e => today <= e
       | None => True
       end.

Lemma qualification_constraint_in_model today db period_start period_end rules f c :
  f ∈ OrToolsOpt._get_flights (OrToolsOpt.init db rules) period_start period_end ->
  c ∈ OrToolsOpt._get_active_crew (OrToolsOpt.init db rules) ->
  OrToolsOpt.in_qual_map
    (OrToolsOpt._build_qualification_map today (Db.crew_qualification db)) f c = false ->
  CpModel.EqZero (OrToolsOpt.key f c)
  ∈ CpModel.constraints
      (OrToolsOpt.build_model today (OrToolsOpt.init db rules) period_start period_end).
Proof.
  intros Hf Hc Hq. rewrite build_model_constraints, !elem_of_app. left.
  unfold OrToolsOpt._add_qualification_constraints.
  apply list_elem_of_In, in_flat_map. exists f. split; [by apply list_elem_of_In |].
  apply in_flat_map. exists c. split; [by apply list_elem_of_In |].
  change (OrToolsOpt._get_qualifications (OrToolsOpt.init db rules))
    with (Db.crew_qualification db).
  rewrite Hq. by left.
Qed.

(** X11. In the roster decoded from a solution of the model, every crew
    named holds a qualification row for the flight's aircraft type that has
    not expired before today (the day the optimizer runs). *)
Theorem solution_roster_qualified_today today db period_start period_end rules v :
  CpModel.satisfies v
    (OrToolsOpt.build_model today (OrToolsOpt.init db rules) period_start period_end) = true ->
  Forall2 (fun f a => forall cid, Assignment.crew_id a = Some cid ->
                                  qualified_as_of db today f cid)
    (OrToolsOpt._get_flights (OrToolsOpt.init db rules) period_start period_end)
    (fst (OrToolsOpt.decode v
            (OrToolsOpt._get_flights (OrToolsOpt.init db rules) period_start period_end)
            (OrToolsOpt._get_active_crew (OrToolsOpt.init db rules)))).
Proof.
  intros Hsat.
  pose proof (decode_entries v
                (OrToolsOpt._get_flights (OrToolsOpt.init db rules) period_start period_end)
                (OrToolsOpt._get_active_crew (OrToolsOpt.init db rules))) as HF.
  apply Forall2_same_length_lookup. split; [by eapply Forall2_length |].
  intros i f a Hf Ha. pose proof (Forall2_lookup_lr _ _ _ _ _ _ HF Hf Ha) as Hfa.
  apply list_elem_of_lookup_2 in Hf.
  destruct Hfa as [-> | (c & Hc & -> & Hval)]; intros cid; [done |].
  intros [= <-].
  destruct (OrToolsOpt.in_qual_map
              (OrToolsOpt._build_qualification_map today (Db.crew_qualification db)) f c)
    eqn:Hq.
  - unfold OrToolsOpt.in_qual_map in Hq.
    destruct (_ !! Crew.crew_id c) as [inner |] eqn:Hcid; [| done].
    apply bool_decide_eq_true in Hq as [q Hcode].
    destruct (or_tools_qualification_map_current today _ _ _ _ _ Hcid Hcode)
      as ([Hin Hexp] & Hcrew & Hac).
    by exists q.
  - pose proof (qualification_constraint_in_model today db period_start period_end rules
                  f c Hf Hc Hq) as Hin.
    pose proof (satisfies_holds _ _ _ Hsat Hin) as Hh. simpl in Hh. lia.
Qed.

Lemma solution_roster_qualified_today_witness :
  Forall2 (fun f a => forall cid, Assignment.crew_id a = Some cid ->
                                  qualified_as_of ExpiryExample.db ExpiryExample.today f cid)
    (OrToolsOpt._get_flights ExpiryExample.self 739010 739010)
    (fst (OrToolsOpt.decode (fun _ => true)
            (OrToolsOpt._get_flights ExpiryExample.self 739010 739010)
            (OrToolsOpt._get_active_crew ExpiryExample.self))).
Proof.
  refine (solution_roster_qualified_today ExpiryExample.today ExpiryExample.db 739010 739010
            RulesEngine.default (fun _ => true) _).
  vm_compute. reflexivity.
Defined.

(** *** The KPIs of a decoded roster, and the empty period *)

Lemma decode_counts_mirror v flights crew cid :
  default 0 (snd (OrToolsOpt.decode v flights crew) !! cid)
  = Z.of_nat (length (entries_of cid (fst (OrToolsOpt.decode v flights crew)))).
Proof.
  unfold OrToolsOpt.decode. revert cid.
  apply (fold_left_invariant
           (fun acc => forall cid,
                         default 0 (snd acc !! cid)
                         = Z.of_nat (length (entries_of cid (fst acc))))).
  - intros [asg counts] f Hacc cid. unfold OrToolsOpt.decode_flight.
    specialize (Hacc cid). cbn [fst snd] in Hacc.
    destruct (head _) as [c |]; cbn [fst snd]; rewrite entries_of_snoc, length_app.
    + cbn [Assignment.crew_id].
      destruct (decide (Some (Crew.crew_id c) = Some cid)) as [[= <-] | Hne].
      * rewrite lookup_insert_eq, default_Some. simpl length. lia.
      * rewrite lookup_insert_ne by congruence. simpl length. lia.
    + rewrite decide_False by done. simpl length. lia.
  - intros cid. cbn [fst snd]. by rewrite lookup_empty.
Qed.

(** X12. Whatever the solver answers, the KPI record returned by the
    constraint-solver entry point describes the roster it comes with, in
    the same sense as that of the greedy roster. *)
Theorem or_tools_kpis_describe_roster
    (Solve : CpModel.solver -> CpModel.t -> CpModel.status * CpModel.valuation)
    today db period_start period_end rules :
  exists asg kpis,
    OrToolsOpt.generate_roster_with_or_tools Solve today db period_start period_end rules
    = Ok (asg, kpis)
    /\ kpis_describe (period_flights db period_start period_end) asg kpis.
Proof.
  assert (length (SimpleOpt.query_flights db period_start period_end)
          = length (period_flights db period_start period_end)) as Hq
    by apply sort_by_length.
  unfold OrToolsOpt.generate_roster_with_or_tools, OrToolsOpt.optimize_roster.
  destruct (Solve _ _) as [status v].
  destruct (CpModel.found status).
  - destruct (process_solution_unfold v
                (OrToolsOpt._get_flights (OrToolsOpt.init db rules) period_start period_end)
                (OrToolsOpt._get_active_crew (OrToolsOpt.init db rules))
                (OrToolsOpt._build_preference_map
                   (OrToolsOpt._get_preferences today (OrToolsOpt.init db rules)))) as [z ->].
    eexists _, _. split; [reflexivity |].
    change (OrToolsOpt._get_flights (OrToolsOpt.init db rules) period_start period_end)
      with (SimpleOpt.query_flights db period_start period_end).
    rewrite Hq. apply compute_kpis_describe.
    + rewrite <- Hq. symmetry. eapply Forall2_length, decode_entries.
    + intros cid. apply decode_counts_mirror.
    + apply decode_counts.
  - destruct (generate_roster_ok today db period_start period_end rules) as [z Hz].
    eexists _, _. split; [exact Hz |].
    rewrite Hq. apply compute_kpis_describe.
    + rewrite <- Hq. symmetry. eapply Forall2_length, run_loop_entries.
    + intros cid. apply (run_loop_mirrors today db period_start period_end rules cid).
    + apply run_loop_counts.
Qed.

(** X13. For a period without flights both strategies return the empty
    roster and the same KPI record, whatever the solver answers: totals and
    rates 0, compliance and fairness 1. *)
Theorem empty_period_roster
    (Solve : CpModel.solver -> CpModel.t -> CpModel.status * CpModel.valuation)
    today db period_start period_end rules :
  period_flights db period_start period_end = [] ->
  SimpleOpt.generate_roster today db period_start period_end rules
  = Ok ([], Kpis.mk 0 0 0 0 0 0 0 1 0 1)
  /\ OrToolsOpt.generate_roster_with_or_tools Solve today db period_start period_end rules
     = Ok ([], Kpis.mk 0 0 0 0 0 0 0 1 0 1).
Proof.
  intros Hnone.
  assert (SimpleOpt.query_flights db period_start period_end = []) as Hq.
  { unfold SimpleOpt.query_flights. fold (period_flights db period_start period_end).
    by rewrite Hnone. }
  assert (SimpleOpt.generate_roster today db period_start period_end rules
          = Ok ([], Kpis.mk 0 0 0 0 0 0 0 1 0 1)) as Hgreedy.
  { unfold SimpleOpt.generate_roster, SimpleOpt.run_loop. rewrite Hq. reflexivity. }
  split; [exact Hgreedy |].
  unfold OrToolsOpt.generate_roster_with_or_tools, OrToolsOpt.optimize_roster.
  destruct (Solve _ _) as [status v]. destruct (CpModel.found status); [| exact Hgreedy].
  change (OrToolsOpt._get_flights (OrToolsOpt.init db rules) period_start period_end)
    with (SimpleOpt.query_flights db period_start period_end).
  rewrite Hq. reflexivity.
Qed.

Lemma empty_period_roster_witness :
  SimpleOpt.generate_roster StreakExample.today StreakExample.db 739500 739501
    RulesEngine.default
  = Ok ([], Kpis.mk 0 0 0 0 0 0 0 1 0 1).
Proof.
  refine (proj1 (empty_period_roster FallbackExample.Solve StreakExample.today
                   StreakExample.db 739500 739501 RulesEngine.default _)).
  vm_compute. reflexivity.
Defined.

(** ** services/orchestrator.py: the commit depends on the roster alone *)

Lemma cleared_same_reference a b :
  same_reference_data a b -> Orchestrator.cleared a = Orchestrator.cleared b.
Proof.
  intros (H1 & H2 & H3 & H4 & H5 & H6). unfold Orchestrator.cleared, Db.with_duty.
  by rewrite H1, H2, H3, H4, H5, H6.
Qed.

Lemma save_committed s assignments :
  Session.committed (Orchestrator.save_assignments_to_duty_tables s assignments)
  = fold_left Orchestrator.save_crew (Orchestrator.group_by_crew assignments)
      (Orchestrator.cleared (Session.pending s)).
Proof. reflexivity. Qed.

(** X14. What a commit publishes is determined by the roster and the
    reference tables: two sessions that agree on every table other than the
    duty tables end with the same committed database, so committing the same
    roster a second time changes nothing. *)
Theorem commit_depends_on_roster_only s s' assignments :
  same_reference_data (Session.pending s) (Session.pending s') ->
  Session.committed (Orchestrator.save_assignments_to_duty_tables s assignments)
  = Session.committed (Orchestrator.save_assignments_to_duty_tables s' assignments)
  /\ Session.committed
       (Orchestrator.save_assignments_to_duty_tables
          (Orchestrator.save_assignments_to_duty_tables s assignments) assignments)
     = Session.committed (Orchestrator.save_assignments_to_duty_tables s assignments).
Proof.
  intros Href. split.
  - rewrite !save_committed. by rewrite (cleared_same_reference _ _ Href).
  - rewrite (save_committed (Orchestrator.save_assignments_to_duty_tables s assignments)).
    rewrite (save_committed s). f_equal. apply cleared_same_reference.
    change (Session.pending (Orchestrator.save_assignments_to_duty_tables s assignments))
      with (Session.committed (Orchestrator.save_assignments_to_duty_tables s assignments)).
    rewrite save_committed.
    assert (rewrite_state (Session.pending s) (Orchestrator.cleared (Session.pending s)) [])
      as Hst by (by repeat split).
    apply (save_all_state _ (Orchestrator.group_by_crew assignments)) in Hst.
    apply Hst.
Qed.

Lemma commit_depends_on_roster_only_witness :
  Session.committed
    (Orchestrator.save_assignments_to_duty_tables (Session.of_db CommitExample.db)
       CommitExample.roster)
  = Session.committed
      (Orchestrator.save_assignments_to_duty_tables
         (Session.of_db (Orchestrator.cleared CommitExample.db)) CommitExample.roster).
Proof.
  refine (proj1 (commit_depends_on_roster_only (Session.of_db CommitExample.db)
                   (Session.of_db (Orchestrator.cleared CommitExample.db))
                   CommitExample.roster _)).
  by repeat split.
Defined.

(** ** rules/hard_soft_engine.py: penalties *)

Module Penalty.

(** [sum(soft_penalties.values())] *)
Definition sum_penalties (soft_penalties : list (string * Q)) : Q :=
  fold_left Qplus (map snd soft_penalties) 0%Q.

Definition calculate_total_penalty (hard_violations : list (string * bool))
    (soft_penalties : list (string * Q)) : Q * bool :=
  let is_valid := (length hard_violations =? 0)%nat in
  let total_soft_penalty := sum_penalties soft_penalties in
  let hard_penalty := (inject_Z (Z.of_nat (length hard_violations)) * 1000)%Q in
  ((hard_penalty + total_soft_penalty)%Q, is_valid).

End Penalty.

Lemma od_set_Forall {K V : Type} `{EqDecision K} (P : K * V -> Prop) k v d :
  P (k, v) -> Forall P d -> Forall P (od_set k v d).
Proof.
  intros Hkv. induction 1 as [| [k0 v0] rest H0 Hrest IH]; simpl.
  - by constructor.
  - destruct (decide (k = k0)); constructor; done.
Qed.

Lemma check_soft_nonneg self duty_start duty_end crew_rank consecutive_days
    weekly_night_duties crew_duty_count avg_duty_count :
  (0 <= HardSoftRulesEngine.fairness_weight self)%Q ->
  Forall (fun p => (0 <= snd p)%Q)
    (HardSoftRulesEngine.check_soft_rule_violations self duty_start duty_end crew_rank
       consecutive_days weekly_night_duties crew_duty_count avg_duty_count).
Proof.
  intros Hw. unfold HardSoftRulesEngine.check_soft_rule_violations.
  repeat match goal with
         | |- Forall _ (if ?b then _ else _) => destruct b eqn:?
         | |- Forall _ (od_set _ _ _) => apply od_set_Forall
         | |- Forall _ [] => constructor
         end; cbn [snd].
  all: try done.
  all: try (apply Qmult_le_0_compat; [apply Qabs_nonneg | done]).
  all: try match goal with
           | H : (_ <? _) = true |- _ => apply Z.ltb_lt in H
           end.
  all: try (apply andb_prop in Heqb0 as [_ Hlt]; apply Z.ltb_lt in Hlt).
  all: try (apply Qmult_le_0_compat; [| done]).
  all: try (unfold Qdiv; repeat (apply Qmult_le_0_compat; [| done])).
  all: try (change 0%Q with (inject_Z 0); rewrite <- Zle_Qle; lia).
Qed.

Lemma sum_penalties_nonneg l :
  Forall (fun p : string * Q => (0 <= snd p)%Q) l -> (0 <= Penalty.sum_penalties l)%Q.
Proof.
  unfold Penalty.sum_penalties.
  assert (forall acc, (0 <= acc)%Q -> Forall (fun p : string * Q => (0 <= snd p)%Q) l ->
                      (0 <= fold_left Qplus (map snd l) acc)%Q) as H.
  { induction l as [| [k v] l IH]; intros acc Hacc Hl; simpl; [done |].
    apply Forall_cons in Hl as [Hv Hl]. apply IH; [| done]. simpl in Hv.
    replace 0%Q with (0 + 0)%Q by done. by apply Qplus_le_compat. }
  by apply H.
Qed.

(** X15. With a non-negative fairness weight, every soft penalty the engine
    reports is non-negative, so the total penalty of a duty is at least 1000
    for each hard violation, and the duty counts as valid exactly when it
    has no hard violation. *)
Theorem soft_penalties_nonneg self duty_start duty_end crew_rank consecutive_days
    weekly_duties monthly_duties weekly_night_duties weekly_flight_time monthly_flight_time
    crew_duty_count avg_duty_count :
  (0 <= HardSoftRulesEngine.fairness_weight self)%Q ->
  let hard :=
    HardSoftRulesEngine.check_hard_rule_violations self duty_start duty_end crew_rank
      consecutive_days weekly_duties monthly_duties weekly_night_duties weekly_flight_time
      monthly_flight_time in
  let soft :=
    HardSoftRulesEngine.check_soft_rule_violations self duty_start duty_end crew_rank
      consecutive_days weekly_night_duties crew_duty_count avg_duty_count in
  Forall (fun p => (0 <= snd p)%Q) soft
  /\ (inject_Z (Z.of_nat (length hard)) * 1000 <= fst (Penalty.calculate_total_penalty hard soft))%Q
  /\ (snd (Penalty.calculate_total_penalty hard soft) = true <-> hard = []).
Proof.
  intros Hw hard soft.
  pose proof (check_soft_nonneg self duty_start duty_end crew_rank consecutive_days
                weekly_night_duties crew_duty_count avg_duty_count Hw) as Hsoft.
  fold soft in Hsoft. split; [exact Hsoft |]. split.
  - unfold Penalty.calculate_total_penalty. cbn [fst].
    pose proof (sum_penalties_nonneg soft Hsoft). lra.
  - unfold Penalty.calculate_total_penalty. cbn [snd].
    rewrite Nat.eqb_eq. apply length_zero_iff_nil.
Qed.

Lemma soft_penalties_nonneg_witness :
  Forall (fun p => (0 <= snd p)%Q)
    (HardSoftRulesEngine.check_soft_rule_violations HardSoftRulesEngine.default
       (Time.at_time 739000 8 0) (Time.at_time 739000 17 30) "Captain" 5 2 3 (3 # 2)).
Proof.
  refine (proj1 (soft_penalties_nonneg HardSoftRulesEngine.default
                   (Time.at_time 739000 8 0) (Time.at_time 739000 17 30) "Captain" 5
                   [] [] 2 0 0 3 (3 # 2) _)).
  vm_compute. congruence.
Defined.

(** *** Which hard violations are flagged *)

Lemma flag_keys name limit exceeded d k :
  k ∈ map fst (HardSoftRulesEngine.flag name limit exceeded d)
  <-> k ∈ map fst d
      \/ (k = name /\ exists m, limit = Some m /\ m <> 0 /\ exceeded m = true).
Proof.
  unfold HardSoftRulesEngine.flag. destruct limit as [m |].
  - destruct (Z.eqb_spec m 0) as [Hz | Hnz]; simpl.
    + split; [by left | intros [? | (_ & m' & [= <-] & ? & _)]; done].
    + destruct (exceeded m) eqn:He.
      * rewrite od_set_key_elem_of. split.
        -- intros [-> | ?]; [right; split; [done |]; by exists m | by left].
        -- intros [? | [-> _]]; [by right | by left].
      * split; [by left | intros [? | (_ & m' & [= <-] & _ & ?)]; [done | congruence]].
  - split; [by left | intros [? | (_ & m' & ? & _)]; done].
Qed.

Lemma fold_od_set_keys (l d : list (string * bool)) k :
  k ∈ map fst (fold_left (fun d '(k, v) => od_set k v d) l d)
  <-> k ∈ map fst d \/ k ∈ map fst l.
Proof.
  revert d. induction l as [| [k0 v0] l IH]; intros d; simpl.
  - split; [by left | intros [? | H]; [done | by apply elem_of_nil in H]].
  - rewrite IH, od_set_key_elem_of, elem_of_cons. tauto.
Qed.

Lemma flag_keys_other name limit exceeded d k :
  k <> name ->
  k ∈ map fst (HardSoftRulesEngine.flag name limit exceeded d) <-> k ∈ map fst d.
Proof. intros Hne. rewrite flag_keys. split; [intros [? | [? _]]; done | by left]. Qed.

Lemma od_set_if_keys_other (b : bool) name (v : bool) (d : list (string * bool)) k :
  k <> name ->
  k ∈ map fst (if b then od_set name v d else d) <-> k ∈ map fst d.
Proof.
  intros Hne. destruct b; [| done]. rewrite od_set_key_elem_of.
  split; [intros [? | ?]; done | by right].
Qed.

Lemma flag_if_keys_other (b : bool) name limit exceeded d k :
  k <> name ->
  k ∈ map fst (if b then HardSoftRulesEngine.flag name limit exceeded d else d)
  <-> k ∈ map fst d.
Proof. intros Hne. destruct b; [by apply flag_keys_other | done]. Qed.

(** X16. The hard-rule check flags the consecutive-day rule exactly when a
    (non-zero) ceiling is configured and the streak exceeds it, where for a
    Captain the ceiling counts one day less: a Captain is flagged from
    [ceiling] days on, every other rank from [ceiling + 1] days on. *)
Theorem captain_consecutive_ceiling_one_stricter self duty_start duty_end crew_rank
    consecutive_days weekly_duties monthly_duties weekly_night_duties weekly_flight_time
    monthly_flight_time :
  "consecutive_duty_days_exceeded"
  ∈ map fst
      (HardSoftRulesEngine.check_hard_rule_violations self duty_start duty_end crew_rank
         consecutive_days weekly_duties monthly_duties weekly_night_duties weekly_flight_time
         monthly_flight_time)
  <-> exists m,
        HardSoftRulesEngine.max_consecutive_duty_days self = Some m /\ m <> 0
        /\ (if (crew_rank =? "Captain")%string then m <= consecutive_days
            else m < consecutive_days).
Proof.
  unfold HardSoftRulesEngine.check_hard_rule_violations,
    HardSoftRulesEngine.check_rank_specific_hard_rules.
  rewrite fold_od_set_keys.
  rewrite flag_if_keys_other by done.
  rewrite !(flag_keys_other "monthly_flight_time_exceeded") by done.
  rewrite !(flag_keys_other "weekly_flight_time_exceeded") by done.
  rewrite (flag_keys "consecutive_duty_days_exceeded").
  rewrite !(flag_keys_other "monthly_duty_exceeded") by done.
  rewrite !(flag_keys_other "weekly_duty_exceeded") by done.
  rewrite !od_set_if_keys_other by done.
  rewrite !(flag_keys_other "night_duty_limit_exceeded") by done.
  destruct (String.eqb_spec crew_rank "Captain") as [Hc | Hc].
  - rewrite flag_keys. split.
    + intros [[H | [_ (m & Hm & Hz & He)]] | [H | [_ (m & Hm & Hz & He)]]];
        try (by apply elem_of_nil in H); exists m; repeat split; try done; lia.
    + intros (m & Hm & Hz & He). right. right. split; [done |]. exists m.
      repeat split; try done. lia.
  - destruct (String.eqb_spec crew_rank "FirstOfficer") as [Hf | Hf].
    + rewrite flag_keys. split.
      * intros [[H | [_ (m & Hm & Hz & He)]] | [H | [_ (m & Hm & Hz & He)]]];
          try (by apply elem_of_nil in H); exists m; repeat split; try done; lia.
      * intros (m & Hm & Hz & He). left. right. split; [done |]. exists m.
        repeat split; try done. lia.
    + split.
      * intros [[H | [_ (m & Hm & Hz & He)]] | H];
          try (by apply elem_of_nil in H); exists m; repeat split; try done; lia.
      * intros (m & Hm & Hz & He). left. right. split; [done |]. exists m.
        repeat split; try done. lia.
Qed.

(** ** optimizer/conflict_detector.py: filtering and summarising *)

Module ConflictReport.

(** [if s:] for an optional string argument: [None] and the empty string
    are falsy. *)
Definition given (s : option string) : option string :=
  match s with
  | Some "" => None
  | other => other
  end.

Definition filter_conflicts (conflicts : list ConflictDetector.Conflict)
    (severity conflict_type : option string) : list ConflictDetector.Conflict :=
  let filtered := conflicts in
  let filtered :=
    match given severity with
    | Some s => filter (fun c => ConflictDetector.severity c = s) filtered
    | None => filtered
    end in
  match given conflict_type with
  | Some t => filter (fun c => ConflictDetector.type c = t) filtered
  | None => filtered
  end.

(** The summary dict; [crew_affected] is the size of the set of crew ids. *)
Record Summary := mkSummary {
  total_conflicts : Z;
  by_severity : list (string * Z);
  by_type : list (string * Z);
  crew_affected : Z
}.

(** What [get_conflict_summary] does: return a summary, or raise
    [KeyError] on a severity that is no key of [by_severity]. *)
Inductive Outcome :=
| Returned (s : Summary)
| KeyError (key : string).

(** The loop state: the two count dicts and the set of crew ids. *)
Definition counts : Type := list (string * Z) * list (string * Z) * gset Z.

(** One iteration of [for conflict in conflicts]. *)
Definition count_conflict (acc : counts) (conflict : ConflictDetector.Conflict)
    : string + counts :=
  let '(by_severity, by_type, crew) := acc in
  let severity := ConflictDetector.severity conflict in
  match od_get severity by_severity with
  | None => inl severity
  | Some n =>
      let by_severity := od_set severity (n + 1) by_severity in
      let conflict_type := ConflictDetector.type conflict in
      let by_type :=
        match od_get conflict_type by_type with
        | None => od_set conflict_type 0 by_type
        | Some _ => by_type
        end in
      let by_type :=
        od_set conflict_type (default 0 (od_get conflict_type by_type) + 1) by_type in
      inr (by_severity, by_type, {[ConflictDetector.crew_id conflict]} ∪ crew)
  end.

Fixpoint count_all (acc : counts) (conflicts : list ConflictDetector.Conflict)
    : string + counts :=
  match conflicts with
  | [] => inr acc
  | conflict :: rest =>
      match count_conflict acc conflict with
      | inl key => inl key
      | inr acc' => count_all acc' rest
      end
  end.

Definition get_conflict_summary (conflicts : list ConflictDetector.Conflict) : Outcome :=
  match count_all ([("high", 0); ("medium", 0); ("low", 0)], [], ∅) conflicts with
  | inl key => KeyError key
  | inr (by_severity, by_type, crew) =>
      Returned (mkSummary (Z.of_nat (length conflicts)) by_severity by_type
                  (Z.of_nat (size crew)))
  end.

End ConflictReport.

(** What every conflict the detector emits looks like. *)
Definition conflict_shape (c : ConflictDetector.Conflict) : Prop :=
  (ConflictDetector.type c = "overlapping_duties" /\ ConflictDetector.severity c = "high"
   /\ length (ConflictDetector.flight_ids c) = 2%nat)
  \/ (ConflictDetector.type c = "hard_rule_violation" /\ ConflictDetector.severity c = "high"
      /\ is_Some (ConflictDetector.violation_type c))
  \/ (ConflictDetector.type c = "soft_rule_violation" /\ ConflictDetector.severity c = "medium"
      /\ exists p, ConflictDetector.penalty_value c = Some p /\ (0 < p)%Q)
  \/ (ConflictDetector.type c = "qualification_mismatch"
      /\ ConflictDetector.severity c = "high").

Section DetectShape.
Variable isocalendar_year_week : Z -> Z * Z.
Variable year_month : Z -> Z * Z.
Variable title : string -> string.
Variable format_1f : Q -> string.
Variable rules_engine : HardSoftRulesEngine.t.

Lemma overlapping_duties_conflict_shape k c duties x :
  x ∈ ConflictDetector.overlapping_duties k c duties -> conflict_shape x.
Proof.
  induction duties as [| [d f] rest IH]; simpl; [intros Hx; by apply elem_of_nil in Hx |].
  destruct rest as [| [d' f'] rest']; [intros Hx; by apply elem_of_nil in Hx |].
  rewrite elem_of_app. intros [Hx | Hx]; [| by apply IH].
  destruct (_ <? _); [| by apply elem_of_nil in Hx].
  apply list_elem_of_singleton in Hx as ->. by left.
Qed.

Lemma duty_compliance_conflict_shape k data n sorted entry x :
  x ∈ ConflictDetector.duty_compliance isocalendar_year_week year_month title format_1f
        rules_engine k data n sorted entry ->
  conflict_shape x.
Proof.
  destruct entry as [duty flight]. unfold ConflictDetector.duty_compliance.
  rewrite elem_of_app. intros [Hx | Hx].
  - apply list_elem_of_In, in_map_iff in Hx as ([vt b] & <- & _).
    right. left. by repeat split.
  - apply list_elem_of_In, in_flat_map in Hx as ([pt pv] & _ & Hx).
    destruct (Qle_bool pv 0) eqn:Hp; [done |]. destruct Hx as [<- | []].
    right. right. left. repeat split. exists pv. split; [done |].
    apply Qnot_le_lt. intros Hle. apply Qle_bool_iff in Hle. congruence.
Qed.

Lemma qualification_mismatch_conflict_shape qual_map row x :
  x ∈ ConflictDetector.qualification_mismatch qual_map row -> conflict_shape x.
Proof.
  destruct row as [[duty flight] c]. unfold ConflictDetector.qualification_mismatch.
  destruct (_ !! Flight.aircraft_code flight) as [qual |].
  - destruct (CrewQualification.expires_on qual) as [e |];
      [| intros Hx; by apply elem_of_nil in Hx].
    destruct (e <? _); [| intros Hx; by apply elem_of_nil in Hx].
    intros Hx. apply list_elem_of_singleton in Hx as ->. by repeat right.
  - intros Hx. apply list_elem_of_singleton in Hx as ->. by repeat right.
Qed.

Lemma detect_conflicts_shape db period_start period_end :
  Forall conflict_shape
    (ConflictDetector.detect_conflicts isocalendar_year_week year_month title format_1f
       rules_engine db period_start period_end).
Proof.
  apply Forall_forall. intros x Hx. unfold ConflictDetector.detect_conflicts in Hx.
  apply elem_of_app in Hx as [Hx | Hx].
  - apply list_elem_of_In, in_flat_map in Hx as ([k data] & _ & Hx).
    unfold ConflictDetector.crew_conflicts in Hx.
    apply list_elem_of_In, elem_of_app in Hx as [Hx | Hx].
    + by apply overlapping_duties_conflict_shape in Hx.
    + apply list_elem_of_In, in_flat_map in Hx as (entry & _ & Hx).
      apply list_elem_of_In in Hx. by apply duty_compliance_conflict_shape in Hx.
  - apply list_elem_of_In, in_flat_map in Hx as (row & _ & Hx).
    apply list_elem_of_In in Hx. by apply qualification_mismatch_conflict_shape in Hx.
Qed.

End DetectShape.

Lemma sum_od_set (k : string) (v : Z) (d : list (string * Z)) :
  py_sum (map snd (od_set k v d)) = py_sum (map snd d) - default 0 (od_get k d) + v.
Proof.
  induction d as [| [k0 v0] rest IH]; simpl.
  - rewrite py_sum_cons. unfold py_sum. simpl. lia.
  - destruct (decide (k = k0)) as [-> | Hne]; simpl; rewrite !py_sum_cons; [lia |].
    rewrite IH. lia.
Qed.

Lemma union_swap (a : Z) (X Y : gset Z) : ({[a]} ∪ X) ∪ Y = X ∪ ({[a]} ∪ Y).
Proof. by rewrite (comm_L (∪) {[a]} X), <- (assoc_L (∪)). Qed.

(** The conflicts of severity [s] in a list. *)
Definition n_severity (s : string) (l : list ConflictDetector.Conflict) : Z :=
  Z.of_nat (length (filter (fun c => ConflictDetector.severity c = s) l)).

Definition known_severity (c : ConflictDetector.Conflict) : Prop :=
  ConflictDetector.severity c = "high" \/ ConflictDetector.severity c = "medium"
  \/ ConflictDetector.severity c = "low".

Lemma n_severity_cons s c l :
  n_severity s (c :: l)
  = (if decide (ConflictDetector.severity c = s) then 1 else 0) + n_severity s l.
Proof.
  unfold n_severity. rewrite filter_cons. destruct (decide _); simpl length; lia.
Qed.

Lemma count_all_known l : forall h m lo by_type crew,
  Forall known_severity l ->
  exists by_type',
    ConflictReport.count_all ([("high", h); ("medium", m); ("low", lo)], by_type, crew) l
    = inr ([("high", h + n_severity "high" l); ("medium", m + n_severity "medium" l);
            ("low", lo + n_severity "low" l)],
           by_type',
           list_to_set (map ConflictDetector.crew_id l) ∪ crew)
    /\ py_sum (map snd by_type') = py_sum (map snd by_type) + Z.of_nat (length l).
Proof.
  induction l as [| c l IH]; intros h m lo by_type crew Hl.
  - exists by_type. split; [| simpl; lia]. simpl. unfold n_severity. simpl.
    rewrite !Z.add_0_r. f_equal. f_equal. by rewrite union_empty_l_L.
  - apply Forall_cons in Hl as [Hc Hl].
    set (by_type1 := match od_get (ConflictDetector.type c) by_type with
                     | None => od_set (ConflictDetector.type c) 0 by_type
                     | Some _ => by_type
                     end).
    set (by_type2 := od_set (ConflictDetector.type c)
                       (default 0 (od_get (ConflictDetector.type c) by_type1) + 1) by_type1).
    assert (py_sum (map snd by_type2) = py_sum (map snd by_type) + 1) as Hsum.
    { subst by_type2 by_type1. rewrite sum_od_set.
      destruct (od_get (ConflictDetector.type c) by_type) as [n |] eqn:Hget.
      - rewrite Hget. simpl. lia.
      - rewrite od_get_set_eq, sum_od_set, Hget. simpl. lia. }
    rewrite !n_severity_cons. cbn [ConflictReport.count_all ConflictReport.count_conflict].
    destruct Hc as [Hs | [Hs | Hs]]; rewrite Hs; simpl od_get; simpl od_set;
      fold by_type1; fold by_type2; cbv iota beta;
      match goal with
      | |- context [ConflictReport.count_all (?sev, _, ?cr) l] =>
          match sev with
          | [(_, ?h'); (_, ?m'); (_, ?lo')] =>
              destruct (IH h' m' lo' by_type2 cr Hl) as (bt & -> & Hbt)
          end
      end;
      exists bt; (split; [| rewrite Hbt, Hsum; simpl length; lia]);
      repeat (match goal with |- context [decide (?a = ?b)] => destruct (decide (a = b)) end);
      try congruence;
      cbn [map list_to_set]; rewrite union_swap;
      rewrite !Z.add_assoc, ?Z.add_0_r; reflexivity.
Qed.

(** X17. Summarising the detector's output never raises: the severities it
    emits are all keys of [by_severity].  The high and medium counts are the
    sizes of what [filter_conflicts] selects for these severities and make
    up the total, the low count is 0, the counts by type add up to the
    total, and [crew_affected] is the number of distinct crew ids. *)
Theorem detector_summary_counts
    (isocalendar_year_week year_month : Z -> Z * Z) (title : string -> string)
    (format_1f : Q -> string) (rules_engine : HardSoftRulesEngine.t)
    db period_start period_end :
  let conflicts :=
    ConflictDetector.detect_conflicts isocalendar_year_week year_month title format_1f
      rules_engine db period_start period_end in
  let selected severity :=
    Z.of_nat (length (ConflictReport.filter_conflicts conflicts (Some severity) None)) in
  exists by_type,
    ConflictReport.get_conflict_summary conflicts
    = ConflictReport.Returned
        (ConflictReport.mkSummary (Z.of_nat (length conflicts))
           [("high", selected "high"); ("medium", selected "medium"); ("low", 0)]
           by_type
           (Z.of_nat (size (list_to_set (map ConflictDetector.crew_id conflicts) : gset Z))))
    /\ selected "high" + selected "medium" = Z.of_nat (length conflicts)
    /\ py_sum (map snd by_type) = Z.of_nat (length conflicts).
Proof.
  intros conflicts selected.
  change (selected "high") with (n_severity "high" conflicts).
  change (selected "medium") with (n_severity "medium" conflicts).
  clear selected.
  pose proof (detect_conflicts_shape isocalendar_year_week year_month title format_1f
                rules_engine db period_start period_end) as Hshape.
  fold conflicts in Hshape. clearbody conflicts.
  assert (Forall (fun c => ConflictDetector.severity c = "high"
                           \/ ConflictDetector.severity c = "medium") conflicts) as Hsev.
  { eapply Forall_impl; [exact Hshape |].
    intros c [(_ & ? & _) | [(_ & ? & _) | [(_ & ? & _) | (_ & ?)]]]; tauto. }
  assert (n_severity "low" conflicts = 0
          /\ n_severity "high" conflicts + n_severity "medium" conflicts
             = Z.of_nat (length conflicts)) as [Hlow Htotal].
  { clear Hshape. induction Hsev as [| c l Hc _ [IH1 IH2]]; [done |].
    rewrite !n_severity_cons. simpl length.
    destruct Hc as [Hc | Hc]; rewrite Hc; simpl; lia. }
  destruct (count_all_known conflicts 0 0 0 [] ∅) as (by_type & Hcount & Hsum).
  { eapply Forall_impl; [exact Hsev |]. intros c [? | ?]; [by left | by right; left]. }
  exists by_type. split; [| split; [done | by rewrite Hsum]].
  unfold ConflictReport.get_conflict_summary. rewrite Hcount, Hlow.
  simpl. by rewrite union_empty_r_L.
Qed.

Lemma count_all_app l1 l2 acc :
  ConflictReport.count_all acc (l1 ++ l2)
  = match ConflictReport.count_all acc l1 with
    | inl key => inl key
    | inr acc' => ConflictReport.count_all acc' l2
    end.
Proof.
  revert acc. induction l1 as [| c l1 IH]; intros acc; [done |].
  cbn [app ConflictReport.count_all].
  destruct (ConflictReport.count_conflict acc c); [done | apply IH].
Qed.

(** X18. A conflict whose severity is none of high, medium and low makes
    the summary raise [KeyError] with that severity: the first such
    conflict of the list stops the count, whatever follows it. *)
Theorem summary_raises_on_unknown_severity l1 c l2 :
  Forall known_severity l1 -> ~ known_severity c ->
  ConflictReport.get_conflict_summary (l1 ++ c :: l2)
  = ConflictReport.KeyError (ConflictDetector.severity c).
Proof.
  intros Hl1 Hc. unfold ConflictReport.get_conflict_summary.
  rewrite count_all_app.
  destruct (count_all_known l1 0 0 0 [] ∅ Hl1) as (by_type & -> & _).
  cbn [ConflictReport.count_all ConflictReport.count_conflict od_get].
  unfold known_severity in Hc.
  repeat (destruct (decide _); [tauto |]). done.
Qed.

Lemma summary_raises_on_unknown_severity_witness :
  ConflictReport.get_conflict_summary
    [ConflictDetector.mkConflict "overlapping_duties" 1 "Asha" "" "high" [1; 2] 0 None None None;
     ConflictDetector.mkConflict "manual" 2 "Ravi" "" "critical" [] 0 None None None;
     ConflictDetector.mkConflict "manual" 3 "Mira" "" "low" [] 0 None None None]
  = ConflictReport.KeyError "critical".
Proof.
  refine (summary_raises_on_unknown_severity
            [ConflictDetector.mkConflict "overlapping_duties" 1 "Asha" "" "high" [1; 2] 0
               None None None]
            (ConflictDetector.mkConflict "manual" 2 "Ravi" "" "critical" [] 0 None None None)
            [ConflictDetector.mkConflict "manual" 3 "Mira" "" "low" [] 0 None None None]
            _ _).
  - repeat constructor.
  - intros [H | [H | H]]; discriminate H.
Defined.

(** ** optimizer/conflict_detector.py: the qualification audit *)

Lemma conflict_qual_map_rows quals :
  qual_map_all (fun q => q ∈ quals) (ConflictDetector.build_qual_map quals).
Proof.
  unfold ConflictDetector.build_qual_map.
  apply (fold_left_elem_invariant (qual_map_all (fun q => q ∈ quals))).
  - intros m q Hq Hm. by apply qual_map_all_insert.
  - intros cid inner code q Hcid. by rewrite lookup_empty in Hcid.
Qed.

(** The map has an entry for [(cid, code)]. *)
Definition qual_known (m : gmap Z (gmap string CrewQualification.t))
    (cid : Z) (code : string) : Prop :=
  is_Some (default ∅ (m !! cid) !! code).

Lemma qual_known_insert m q cid code :
  qual_known m cid code
  \/ (CrewQualification.crew_id q = cid /\ CrewQualification.aircraft_code q = code) ->
  qual_known
    (<[CrewQualification.crew_id q :=
         <[CrewQualification.aircraft_code q := q]>
           (default ∅ (m !! CrewQualification.crew_id q))]> m) cid code.
Proof.
  unfold qual_known. intros H.
  destruct (decide (CrewQualification.crew_id q = cid)) as [Hc | Hc].
  - rewrite Hc, lookup_insert_eq. simpl.
    destruct (decide (CrewQualification.aircraft_code q = code)) as [Ha | Ha].
    + rewrite Ha, lookup_insert_eq. by eexists.
    + rewrite lookup_insert_ne by done. destruct H as [H | [_ H]]; done.
  - rewrite lookup_insert_ne by done. destruct H as [H | [H _]]; done.
Qed.

Lemma conflict_qual_map_complete quals : forall m cid code,
  qual_known m cid code
  \/ (exists q, q ∈ quals /\ CrewQualification.crew_id q = cid
                /\ CrewQualification.aircraft_code q = code) ->
  qual_known
    (fold_left (fun m q =>
                  <[CrewQualification.crew_id q :=
                      <[CrewQualification.aircraft_code q := q]>
                        (default ∅ (m !! CrewQualification.crew_id q))]> m)
               quals m) cid code.
Proof.
  induction quals as [| q quals IH]; intros m cid code H; simpl.
  - destruct H as [H | (q & Hq & _)]; [done |]. by apply elem_of_nil in Hq.
  - apply IH. destruct H as [H | (q' & Hq' & Hc & Ha)].
    + left. apply qual_known_insert. by left.
    + apply elem_of_cons in Hq' as [-> | Hq'].
      * left. apply qual_known_insert. by right.
      * right. by exists q'.
Qed.

(** The conflict the audit raises for a duty row. *)
Definition mismatch_for (row : DutyPeriod.t * Flight.t * Crew.t)
    (c : ConflictDetector.Conflict) : Prop :=
  let '(duty, flight, cr) := row in
  ConflictDetector.type c = "qualification_mismatch"
  /\ ConflictDetector.severity c = "high"
  /\ ConflictDetector.crew_id c = Crew.crew_id cr
  /\ ConflictDetector.flight_ids c = [Flight.flight_id flight]
  /\ ConflictDetector.timestamp c = DutyPeriod.duty_start_utc duty.






Module AuditExample.
(** The A320 qualification of crew 1 expired the day before the flight. *)
Definition expired : CrewQualification.t := CrewQualification.mk 1 "A320" 738000 (Some 738999).
Definition db : Db.t :=
  Db.mk [ConflictExample.crew1] [expired] [] [] [] [ConflictExample.flight1]
    [ConflictExample.duty1] [DutyFlight.mk 1 1 1].
Definition row : DutyPeriod.t * Flight.t * Crew.t :=
  (ConflictExample.duty1, ConflictExample.flight1, ConflictExample.crew1).
End AuditExample.


Lemma crew_conflicts_not_mismatch
    (isocalendar_year_week year_month : Z -> Z * Z) (title : string -> string)
    (format_1f : Q -> string) (rules_engine : HardSoftRulesEngine.t) n entry x :
  x ∈ ConflictDetector.crew_conflicts isocalendar_year_week year_month title format_1f
        rules_engine n entry ->
  ConflictDetector.type x <> "qualification_mismatch".
Proof.
  destruct entry as [k data]. unfold ConflictDetector.crew_conflicts.
  rewrite elem_of_app. intros [Hx | Hx].
  - revert Hx. generalize (ConflictDetector.crew data).
    induction (sort_by Z.leb (fun x => DutyPeriod.duty_start_utc (fst x))
                 (ConflictDetector.duties data)) as [| [d f] rest IH]; intros c; simpl;
      [intros Hx; by apply elem_of_nil in Hx |].
    destruct rest as [| [d' f'] rest']; [intros Hx; by apply elem_of_nil in Hx |].
    rewrite elem_of_app. intros [Hx | Hx]; [| by apply (IH c)].
    destruct (_ <? _); [| by apply elem_of_nil in Hx].
    by apply list_elem_of_singleton in Hx as ->.
  - apply list_elem_of_In, in_flat_map in Hx as ([duty flight] & _ & Hx).
    apply list_elem_of_In in Hx. unfold ConflictDetector.duty_compliance in Hx.
    apply elem_of_app in Hx as [Hx | Hx].
    + by apply list_elem_of_In, in_map_iff in Hx as ([vt b] & <- & _).
    + apply list_elem_of_In, in_flat_map in Hx as ([pt pv] & _ & Hx).
      destruct (Qle_bool pv 0); [done |]. by destruct Hx as [<- | []].
Qed.

(** Where a reported qualification mismatch comes from. *)
Lemma mismatch_cause
    (isocalendar_year_week year_month : Z -> Z * Z) (title : string -> string)
    (format_1f : Q -> string) (rules_engine : HardSoftRulesEngine.t)
    db period_start period_end c :
  c ∈ ConflictDetector.detect_conflicts isocalendar_year_week year_month title format_1f
        rules_engine db period_start period_end ->
  ConflictDetector.type c = "qualification_mismatch" ->
  exists duty flight crew,
    (duty, flight, crew) ∈ ConflictDetector.query_duty_periods db period_start period_end
    /\ mismatch_for (duty, flight, crew) c
    /\ ((forall q, q ∈ Db.crew_qualification db ->
                   CrewQualification.crew_id q = Crew.crew_id crew ->
                   CrewQualification.aircraft_code q <> Flight.aircraft_code flight)
        \/ (exists q e, q ∈ Db.crew_qualification db
                        /\ CrewQualification.crew_id q = Crew.crew_id crew
                        /\ CrewQualification.aircraft_code q = Flight.aircraft_code flight
                        /\ CrewQualification.expires_on q = Some e
                        /\ e < Flight.flight_date flight)).
Proof.
  intros Hc Hty. unfold ConflictDetector.detect_conflicts in Hc.
  apply elem_of_app in Hc as [Hc | Hc].
  { apply list_elem_of_In, in_flat_map in Hc as (entry & _ & Hc).
    apply list_elem_of_In, crew_conflicts_not_mismatch in Hc. done. }
  apply list_elem_of_In, in_flat_map in Hc as ([[duty flight] crew] & Hrow & Hc).
  apply list_elem_of_In in Hrow, Hc.
  exists duty, flight, crew. split; [done |].
  pose proof (conflict_qual_map_rows (Db.crew_qualification db)) as Hmap.
  pose proof (conflict_qual_map_complete (Db.crew_qualification db) ∅
                (Crew.crew_id crew) (Flight.aircraft_code flight)) as Hcomplete.
  fold (ConflictDetector.build_qual_map (Db.crew_qualification db)) in Hcomplete.
  unfold qual_known in Hcomplete.
  set (qual_map := ConflictDetector.build_qual_map (Db.crew_qualification db)) in *.
  assert (default ∅ (qual_map !! Crew.crew_id crew) !! Flight.aircraft_code flight = None ->
          forall q, q ∈ Db.crew_qualification db ->
                    CrewQualification.crew_id q = Crew.crew_id crew ->
                    CrewQualification.aircraft_code q <> Flight.aircraft_code flight)
    as Hnone.
  { intros Hnone q Hq Hcid Hcode.
    destruct Hcomplete as [x Hx]; [right; by exists q | congruence]. }
  unfold ConflictDetector.qualification_mismatch in Hc.
  destruct (default ∅ (qual_map !! Crew.crew_id crew) !! Flight.aircraft_code flight)
    as [q |] eqn:Hq.
  - assert (q ∈ Db.crew_qualification db
            /\ CrewQualification.crew_id q = Crew.crew_id crew
            /\ CrewQualification.aircraft_code q = Flight.aircraft_code flight)
      as (Hin & Hcid & Hcode).
    { destruct (qual_map !! Crew.crew_id crew) as [inner |] eqn:Hinner; simpl in Hq.
      - exact (Hmap _ _ _ _ Hinner Hq).
      - by rewrite lookup_empty in Hq. }
    destruct (CrewQualification.expires_on q) as [e |] eqn:He;
      [| by apply elem_of_nil in Hc].
    destruct (Z.ltb_spec e (Flight.flight_date flight)); [| by apply elem_of_nil in Hc].
    apply list_elem_of_singleton in Hc as ->. split; [done |].
    right. by exists q, e.
  - apply list_elem_of_singleton in Hc as ->. split; [done |]. left. by apply Hnone.
Qed.

(** X20. Every qualification_mismatch conflict the detector reports
    belongs to a duty of the period whose crew holds no qualification row
    for the flight's aircraft type, or holds one that expired before the
    flight date. *)
Theorem reported_mismatch_has_cause
    (isocalendar_year_week year_month : Z -> Z * Z) (title : string -> string)
    (format_1f : Q -> string) (rules_engine : HardSoftRulesEngine.t)
    db period_start period_end c :
  c ∈ ConflictDetector.detect_conflicts isocalendar_year_week year_month title format_1f
        rules_engine db period_start period_end ->
  ConflictDetector.type c = "qualification_mismatch" ->
  exists duty flight crew,
    (duty, flight, crew) ∈ ConflictDetector.query_duty_periods db period_start period_end
    /\ mismatch_for (duty, flight, crew) c
    /\ ((forall q, q ∈ Db.crew_qualification db ->
                   CrewQualification.crew_id q = Crew.crew_id crew ->
                   CrewQualification.aircraft_code q <> Flight.aircraft_code flight)
        \/ (exists q e, q ∈ Db.crew_qualification db
                        /\ CrewQualification.crew_id q = Crew.crew_id crew
                        /\ CrewQualification.aircraft_code q = Flight.aircraft_code flight
                        /\ CrewQualification.expires_on q = Some e
                        /\ e < Flight.flight_date flight)).
Proof.
  apply mismatch_cause.
Qed.

Lemma reported_mismatch_has_cause_witness :
  exists duty flight crew,
    (duty, flight, crew) ∈ ConflictDetector.query_duty_periods AuditExample.db 739000 739001
    /\ mismatch_for (duty, flight, crew)
         (ConflictDetector.mkConflict "qualification_mismatch" 1 "Asha"
            "Assigned to A320 without valid qualification" "high" [1]
            (Time.at_time 739000 8 0) None None None)
    /\ ((forall q, q ∈ Db.crew_qualification AuditExample.db ->
                   CrewQualification.crew_id q = Crew.crew_id crew ->
                   CrewQualification.aircraft_code q <> Flight.aircraft_code flight)
        \/ (exists q e, q ∈ Db.crew_qualification AuditExample.db
                        /\ CrewQualification.crew_id q = Crew.crew_id crew
                        /\ CrewQualification.aircraft_code q = Flight.aircraft_code flight
                        /\ CrewQualification.expires_on q = Some e
                        /\ e < Flight.flight_date flight)).
Proof.
  refine (reported_mismatch_has_cause ConflictExample.isocalendar_year_week
            ConflictExample.year_month ConflictExample.title ConflictExample.format_1f
            HardSoftRulesEngine.default AuditExample.db 739000 739001 _ _ _).
  - vm_compute. repeat constructor.
  - reflexivity.
Defined.

(** ** optimizer/simple_opt.py: cancellations, crew unavailability, history *)

Module Disruption.

(** [db.query(Crew).join(CrewQualification, Crew.crew_id ==
    CrewQualification.crew_id).filter(Crew.status == "Active",
    CrewQualification.aircraft_code == code).all()]: the join pairs a crew
    row with each of its matching qualification rows and the query returns
    every Crew entity once, so the result is the active crew rows that have
    a matching qualification row. *)
Definition query_qualified_crew (db : Db.t) (aircraft_code : string) : list Crew.t :=
  filter (fun c =>
            Crew.status c = "Active"
            ∧ Exists (fun q => CrewQualification.crew_id q = Crew.crew_id c
                               ∧ CrewQualification.aircraft_code q = aircraft_code)
                (Db.crew_qualification db))
    (Db.crew db).

Definition query_preferences (db : Db.t) (crew_ids : list Z) (today : Z)
    : list CrewPreference.t :=
  filter (fun p => CrewPreference.crew_id p ∈ crew_ids
                   ∧ SimpleOpt.currently_valid today p = true)
    (Db.crew_preference db).

(** The approved records of the listed crew that overlap [from_, to_]. *)
Definition query_unavailable_crew (db : Db.t) (crew_ids : list Z) (from_ to_ : Z)
    : list CrewAvailability.t :=
  filter (fun r =>
            CrewAvailability.crew_id r ∈ crew_ids
            ∧ CrewAvailability.unavailable_from r <= to_
            ∧ from_ <= CrewAvailability.unavailable_to r
            ∧ CrewAvailability.status r = "approved")
    (Db.crew_availability db).

Definition query_qualifications (db : Db.t) (crew_ids : list Z) : list CrewQualification.t :=
  filter (fun q => CrewQualification.crew_id q ∈ crew_ids) (Db.crew_qualification db).

Definition build_pref_map (prefs : list CrewPreference.t) : gmap Z (list CrewPreference.t) :=
  fold_left SimpleOpt.append_preference prefs ∅.

(** *** handle_flight_cancellation *)

Definition query_same_day_flights (db : Db.t) (f : Flight.t) : list Flight.t :=
  filter (fun flight =>
            Flight.flight_date flight = Flight.flight_date f
            ∧ Flight.flight_id flight <> Flight.flight_id f
            ∧ Flight.aircraft_code flight = Flight.aircraft_code f)
    (Db.flight db).

Record Reassignment := mkReassignment {
  from_flight : string;
  to_flight : string;
  crew_id : Z;
  crew_name : string;
  preference_score : Z
}.

(** The inner loop [for crew in qualified_crew] with its [break]. *)
Fixpoint suggest_crew (f flight : Flight.t)
    (qual_map : gmap Z (gmap string CrewQualification.t))
    (unavailable_crew_map : gmap Z (list CrewAvailability.t))
    (pref_map : gmap Z (list CrewPreference.t))
    (qualified_crew : list Crew.t) : option Reassignment :=
  match qualified_crew with
  | [] => None
  | crew :: rest =>
      if SimpleOpt.is_crew_qualified_for_flight (Crew.crew_id crew) flight qual_map
           (Flight.flight_date flight)
         && SimpleOpt.is_crew_available (Crew.crew_id crew) (Flight.flight_date flight)
              unavailable_crew_map
      then
        let pref_score :=
          SimpleOpt.calculate_preference_score (Crew.crew_id crew) (Flight.flight_date flight)
            (Flight.dep_iata flight) (Flight.arr_iata flight) (Flight.flight_no flight)
            pref_map in
        if 0 <? pref_score
        then Some (mkReassignment (Flight.flight_no f) (Flight.flight_no flight)
                     (Crew.crew_id crew) (Crew.name crew) pref_score)
        else suggest_crew f flight qual_map unavailable_crew_map pref_map rest
      else suggest_crew f flight qual_map unavailable_crew_map pref_map rest
  end.

(** The reassignment suggestions for a cancelled flight [f]. *)
Definition cancellation_reassignments (today : Z) (db : Db.t) (f : Flight.t)
    : list Reassignment :=
  let qualified_crew := query_qualified_crew db (Flight.aircraft_code f) in
  let crew_ids := map Crew.crew_id qualified_crew in
  let prefs := query_preferences db crew_ids today in
  let unavailable_crew :=
    query_unavailable_crew db crew_ids (Flight.flight_date f) (Flight.flight_date f) in
  let unavailable_crew_map := SimpleOpt.build_unavailable_crew_map unavailable_crew in
  let pref_map := build_pref_map prefs in
  let same_day_flights := query_same_day_flights db f in
  let quals := query_qualifications db crew_ids in
  let qual_map := SimpleOpt.build_qualification_map (Flight.flight_date f) quals in
  flat_map (fun flight =>
              match suggest_crew f flight qual_map unavailable_crew_map pref_map
                      qualified_crew with
              | Some r => [r]
              | None => []
              end)
    same_day_flights.

(** The dict [handle_flight_cancellation] returns.  [found] is the number
    the message renders. *)
Inductive CancellationResult :=
| CancellationError (error : string)
| CancellationHandled (flight_id : Z) (flight_no : string) (status : string) (found : Z)
    (reassignments : list Reassignment).

(** [now] is [datetime.utcnow()], [today] is [date.today()]. *)
Definition handle_flight_cancellation (now today : Z) (s : Session.t) (flight_no : string)
    (rules : RulesEngine.t) : Session.t * CancellationResult :=
  match SimpleOpt.latest_flight (Session.pending s) flight_no with
  | None => (s, CancellationError "flight_not_found")
  | Some f =>
      let s' :=
        SimpleOpt.record_disruption now s (Some flight_no) "cancellation"
          (Flight.flight_date f) None None (Some "Flight cancelled") None in
      let reassignments := cancellation_reassignments today (Session.pending s') f in
      (s', CancellationHandled (Flight.flight_id f) (Flight.flight_no f)
             "cancellation_handled" (Z.of_nat (length reassignments)) reassignments)
  end.

Definition suggested (r : CancellationResult) : list Reassignment :=
  match r with
  | CancellationError _ => []
  | CancellationHandled _ _ _ _ reassignments => reassignments
  end.

(** *** handle_crew_unavailability *)

(** [expires_on.is_(None) | (expires_on >= d)] *)
Definition expires_none_or_from (d : Z) (q : CrewQualification.t) : bool :=
  match CrewQualification.expires_on q with
  | Some e => d <=? e
  | None => true
  end.

(** [db.query(Flight).join(CrewQualification, Flight.aircraft_code ==
    CrewQualification.aircraft_code).filter(...)]: the flights of the
    period for whose aircraft type the crew holds a qualification row that
    does not expire before [unavailable_to]; every Flight entity once. *)
Definition query_qualified_flights (db : Db.t) (crew_id unavailable_from unavailable_to : Z)
    : list Flight.t :=
  filter (fun f =>
            unavailable_from <= Flight.flight_date f
            ∧ Flight.flight_date f <= unavailable_to
            ∧ Exists (fun q =>
                        CrewQualification.aircraft_code q = Flight.aircraft_code f
                        ∧ CrewQualification.crew_id q = crew_id
                        ∧ expires_none_or_from unavailable_to q = true)
                (Db.crew_qualification db))
    (Db.flight db).

Definition query_other_qualified_crew (db : Db.t) (crew_id : Z) (aircraft_codes : gset string)
    : list Crew.t :=
  filter (fun c =>
            Crew.crew_id c <> crew_id
            ∧ Crew.status c = "Active"
            ∧ Exists (fun q => CrewQualification.crew_id q = Crew.crew_id c
                               ∧ CrewQualification.aircraft_code q ∈ aircraft_codes)
                (Db.crew_qualification db))
    (Db.crew db).

Record CrewReassignment := mkCrewReassignment {
  from_crew_id : Z;
  from_crew_name : string;
  to_crew_id : Z;
  to_crew_name : string;
  flight_id : Z;
  flight_no : string;
  flight_date : Z;
  crew_preference_score : Z
}.

(** The inner loop [for other_crew in other_qualified_crew] with its
    [break]. *)
Fixpoint suggest_other_crew (crew_id : Z) (crew : Crew.t) (flight : Flight.t)
    (qual_map : gmap Z (gmap string CrewQualification.t))
    (unavailable_crew_map : gmap Z (list CrewAvailability.t))
    (pref_map : gmap Z (list CrewPreference.t))
    (other_qualified_crew : list Crew.t) : option CrewReassignment :=
  match other_qualified_crew with
  | [] => None
  | other_crew :: rest =>
      if SimpleOpt.is_crew_qualified_for_flight (Crew.crew_id other_crew) flight qual_map
           (Flight.flight_date flight)
         && SimpleOpt.is_crew_available (Crew.crew_id other_crew) (Flight.flight_date flight)
              unavailable_crew_map
      then
        let pref_score :=
          SimpleOpt.calculate_preference_score (Crew.crew_id other_crew)
            (Flight.flight_date flight) (Flight.dep_iata flight) (Flight.arr_iata flight)
            (Flight.flight_no flight) pref_map in
        Some (mkCrewReassignment crew_id (Crew.name crew)
                (Crew.crew_id other_crew) (Crew.name other_crew)
                (Flight.flight_id flight) (Flight.flight_no flight)
                (Flight.flight_date flight) pref_score)
      else suggest_other_crew crew_id crew flight qual_map unavailable_crew_map pref_map rest
  end.

Definition unavailability_reassignments (today : Z) (db : Db.t) (crew_id : Z) (crew : Crew.t)
    (unavailable_from unavailable_to : Z) (qualified_flights : list Flight.t)
    : list CrewReassignment :=
  let aircraft_codes : gset string :=
    list_to_set (map Flight.aircraft_code qualified_flights) in
  let other_qualified_crew :=
    query_other_qualified_crew db crew_id aircraft_codes in
  let other_crew_ids := map Crew.crew_id other_qualified_crew in
  let prefs := query_preferences db other_crew_ids today in
  let unavailable_crew :=
    query_unavailable_crew db other_crew_ids unavailable_from unavailable_to in
  let unavailable_crew_map := SimpleOpt.build_unavailable_crew_map unavailable_crew in
  let pref_map := build_pref_map prefs in
  let quals := query_qualifications db other_crew_ids in
  let qual_map := SimpleOpt.build_qualification_map unavailable_to quals in
  flat_map (fun flight =>
              match suggest_other_crew crew_id crew flight qual_map unavailable_crew_map pref_map
                      other_qualified_crew with
              | Some r => [r]
              | None => []
              end)
    qualified_flights.

(** The dict [handle_crew_unavailability] returns: the error, the early
    return without a [reassignments] key, or the full answer.  The two
    dates are returned as ISO-8601 text; the model keeps the dates. *)
Inductive UnavailabilityResult :=
| UnavailabilityError (error : string)
| NoFlightsAffected (crew_id : Z) (crew_name : string) (unavailable_from unavailable_to : Z)
    (status : string)
| UnavailabilityHandled (crew_id : Z) (crew_name : string) (unavailable_from unavailable_to : Z)
    (status : string) (found : Z) (reassignments : list CrewReassignment).

(** [db.query(Crew).filter(Crew.crew_id == crew_id).first()] *)
Definition find_crew (db : Db.t) (crew_id : Z) : option Crew.t :=
  head (filter (fun c => Crew.crew_id c = crew_id) (Db.crew db)).

Definition handle_crew_unavailability (now today : Z) (s : Session.t)
    (crew_id unavailable_from unavailable_to : Z) (rules : RulesEngine.t)
    : Session.t * UnavailabilityResult :=
  match find_crew (Session.pending s) crew_id with
  | None => (s, UnavailabilityError "crew_not_found")
  | Some crew =>
      let s' :=
        SimpleOpt.record_disruption now s None "crew_unavailability" unavailable_from
          None (Some crew_id) (Some "Crew unavailable") None in
      let db := Session.pending s' in
      let qualified_flights :=
        query_qualified_flights db crew_id unavailable_from unavailable_to in
      match qualified_flights with
      | [] =>
          (s', NoFlightsAffected crew_id (Crew.name crew) unavailable_from unavailable_to
                 "unavailability_handled")
      | _ :: _ =>
          let reassignments :=
            unavailability_reassignments today db crew_id crew unavailable_from unavailable_to
              qualified_flights in
          (s', UnavailabilityHandled crew_id (Crew.name crew) unavailable_from unavailable_to
                 "unavailability_handled" (Z.of_nat (length reassignments)) reassignments)
      end
  end.

Definition crew_suggested (r : UnavailabilityResult) : list CrewReassignment :=
  match r with
  | UnavailabilityHandled _ _ _ _ _ _ reassignments => reassignments
  | _ => []
  end.

(** *** get_historical_disruptions *)



End Disruption.

Lemma qualified_in_map_valid threshold quals db f cid :
  (forall q, q ∈ quals -> q ∈ Db.crew_qualification db) ->
  SimpleOpt.is_crew_qualified_for_flight cid f
    (SimpleOpt.build_qualification_map threshold quals) (Flight.flight_date f) = true ->
  validly_qualified db f cid.
Proof.
  intros Hsub. unfold SimpleOpt.is_crew_qualified_for_flight.
  destruct (SimpleOpt.build_qualification_map threshold quals !! cid)
    as [inner |] eqn:Hcid; simpl; [| by rewrite lookup_empty].
  destruct (inner !! Flight.aircraft_code f) as [q |] eqn:Hcode; [| done].
  destruct (build_qualification_map_sound threshold _ _ _ _ _ Hcid Hcode) as (Hq & Hc & Ha).
  intros Hexp. exists q. repeat split; try done; [by apply Hsub |].
  destruct (CrewQualification.expires_on q) as [e |]; [| done].
  destruct (Z.ltb_spec e (Flight.flight_date f)); [done | lia].
Qed.

Lemma available_in_map db ids from_ to_ f cid :
  cid ∈ ids ->
  from_ <= Flight.flight_date f <= to_ ->
  SimpleOpt.is_crew_available cid (Flight.flight_date f)
    (SimpleOpt.build_unavailable_crew_map
       (Disruption.query_unavailable_crew db ids from_ to_)) = true ->
  no_approved_unavailability db f cid.
Proof.
  intros Hid Hdate Hav r Hr Hcid Hst [Hfrom Hto].
  assert (r ∈ Disruption.query_unavailable_crew db ids from_ to_) as Hq.
  { unfold Disruption.query_unavailable_crew. apply list_elem_of_filter. split; [| done].
    rewrite Hcid. repeat split; [done | lia | lia | done]. }
  apply build_unavailable_crew_map_filed in Hq as (l & Hl & Hrl).
  unfold SimpleOpt.is_crew_available in Hav. rewrite <- Hcid, Hl in Hav.
  apply negb_true_iff in Hav.
  assert (existsb (SimpleOpt.covers (Flight.flight_date f)) l = true) as Hex.
  { apply existsb_exists. exists r. split; [by apply list_elem_of_In |].
    unfold SimpleOpt.covers. apply andb_true_intro. split; lia. }
  congruence.
Qed.

Lemma suggest_crew_Some f flight qual_map unavailable_crew_map pref_map qualified_crew r :
  Disruption.suggest_crew f flight qual_map unavailable_crew_map pref_map qualified_crew
  = Some r ->
  exists crew,
    crew ∈ qualified_crew
    /\ SimpleOpt.is_crew_qualified_for_flight (Crew.crew_id crew) flight qual_map
         (Flight.flight_date flight) = true
    /\ SimpleOpt.is_crew_available (Crew.crew_id crew) (Flight.flight_date flight)
         unavailable_crew_map = true
    /\ r = Disruption.mkReassignment (Flight.flight_no f) (Flight.flight_no flight)
             (Crew.crew_id crew) (Crew.name crew) (Disruption.preference_score r)
    /\ 0 < Disruption.preference_score r.
Proof.
  induction qualified_crew as [| crew rest IH]; simpl; [done |].
  destruct (SimpleOpt.is_crew_qualified_for_flight _ _ _ _) eqn:Hq; simpl.
  - destruct (SimpleOpt.is_crew_available _ _ _) eqn:Ha.
    + destruct (Z.ltb_spec 0 (SimpleOpt.calculate_preference_score (Crew.crew_id crew)
                                (Flight.flight_date flight) (Flight.dep_iata flight)
                                (Flight.arr_iata flight) (Flight.flight_no flight) pref_map)).
      * intros [= <-]. exists crew. repeat split; try done. left.
      * intros Hr. destruct (IH Hr) as (c & Hc & H'). exists c. split; [by right | done].
    + intros Hr. destruct (IH Hr) as (c & Hc & H'). exists c. split; [by right | done].
  - intros Hr. destruct (IH Hr) as (c & Hc & H'). exists c. split; [by right | done].
Qed.

Lemma flat_map_option_sublist {A B C : Type} (g : A -> option B) (k : A -> C) (h : B -> C)
    (l : list A) :
  (forall a b, g a = Some b -> h b = k a) ->
  sublist (map h (flat_map (fun a => match g a with Some b => [b] | None => [] end) l))
          (map k l).
Proof.
  intros Hg. induction l as [| a l IH]; simpl; [constructor |].
  destruct (g a) as [b |] eqn:Hb; simpl.
  - rewrite (Hg a b Hb). by constructor.
  - by constructor.
Qed.

(** X21. Every reassignment suggested after a cancellation moves an active
    crew to another flight of the same day and aircraft type, for which the
    crew holds a qualification unexpired on that day, on which no approved
    unavailability of the crew falls, and for which the crew's preference
    score is positive. *)
Theorem cancellation_suggestions_sound now today s flight_no rules f r :
  SimpleOpt.latest_flight (Session.pending s) flight_no = Some f ->
  r ∈ Disruption.suggested
        (snd (Disruption.handle_flight_cancellation now today s flight_no rules)) ->
  exists flight crew,
    flight ∈ Db.flight (Session.pending s)
    /\ Flight.flight_date flight = Flight.flight_date f
    /\ Flight.flight_id flight <> Flight.flight_id f
    /\ Flight.aircraft_code flight = Flight.aircraft_code f
    /\ crew ∈ Db.crew (Session.pending s)
    /\ Crew.status crew = "Active"
    /\ r = Disruption.mkReassignment (Flight.flight_no f) (Flight.flight_no flight)
             (Crew.crew_id crew) (Crew.name crew) (Disruption.preference_score r)
    /\ 0 < Disruption.preference_score r
    /\ validly_qualified (Session.pending s) flight (Crew.crew_id crew)
    /\ no_approved_unavailability (Session.pending s) flight (Crew.crew_id crew).
Proof.
  intros Hf Hr. unfold Disruption.handle_flight_cancellation in Hr. rewrite Hf in Hr.
  cbn [snd Disruption.suggested] in Hr.
  unfold Disruption.cancellation_reassignments in Hr.
  apply list_elem_of_In, in_flat_map in Hr as (flight & Hflight & Hr).
  apply list_elem_of_In in Hflight.
  unfold Disruption.query_same_day_flights in Hflight.
  apply list_elem_of_filter in Hflight as ((Hdate & Hid & Hcode) & Hflight).
  match type of Hr with
  | In r (match ?x with _ => _ end) => destruct x as [r' |] eqn:Hs; [| done]
  end.
  destruct Hr as [<- | []].
  apply suggest_crew_Some in Hs as (crew & Hcrew & Hq & Ha & Hr & Hpos).
  unfold Disruption.query_qualified_crew in Hcrew.
  assert (Crew.crew_id crew
          ∈ map Crew.crew_id
              (Disruption.query_qualified_crew
                 (Session.pending
                    (SimpleOpt.record_disruption now s (Some flight_no) "cancellation"
                       (Flight.flight_date f) None None (Some "Flight cancelled") None))
                 (Flight.aircraft_code f))) as Hids.
  { by apply list_elem_of_In, in_map, list_elem_of_In. }
  apply list_elem_of_filter in Hcrew as ((Hactive & _) & Hcrew).
  exists flight, crew. repeat split; try done.
  - eapply qualified_in_map_valid; [| exact Hq].
    intros q Hin. unfold Disruption.query_qualifications in Hin.
    by apply list_elem_of_filter in Hin as [_ Hin].
  - apply (available_in_map _ _ _ _ flight _ Hids) in Ha; [exact Ha | lia].
Qed.

Module CancellationExample.
Definition crew1 : Crew.t := Crew.mk 1 "E001" "Asha" "Captain" "DEL" "Active".
Definition crew2 : Crew.t := Crew.mk 2 "E002" "Ravi" "Captain" "DEL" "Active".
Definition qual1 : CrewQualification.t := CrewQualification.mk 1 "A320" 738000 None.
Definition qual2 : CrewQualification.t := CrewQualification.mk 2 "A320" 738000 None.
(** Crew 1 prefers to fly out of DEL. *)
Definition pref1 : CrewPreference.t := CrewPreference.mk 1 "base" "DEL" 1 None None.
Definition flight1 : Flight.t :=
  Flight.mk 1 "6E101" 739000 "DEL" "BOM" (Time.at_time 739000 8 0) (Time.at_time 739000 10 0) "A320".
Definition flight2 : Flight.t :=
  Flight.mk 2 "6E102" 739000 "DEL" "BLR" (Time.at_time 739000 9 0) (Time.at_time 739000 11 0) "A320".
Definition db : Db.t :=
  Db.mk [crew1; crew2] [qual1; qual2] [pref1] [] [] [flight1; flight2] [] [].
Definition now : Z := Time.at_time 739000 6 0.
Definition today : Z := 739000.
End CancellationExample.

Lemma cancellation_suggestions_sound_witness :
  exists flight crew,
    flight ∈ Db.flight CancellationExample.db
    /\ Flight.flight_date flight = 739000
    /\ Flight.flight_id flight <> 1
    /\ Flight.aircraft_code flight = "A320"
    /\ crew ∈ Db.crew CancellationExample.db
    /\ Crew.status crew = "Active"
    /\ Disruption.mkReassignment "6E101" "6E102" 1 "Asha" 2
       = Disruption.mkReassignment "6E101" (Flight.flight_no flight)
           (Crew.crew_id crew) (Crew.name crew) 2
    /\ 0 < 2
    /\ validly_qualified CancellationExample.db flight (Crew.crew_id crew)
    /\ no_approved_unavailability CancellationExample.db flight (Crew.crew_id crew).
Proof.
  refine (cancellation_suggestions_sound CancellationExample.now CancellationExample.today
            (Session.of_db CancellationExample.db) "6E101" RulesEngine.default
            CancellationExample.flight1 (Disruption.mkReassignment "6E101" "6E102" 1 "Asha" 2)
            _ _).
  - vm_compute. reflexivity.
  - vm_compute. constructor.
Defined.

(** X22. Cancelling an unknown flight number returns [flight_not_found]
    and changes nothing.  Cancelling a known one records exactly one
    disruption, of type [cancellation] and dated with the flight's date, and
    suggests at most one crew per other flight of that day and aircraft
    type, in the order of those flights. *)
Theorem cancellation_bookkeeping now today s flight_no rules :
  let out := Disruption.handle_flight_cancellation now today s flight_no rules in
  match SimpleOpt.latest_flight (Session.pending s) flight_no with
  | Some f =>
      (exists id,
         Db.disruption_record (Session.committed (fst out))
         = (Db.disruption_record (Session.pending s)
            ++ [DisruptionRecord.mk id (Some flight_no) "cancellation" (Flight.flight_date f)
                  None None (Some "Flight cancelled") None now None])%list)
      /\ sublist (map Disruption.to_flight (Disruption.suggested (snd out)))
           (map Flight.flight_no (Disruption.query_same_day_flights (Session.pending s) f))
  | None => out = (s, Disruption.CancellationError "flight_not_found")
  end.
Proof.
  cbv zeta. unfold Disruption.handle_flight_cancellation.
  destruct (SimpleOpt.latest_flight (Session.pending s) flight_no) as [f |]; [| done].
  cbn [fst snd Disruption.suggested]. split.
  - unfold SimpleOpt.record_disruption. by eexists.
  - unfold Disruption.cancellation_reassignments.
    apply (flat_map_option_sublist _ Flight.flight_no Disruption.to_flight).
    intros flight r Hr. by apply suggest_crew_Some in Hr as (crew & _ & _ & _ & -> & _).
Qed.

Lemma suggest_other_crew_Some crew_id crew flight qual_map unavailable_crew_map pref_map
    other_qualified_crew r :
  Disruption.suggest_other_crew crew_id crew flight qual_map unavailable_crew_map pref_map
    other_qualified_crew = Some r ->
  exists other,
    other ∈ other_qualified_crew
    /\ SimpleOpt.is_crew_qualified_for_flight (Crew.crew_id other) flight qual_map
         (Flight.flight_date flight) = true
    /\ SimpleOpt.is_crew_available (Crew.crew_id other) (Flight.flight_date flight)
         unavailable_crew_map = true
    /\ r = Disruption.mkCrewReassignment crew_id (Crew.name crew) (Crew.crew_id other)
             (Crew.name other) (Flight.flight_id flight) (Flight.flight_no flight)
             (Flight.flight_date flight) (Disruption.crew_preference_score r).
Proof.
  induction other_qualified_crew as [| other rest IH]; simpl; [done |].
  destruct (SimpleOpt.is_crew_qualified_for_flight _ _ _ _) eqn:Hq; simpl.
  - destruct (SimpleOpt.is_crew_available _ _ _) eqn:Ha.
    + intros [= <-]. exists other. repeat split; try done. left.
    + intros Hr. destruct (IH Hr) as (c & Hc & H'). exists c. split; [by right | done].
  - intros Hr. destruct (IH Hr) as (c & Hc & H'). exists c. split; [by right | done].
Qed.

(** X23. Every replacement suggested for an unavailable crew is another,
    active crew, for a flight dated inside the unavailable period, for which
    the replacement holds a qualification unexpired on the flight date and
    on which no approved unavailability of the replacement falls. *)
Theorem unavailability_suggestions_sound now today s crew_id unavailable_from unavailable_to
    rules r :
  r ∈ Disruption.crew_suggested
        (snd (Disruption.handle_crew_unavailability now today s crew_id unavailable_from
                unavailable_to rules)) ->
  exists crew flight other,
    Disruption.find_crew (Session.pending s) crew_id = Some crew
    /\ flight ∈ Db.flight (Session.pending s)
    /\ unavailable_from <= Flight.flight_date flight <= unavailable_to
    /\ other ∈ Db.crew (Session.pending s)
    /\ Crew.status other = "Active"
    /\ Crew.crew_id other <> crew_id
    /\ r = Disruption.mkCrewReassignment crew_id (Crew.name crew) (Crew.crew_id other)
             (Crew.name other) (Flight.flight_id flight) (Flight.flight_no flight)
             (Flight.flight_date flight) (Disruption.crew_preference_score r)
    /\ validly_qualified (Session.pending s) flight (Crew.crew_id other)
    /\ no_approved_unavailability (Session.pending s) flight (Crew.crew_id other).
Proof.
  unfold Disruption.handle_crew_unavailability.
  destruct (Disruption.find_crew (Session.pending s) crew_id) as [crew |] eqn:Hcrew;
    [| intros Hr; by apply elem_of_nil in Hr].
  set (db := Session.pending
               (SimpleOpt.record_disruption now s None "crew_unavailability" unavailable_from
                  None (Some crew_id) (Some "Crew unavailable") None)).
  remember (Disruption.query_qualified_flights db crew_id unavailable_from unavailable_to)
    as qualified_flights eqn:Hqf.
  destruct qualified_flights as [| f0 rest]; [intros Hr; by apply elem_of_nil in Hr |].
  cbn [snd Disruption.crew_suggested]. intros Hr.
  unfold Disruption.unavailability_reassignments in Hr.
  apply list_elem_of_In, in_flat_map in Hr as (flight & Hflight & Hr).
  apply list_elem_of_In in Hflight. rewrite Hqf in Hflight.
  unfold Disruption.query_qualified_flights in Hflight.
  apply list_elem_of_filter in Hflight as ((Hfrom & Hto & _) & Hflight).
  match type of Hr with
  | In r (match ?x with _ => _ end) => destruct x as [r' |] eqn:Hs; [| done]
  end.
  destruct Hr as [<- | []].
  apply suggest_other_crew_Some in Hs as (other & Hother & Hq & Ha & Hr).
  pose proof Hother as Hids.
  apply list_elem_of_In, (in_map Crew.crew_id), list_elem_of_In in Hids.
  unfold Disruption.query_other_qualified_crew in Hother.
  apply list_elem_of_filter in Hother as ((Hne & Hactive & _) & Hother).
  exists crew, flight, other. repeat split; try done.
  - eapply qualified_in_map_valid; [| exact Hq].
    intros q Hin. unfold Disruption.query_qualifications in Hin.
    by apply list_elem_of_filter in Hin as [_ Hin].
  - apply (available_in_map _ _ _ _ flight _ Hids) in Ha; [exact Ha | lia].
Qed.

Lemma unavailability_suggestions_sound_witness :
  exists crew flight other,
    Disruption.find_crew CancellationExample.db 1 = Some crew
    /\ flight ∈ Db.flight CancellationExample.db
    /\ 739000 <= Flight.flight_date flight <= 739001
    /\ other ∈ Db.crew CancellationExample.db
    /\ Crew.status other = "Active"
    /\ Crew.crew_id other <> 1
    /\ Disruption.mkCrewReassignment 1 "Asha" 2 "Ravi" 1 "6E101" 739000 0
       = Disruption.mkCrewReassignment 1 (Crew.name crew) (Crew.crew_id other)
           (Crew.name other) (Flight.flight_id flight) (Flight.flight_no flight)
           (Flight.flight_date flight) 0
    /\ validly_qualified CancellationExample.db flight (Crew.crew_id other)
    /\ no_approved_unavailability CancellationExample.db flight (Crew.crew_id other).
Proof.
  refine (unavailability_suggestions_sound CancellationExample.now CancellationExample.today
            (Session.of_db CancellationExample.db) 1 739000 739001 RulesEngine.default
            (Disruption.mkCrewReassignment 1 "Asha" 2 "Ravi" 1 "6E101" 739000 0) _).
  vm_compute. constructor.
Defined.






Module HistoryExample.
Definition old : DisruptionRecord.t :=
  DisruptionRecord.mk 1 (Some "6E101") "delay" 738900 (Some 30) None None None 0 None.
Definition delay1 : DisruptionRecord.t :=
  DisruptionRecord.mk 2 (Some "6E101") "delay" 738990 (Some 45) None None None 0 None.
Definition leave1 : DisruptionRecord.t :=
  DisruptionRecord.mk 3 None "crew_unavailability" 738995 None (Some 7) None None 0 None.
Definition db : Db.t := Db.mk [] [] [] [] [old; delay1; leave1] [] [] [].
End HistoryExample.


(** X26. The hard-rule check flags the night-duty rule exactly when a
    (non-zero) weekly maximum is configured and the week's night duties have
    reached it: reaching the maximum is already a violation, and the flag is
    raised whatever the rank and whether or not the checked duty is itself a
    night duty. *)
Theorem night_limit_flagged_when_reached self duty_start duty_end crew_rank
    consecutive_days weekly_duties monthly_duties weekly_night_duties weekly_flight_time
    monthly_flight_time :
  "night_duty_limit_exceeded"
  ∈ map fst
      (HardSoftRulesEngine.check_hard_rule_violations self duty_start duty_end crew_rank
         consecutive_days weekly_duties monthly_duties weekly_night_duties weekly_flight_time
         monthly_flight_time)
  <-> exists m,
        HardSoftRulesEngine.max_night_duties_per_week self = Some m /\ m <> 0
        /\ m <= weekly_night_duties.
Proof.
  unfold HardSoftRulesEngine.check_hard_rule_violations,
    HardSoftRulesEngine.check_rank_specific_hard_rules.
  rewrite fold_od_set_keys.
  rewrite (flag_keys "night_duty_limit_exceeded" _ _
             (if (crew_rank =? "Captain")%string then _ else _)).
  assert ("night_duty_limit_exceeded"
          ∈ map fst
              (if (crew_rank =? "Captain")%string
               then HardSoftRulesEngine.flag "consecutive_duty_days_exceeded"
                      (HardSoftRulesEngine.max_consecutive_duty_days self)
                      (fun m => m - 1 <? consecutive_days) []
               else if (crew_rank =? "FirstOfficer")%string
                    then HardSoftRulesEngine.flag "consecutive_duty_days_exceeded"
                           (HardSoftRulesEngine.max_consecutive_duty_days self)
                           (fun m => m <? consecutive_days) []
                    else [])
          <-> False) as ->.
  { destruct (crew_rank =? "Captain")%string;
      [| destruct (crew_rank =? "FirstOfficer")%string];
      rewrite ?flag_keys_other by done; split; try done;
      intros H; by apply elem_of_nil in H. }
  destruct (HardSoftRulesEngine.is_night_duty self duty_start duty_end).
  - rewrite (flag_keys "night_duty_limit_exceeded").
    rewrite !(flag_keys_other "monthly_flight_time_exceeded") by done.
    rewrite !(flag_keys_other "weekly_flight_time_exceeded") by done.
    rewrite !(flag_keys_other "consecutive_duty_days_exceeded") by done.
    rewrite !(flag_keys_other "monthly_duty_exceeded") by done.
    rewrite !(flag_keys_other "weekly_duty_exceeded") by done.
    rewrite !od_set_if_keys_other by done.
    split.
    + intros [[H | [_ (m & Hm & Hz & He)]] | [[] | [_ (m & Hm & Hz & He)]]];
        try (by apply elem_of_nil in H); exists m; repeat split; try done; lia.
    + intros (m & Hm & Hz & He). right. right. split; [done |]. exists m.
      repeat split; try done. lia.
  - rewrite !(flag_keys_other "monthly_flight_time_exceeded") by done.
    rewrite !(flag_keys_other "weekly_flight_time_exceeded") by done.
    rewrite !(flag_keys_other "consecutive_duty_days_exceeded") by done.
    rewrite !(flag_keys_other "monthly_duty_exceeded") by done.
    rewrite !(flag_keys_other "weekly_duty_exceeded") by done.
    rewrite !od_set_if_keys_other by done.
    split.
    + intros [H | [[] | [_ (m & Hm & Hz & He)]]];
        try (by apply elem_of_nil in H); exists m; repeat split; try done; lia.
    + intros (m & Hm & Hz & He). right. right. split; [done |]. exists m.
      repeat split; try done. lia.
Qed.

Lemma build_pref_map_sound prefs cid l p :
  Disruption.build_pref_map prefs !! cid = Some l -> p ∈ l ->
  p ∈ prefs /\ CrewPreference.crew_id p = cid.
Proof.
  unfold Disruption.build_pref_map. revert cid l p.
  apply (fold_left_elem_invariant
           (fun m : gmap Z (list CrewPreference.t) =>
              forall cid l p, m !! cid = Some l -> p ∈ l ->
                              p ∈ prefs /\ CrewPreference.crew_id p = cid)).
  - intros m p0 Hp0 Hm cid l p. unfold SimpleOpt.append_preference.
    destruct (decide (CrewPreference.crew_id p0 = cid)) as [<- | Hne].
    + rewrite lookup_insert_eq. intros [= <-]. rewrite elem_of_app, list_elem_of_singleton.
      intros [Hp | ->]; [| done].
      destruct (m !! CrewPreference.crew_id p0) as [old |] eqn:Hold; simpl in Hp.
      * by apply (Hm _ _ _ Hold).
      * by apply elem_of_nil in Hp.
    + rewrite lookup_insert_ne by done. apply Hm.
  - intros cid l p Hl. by rewrite lookup_empty in Hl.
Qed.

Lemma suggest_crew_score f flight qual_map unavailable_crew_map pref_map qualified_crew r :
  Disruption.suggest_crew f flight qual_map unavailable_crew_map pref_map qualified_crew
  = Some r ->
  Disruption.preference_score r
  = SimpleOpt.calculate_preference_score (Disruption.crew_id r) (Flight.flight_date flight)
      (Flight.dep_iata flight) (Flight.arr_iata flight) (Flight.flight_no flight) pref_map
  /\ 0 < Disruption.preference_score r.
Proof.
  induction qualified_crew as [| crew rest IH]; simpl; [done |].
  destruct (_ && _); [| exact IH].
  destruct (Z.ltb_spec 0 (SimpleOpt.calculate_preference_score (Crew.crew_id crew)
                            (Flight.flight_date flight) (Flight.dep_iata flight)
                            (Flight.arr_iata flight) (Flight.flight_no flight) pref_map));
    [| exact IH].
  by intros [= <-].
Qed.

(** X27. After a cancellation a crew is suggested only on the strength of
    a preference: every suggested crew has a preference row that is valid
    today.  A crew without one scores 0 and is never suggested, however
    qualified and available. *)
Theorem cancellation_needs_a_preference now today s flight_no rules r :
  r ∈ Disruption.suggested
        (snd (Disruption.handle_flight_cancellation now today s flight_no rules)) ->
  exists p,
    p ∈ Db.crew_preference (Session.pending s)
    /\ CrewPreference.crew_id p = Disruption.crew_id r
    /\ SimpleOpt.currently_valid today p = true.
Proof.
  unfold Disruption.handle_flight_cancellation.
  destruct (SimpleOpt.latest_flight (Session.pending s) flight_no) as [f |];
    [| intros Hr; by apply elem_of_nil in Hr].
  cbn [snd Disruption.suggested]. unfold Disruption.cancellation_reassignments. intros Hr.
  apply list_elem_of_In, in_flat_map in Hr as (flight & _ & Hr).
  match type of Hr with
  | In r (match ?x with _ => _ end) => destruct x as [r' |] eqn:Hs; [| done]
  end.
  destruct Hr as [<- | []].
  apply suggest_crew_score in Hs as [Hscore Hpos].
  unfold SimpleOpt.calculate_preference_score in Hscore.
  match type of Hscore with
  | context [default [] (?m !! ?k)] => destruct (m !! k) as [l |] eqn:Hl
  end; simpl in Hscore; [| lia].
  destruct l as [| p l]; simpl in Hscore; [lia |].
  destruct (build_pref_map_sound _ _ _ p Hl) as [Hp Hcid]; [left |].
  unfold Disruption.query_preferences in Hp.
  apply list_elem_of_filter in Hp as [[_ Hvalid] Hp].
  by exists p.
Qed.

Lemma cancellation_needs_a_preference_witness :
  exists p,
    p ∈ Db.crew_preference CancellationExample.db
    /\ CrewPreference.crew_id p = 1
    /\ SimpleOpt.currently_valid CancellationExample.today p = true.
Proof.
  refine (cancellation_needs_a_preference CancellationExample.now CancellationExample.today
            (Session.of_db CancellationExample.db) "6E101" RulesEngine.default
            (Disruption.mkReassignment "6E101" "6E102" 1 "Asha" 2) _).
  vm_compute. constructor.
Defined.

(** ** Generating, committing and auditing a roster *)

Lemma query_duty_periods_elem db period_start period_end duty flight crew :
  (duty, flight, crew) ∈ ConflictDetector.query_duty_periods db period_start period_end ->
  duty ∈ Db.duty_period db
  /\ flight ∈ Db.flight db
  /\ crew ∈ Db.crew db
  /\ DutyPeriod.crew_id duty = Crew.crew_id crew
  /\ exists link,
       link ∈ Db.duty_flight db
       /\ DutyPeriod.duty_id duty = DutyFlight.duty_id link
       /\ DutyFlight.flight_id link = Flight.flight_id flight.
Proof.
  unfold ConflictDetector.query_duty_periods. rewrite list_elem_of_filter. intros [_ H].
  apply list_elem_of_In, in_flat_map in H as (d & Hd & H).
  apply in_flat_map in H as (l & Hl & H).
  apply in_flat_map in H as (f & Hf & H).
  apply in_map_iff in H as (c & [= <- <- <-] & Hc).
  apply list_elem_of_In in Hd.
  apply list_elem_of_In, list_elem_of_filter in Hl as [Hdl Hl].
  apply list_elem_of_In, list_elem_of_filter in Hf as [Hlf Hf].
  apply list_elem_of_In, list_elem_of_filter in Hc as [Hdc Hc].
  repeat split; try done. by exists l.
Qed.

(** In a well-numbered database a duty period and the duty flight that
    carries its id sit at the same position of their tables. *)
Lemma well_numbered_row db duty link :
  well_numbered db ->
  duty ∈ Db.duty_period db -> link ∈ Db.duty_flight db ->
  DutyPeriod.duty_id duty = DutyFlight.duty_id link ->
  row_of duty link ∈ rows db.
Proof.
  intros [Hids Hlinks] Hduty Hlink Hid.
  apply list_elem_of_lookup in Hduty as [i Hi].
  apply list_elem_of_lookup in Hlink as [j Hj].
  assert (length (Db.duty_flight db) = length (Db.duty_period db)) as Hlen.
  { by rewrite <- (length_map (fun l => (DutyFlight.duty_id l, DutyFlight.leg_seq l))),
      Hlinks, length_map. }
  assert (forall k d, Db.duty_period db !! k = Some d ->
                      DutyPeriod.duty_id d = Z.of_nat (S k)) as Hnum.
  { intros k d Hk.
    assert (map DutyPeriod.duty_id (Db.duty_period db) !! k = Some (DutyPeriod.duty_id d))
      as Hm by (by rewrite list_lookup_fmap, Hk).
    rewrite Hids, list_lookup_fmap in Hm.
    destruct (seq 1 (length (Db.duty_period db)) !! k) as [n |] eqn:Hn; [| done].
    apply lookup_seq in Hn as [-> _]. simpl in Hm. by injection Hm as <-. }
  assert (j < length (Db.duty_period db))%nat as Hjlt.
  { rewrite <- Hlen. by eapply lookup_lt_Some. }
  destruct (lookup_lt_is_Some_2 _ _ Hjlt) as [dj Hdj].
  assert (DutyFlight.duty_id link = DutyPeriod.duty_id dj) as Hlj.
  { assert (map (fun l => (DutyFlight.duty_id l, DutyFlight.leg_seq l)) (Db.duty_flight db)
              !! j = Some (DutyFlight.duty_id link, DutyFlight.leg_seq link))
      as Hm by (by rewrite list_lookup_fmap, Hj).
    rewrite Hlinks, list_lookup_fmap, Hdj in Hm. simpl in Hm. by injection Hm as <- _. }
  assert (i = j) as ->.
  { pose proof (Hnum _ _ Hi). pose proof (Hnum _ _ Hdj). lia. }
  unfold rows. apply list_elem_of_lookup. exists j.
  by rewrite lookup_zip_with, Hi, Hj.
Qed.

Lemma flight_id_unique (flights : list Flight.t) f f' :
  NoDup (map Flight.flight_id flights) ->
  f ∈ flights -> f' ∈ flights -> Flight.flight_id f = Flight.flight_id f' -> f = f'.
Proof.
  intros Hnd Hf Hf' Hid.
  apply list_elem_of_lookup in Hf as [i Hi]. apply list_elem_of_lookup in Hf' as [j Hj].
  assert (i = j) as ->; [| congruence].
  eapply (NoDup_lookup _ _ _ _ Hnd); rewrite list_lookup_fmap.
  - by rewrite Hi.
  - rewrite Hj. simpl. by rewrite Hid.
Qed.

Lemma qualification_key_unique (quals : list CrewQualification.t) q q' :
  NoDup (map (fun q => (CrewQualification.crew_id q, CrewQualification.aircraft_code q)) quals) ->
  q ∈ quals -> q' ∈ quals ->
  CrewQualification.crew_id q = CrewQualification.crew_id q' ->
  CrewQualification.aircraft_code q = CrewQualification.aircraft_code q' ->
  q = q'.
Proof.
  intros Hnd Hq Hq' Hc Ha.
  apply list_elem_of_lookup in Hq as [i Hi]. apply list_elem_of_lookup in Hq' as [j Hj].
  assert (i = j) as ->; [| congruence].
  eapply (NoDup_lookup _ _ _ _ Hnd); rewrite list_lookup_fmap.
  - by rewrite Hi.
  - rewrite Hj. simpl. by rewrite Hc, Ha.
Qed.

Lemma committed_roster_rows s assignments :
  let final := Session.committed (Orchestrator.save_assignments_to_duty_tables s assignments) in
  same_reference_data final (Session.pending s)
  /\ well_numbered final
  /\ rows final
     ≡ₚ map (fun a => entry_row (default 0 (Assignment.crew_id a)) a)
          (filter (fun a => Orchestrator.is_assigned a = true
                            /\ names_flight (Db.flight (Session.pending s)) a) assignments).
Proof.
  intros final.
  assert (rewrite_state (Session.pending s) (Orchestrator.cleared (Session.pending s)) [])
    as Hst by (by repeat split).
  apply (save_all_state (Session.pending s) (Orchestrator.group_by_crew assignments)) in Hst.
  change (fold_left Orchestrator.save_crew (Orchestrator.group_by_crew assignments)
            (Orchestrator.cleared (Session.pending s))) with final in Hst.
  destruct Hst as (Href & Hnum & Hrows).
  split; [exact Href |]. split; [exact Hnum |].
  rewrite Hrows, app_nil_l, <- assigned_rows_filter.
  apply Permutation_map, filter_Permutation, flatten_group_by_crew.
Qed.

(** X28. A greedy roster that has been committed passes the qualification
    audit.  When flight ids and the (crew, aircraft type) keys of the
    qualification table are unique, as their primary keys require, the
    detector reports no qualification_mismatch for the committed roster,
    whatever period it is asked to audit. *)
Theorem committed_greedy_roster_passes_qualification_audit
    (isocalendar_year_week year_month : Z -> Z * Z) (title : string -> string)
    (format_1f : Q -> string) (rules_engine : HardSoftRulesEngine.t)
    today s period_start period_end rules assignments kpis audit_start audit_end c :
  NoDup (map Flight.flight_id (Db.flight (Session.pending s))) ->
  NoDup (map (fun q => (CrewQualification.crew_id q, CrewQualification.aircraft_code q))
           (Db.crew_qualification (Session.pending s))) ->
  SimpleOpt.generate_roster today (Session.pending s) period_start period_end rules
  = Ok (assignments, kpis) ->
  c ∈ ConflictDetector.detect_conflicts isocalendar_year_week year_month title format_1f
        rules_engine
        (Session.committed (Orchestrator.save_assignments_to_duty_tables s assignments))
        audit_start audit_end ->
  ConflictDetector.type c <> "qualification_mismatch".
Proof.
  intros Hflights Hquals Hgen Hc Hty.
  set (db := Session.pending s) in *.
  destruct (generate_roster_ok today db period_start period_end rules) as [tp Hok].
  rewrite Hok in Hgen. injection Hgen as <- _.
  set (assignments := SimpleOpt.assignments
                        (SimpleOpt.run_loop today db period_start period_end rules)) in *.
  destruct (committed_roster_rows s assignments) as (Href & Hnum & Hrows).
  set (final := Session.committed
                  (Orchestrator.save_assignments_to_duty_tables s assignments)) in *.
  destruct Href as (Hcrew & Hqt & _ & _ & _ & Hft).
  destruct (mismatch_cause _ _ _ _ _ _ _ _ _ Hc Hty)
    as (duty & flight & crew & Hrow & Hm & Hcause).
  apply query_duty_periods_elem in Hrow
    as (Hduty & Hflight & _ & Hdc & link & Hlink & Hdl & Hlf).
  pose proof (well_numbered_row _ _ _ Hnum Hduty Hlink Hdl) as Hin.
  rewrite Hrows in Hin.
  apply list_elem_of_In, in_map_iff in Hin as (a & Ha & Hain).
  apply list_elem_of_In, list_elem_of_filter in Hain as [[Hasg _] Hain].
  unfold row_of, entry_row in Ha. injection Ha as Hacid _ _ Hafid.
  destruct (Forall2_elem_of_r _ _ _ _
              (run_loop_entries today db period_start period_end rules) Hain)
    as (f & Hf & Hentry).
  destruct Hentry as [-> | (c0 & _ & -> & Hq & _)]; [done |].
  apply (is_crew_qualified_valid today) in Hq.
  apply query_flights_in_table in Hf as [Hf _].
  cbn in Hacid, Hafid.
  assert (f = flight) as ->.
  { apply (flight_id_unique (Db.flight db)); [done | done | by rewrite Hft in Hflight | congruence]. }
  rewrite Hacid, Hdc in Hq.
  destruct Hq as (q0 & Hq0 & Hq0c & Hq0a & Hq0e).
  rewrite Hqt in Hcause.
  destruct Hcause as [Hnone | (q & e & Hqin & Hqc & Hqa & Hqe & Hlt)].
  - by apply (Hnone q0 Hq0 Hq0c).
  - assert (q = q0) as ->.
    { apply (qualification_key_unique (Db.crew_qualification db)); try done; congruence. }
    rewrite Hqe in Hq0e. lia.
Qed.

Module RoundTripExample.
(** One nine-hour flight: legal for the greedy loop, longer than the
    preferred eight hours of the audit. *)
Definition flight1 : Flight.t :=
  Flight.mk 1 "6E201" 739000 "DEL" "DXB" (Time.at_time 739000 8 0) (Time.at_time 739000 17 0)
    "A320".
Definition db : Db.t :=
  Db.mk [ConflictExample.crew1] [ConflictExample.qual1] [] [] [] [flight1] [] [].
Definition today : Z := 738990.
Definition roster : list Assignment.t * Kpis.t :=
  Eval vm_compute in
    match SimpleOpt.generate_roster today db 739000 739001 RulesEngine.default with
    | Ok r => r
    | Raise _ => ([], Kpis.mk 0 0 0 0 0 0 0 0 0 0)
    end.
Definition committed : Db.t :=
  Session.committed (Orchestrator.save_assignments_to_duty_tables (Session.of_db db) (fst roster)).
(** The one conflict of the audit: the soft rule on long duty hours. *)
Definition conflict : ConflictDetector.Conflict :=
  Eval vm_compute in
    default (ConflictDetector.mkConflict "" 0 "" "" "" [] 0 None None None)
      (head (ConflictExample.detect committed)).
End RoundTripExample.

Lemma committed_greedy_roster_passes_qualification_audit_witness :
  ConflictDetector.type RoundTripExample.conflict <> "qualification_mismatch".
Proof.
  refine (committed_greedy_roster_passes_qualification_audit
            ConflictExample.isocalendar_year_week ConflictExample.year_month
            ConflictExample.title ConflictExample.format_1f HardSoftRulesEngine.default
            RoundTripExample.today (Session.of_db RoundTripExample.db) 739000 739001
            RulesEngine.default (fst RoundTripExample.roster) (snd RoundTripExample.roster)
            739000 739001 RoundTripExample.conflict _ _ _ _).
  - apply (bool_decide_unpack _). vm_compute. exact I.
  - apply (bool_decide_unpack _). vm_compute. exact I.
  - vm_compute. reflexivity.
  - vm_compute. constructor.
Defined.

(** ** optimizer/conflict_detector.py: the overlap audit *)












(** ** optimizer/simple_opt.py: a replacement is found when one exists *)

Lemma simple_qualification_map_current threshold quals :
  qual_map_all (current_row threshold quals)
    (SimpleOpt.build_qualification_map threshold quals).
Proof.
  unfold SimpleOpt.build_qualification_map.
  apply (fold_left_elem_invariant (qual_map_all (current_row threshold quals))).
  - intros m q Hq Hm.
    destruct (CrewQualification.expires_on q) as [e |] eqn:He.
    + destruct (Z.leb_spec threshold e); [| done].
      apply qual_map_all_insert; [| done]. split; [done |]. by rewrite He.
    + apply qual_map_all_insert; [| done]. split; [done |]. by rewrite He.
  - intros cid inner code q Hcid. by rewrite lookup_empty in Hcid.
Qed.

Lemma simple_qualification_map_complete threshold quals : forall m cid code,
  qual_known m cid code
  \/ (exists q, q ∈ quals /\ CrewQualification.crew_id q = cid
                /\ CrewQualification.aircraft_code q = code
                /\ Disruption.expires_none_or_from threshold q = true) ->
  qual_known
    (fold_left (fun m q =>
                  match CrewQualification.expires_on q with
                  | Some e =>
                      if threshold <=? e
                      then <[CrewQualification.crew_id q :=
                               <[CrewQualification.aircraft_code q := q]>
                                 (default ∅ (m !! CrewQualification.crew_id q))]> m
                      else m
                  | None =>
                      <[CrewQualification.crew_id q :=
                          <[CrewQualification.aircraft_code q := q]>
                            (default ∅ (m !! CrewQualification.crew_id q))]> m
                  end)
               quals m) cid code.
Proof.
  induction quals as [| q quals IH]; intros m cid code H; simpl.
  - destruct H as [H | (q & Hq & _)]; [done |]. by apply elem_of_nil in Hq.
  - apply IH. destruct H as [H | (q' & Hq' & Hc & Ha & He)].
    + left. destruct (CrewQualification.expires_on q) as [e |];
        [destruct (threshold <=? e); [| done] |]; apply qual_known_insert; by left.
    + apply elem_of_cons in Hq' as [-> | Hq'].
      * left. unfold Disruption.expires_none_or_from in He.
        destruct (CrewQualification.expires_on q) as [e |];
          [rewrite He |]; apply qual_known_insert; by right.
      * right. by exists q'.
Qed.

Lemma unavailable_crew_map_sound records cid l r :
  SimpleOpt.build_unavailable_crew_map records !! cid = Some l -> r ∈ l ->
  r ∈ records /\ CrewAvailability.crew_id r = cid.
Proof.
  unfold SimpleOpt.build_unavailable_crew_map. revert cid l r.
  apply (fold_left_elem_invariant
           (fun m : gmap Z (list CrewAvailability.t) =>
              forall cid l r, m !! cid = Some l -> r ∈ l ->
                              r ∈ records /\ CrewAvailability.crew_id r = cid)).
  - intros m r0 Hr0 Hm cid l r. cbv zeta.
    destruct (decide (CrewAvailability.crew_id r0 = cid)) as [<- | Hne].
    + rewrite lookup_insert_eq. intros [= <-]. rewrite elem_of_app, list_elem_of_singleton.
      intros [Hr | ->]; [| done].
      destruct (m !! CrewAvailability.crew_id r0) as [old |] eqn:Hold; simpl in Hr.
      * by apply (Hm _ _ _ Hold).
      * by apply elem_of_nil in Hr.
    + rewrite lookup_insert_ne by done. apply Hm.
  - intros cid l r Hl. by rewrite lookup_empty in Hl.
Qed.

Lemma suggest_other_crew_finds crew_id crew flight qual_map unavailable_crew_map pref_map
    other_qualified_crew other :
  other ∈ other_qualified_crew ->
  SimpleOpt.is_crew_qualified_for_flight (Crew.crew_id other) flight qual_map
    (Flight.flight_date flight) = true ->
  SimpleOpt.is_crew_available (Crew.crew_id other) (Flight.flight_date flight)
    unavailable_crew_map = true ->
  exists r,
    Disruption.suggest_other_crew crew_id crew flight qual_map unavailable_crew_map pref_map
      other_qualified_crew = Some r
    /\ Disruption.flight_id r = Flight.flight_id flight.
Proof.
  intros Hin Hq Ha.
  induction other_qualified_crew as [| c rest IH]; [by apply elem_of_nil in Hin |].
  simpl. destruct (_ && _) eqn:Hc; [by eexists |].
  apply elem_of_cons in Hin as [-> | Hin]; [| by apply IH].
  rewrite Hq, Ha in Hc. discriminate.
Qed.

(** X30. No affected flight is left without a suggestion when a
    replacement exists: if another active crew holds a qualification for
    the flight's aircraft type that does not expire before the end of the
    unavailable period, and no approved unavailability of that crew covers
    the flight date, then some crew is suggested for the flight. *)
Theorem replacement_found_when_one_exists now today s crew_id unavailable_from
    unavailable_to rules crew flight other q :
  Disruption.find_crew (Session.pending s) crew_id = Some crew ->
  flight ∈ Disruption.query_qualified_flights (Session.pending s) crew_id unavailable_from
             unavailable_to ->
  other ∈ Db.crew (Session.pending s) ->
  Crew.crew_id other <> crew_id ->
  Crew.status other = "Active" ->
  q ∈ Db.crew_qualification (Session.pending s) ->
  CrewQualification.crew_id q = Crew.crew_id other ->
  CrewQualification.aircraft_code q = Flight.aircraft_code flight ->
  Disruption.expires_none_or_from unavailable_to q = true ->
  no_approved_unavailability (Session.pending s) flight (Crew.crew_id other) ->
  exists r,
    r ∈ Disruption.crew_suggested
          (snd (Disruption.handle_crew_unavailability now today s crew_id unavailable_from
                  unavailable_to rules))
    /\ Disruption.flight_id r = Flight.flight_id flight.
Proof.
  intros Hcrew Hflight Hother Hne Hactive Hq Hqc Hqa Hqe Hfree.
  unfold Disruption.handle_crew_unavailability. rewrite Hcrew.
  set (db := Session.pending
               (SimpleOpt.record_disruption now s None "crew_unavailability" unavailable_from
                  None (Some crew_id) (Some "Crew unavailable") None)).
  change (Disruption.query_qualified_flights (Session.pending s) crew_id unavailable_from
            unavailable_to)
    with (Disruption.query_qualified_flights db crew_id unavailable_from unavailable_to)
    in Hflight.
  remember (Disruption.query_qualified_flights db crew_id unavailable_from unavailable_to)
    as qualified_flights eqn:Hqf.
  destruct qualified_flights as [| f0 rest]; [by apply elem_of_nil in Hflight |].
  cbn [snd Disruption.crew_suggested]. unfold Disruption.unavailability_reassignments.
  set (codes := list_to_set (map Flight.aircraft_code (f0 :: rest)) : gset string).
  set (others := Disruption.query_other_qualified_crew db crew_id codes).
  assert (other ∈ others) as Hin.
  { apply list_elem_of_filter. split; [| exact Hother].
    split; [done |]. split; [done |].
    apply Exists_exists. exists q. split; [exact Hq |]. split; [done |].
    rewrite Hqa. apply elem_of_list_to_set, list_elem_of_In, in_map.
    by apply list_elem_of_In. }
  assert (Crew.crew_id other ∈ map Crew.crew_id others) as Hid.
  { by apply list_elem_of_In, in_map, list_elem_of_In. }
  pose proof Hflight as Hdates. rewrite Hqf in Hdates.
  apply list_elem_of_filter in Hdates as ((Hfrom & Hto & _) & _).
  set (quals := Disruption.query_qualifications db (map Crew.crew_id others)).
  assert (SimpleOpt.is_crew_qualified_for_flight (Crew.crew_id other) flight
            (SimpleOpt.build_qualification_map unavailable_to quals)
            (Flight.flight_date flight) = true) as Hqual.
  { assert (q ∈ quals) as Hqin.
    { apply list_elem_of_filter. split; [by rewrite Hqc | exact Hq]. }
    destruct (simple_qualification_map_complete unavailable_to quals ∅ (Crew.crew_id other)
                (Flight.aircraft_code flight)) as [q' Hq'].
    { right. by exists q. }
    fold (SimpleOpt.build_qualification_map unavailable_to quals) in Hq'.
    unfold SimpleOpt.is_crew_qualified_for_flight. rewrite Hq'.
    destruct (SimpleOpt.build_qualification_map unavailable_to quals !! Crew.crew_id other)
      as [inner |] eqn:Hinner; simpl in Hq'; [| by rewrite lookup_empty in Hq'].
    destruct (simple_qualification_map_current unavailable_to quals _ _ _ _ Hinner Hq')
      as ((_ & Hcur) & _).
    destruct (CrewQualification.expires_on q') as [e |]; [| done].
    destruct (Z.ltb_spec e (Flight.flight_date flight)); [lia | done]. }
  set (records := Disruption.query_unavailable_crew db (map Crew.crew_id others)
                    unavailable_from unavailable_to).
  assert (SimpleOpt.is_crew_available (Crew.crew_id other) (Flight.flight_date flight)
            (SimpleOpt.build_unavailable_crew_map records) = true) as Havail.
  { unfold SimpleOpt.is_crew_available.
    destruct (SimpleOpt.build_unavailable_crew_map records !! Crew.crew_id other)
      as [l |] eqn:Hl; [| done].
    apply negb_true_iff, not_true_is_false. intros Hex.
    apply existsb_exists in Hex as (r & Hr & Hcov). apply list_elem_of_In in Hr.
    destruct (unavailable_crew_map_sound _ _ _ _ Hl Hr) as [Hrin Hrc].
    apply list_elem_of_filter in Hrin as ((_ & _ & _ & Happ) & Hrin).
    unfold SimpleOpt.covers in Hcov. apply andb_prop in Hcov as [H1 H2].
    apply (Hfree r Hrin Hrc Happ). split; lia. }
  destruct (suggest_other_crew_finds crew_id crew flight
              (SimpleOpt.build_qualification_map unavailable_to quals)
              (SimpleOpt.build_unavailable_crew_map records)
              (Disruption.build_pref_map
                 (Disruption.query_preferences db (map Crew.crew_id others) today))
              others other Hin Hqual Havail) as (r & Hr & Hrid).
  exists r. split; [| done].
  apply list_elem_of_In, in_flat_map. exists flight.
  split; [by apply list_elem_of_In |]. fold codes. fold others. fold quals. fold records.
  rewrite Hr. by left.
Qed.

Lemma replacement_found_when_one_exists_witness :
  exists r,
    r ∈ Disruption.crew_suggested
          (snd (Disruption.handle_crew_unavailability CancellationExample.now
                  CancellationExample.today (Session.of_db CancellationExample.db) 1 739000
                  739001 RulesEngine.default))
    /\ Disruption.flight_id r = 2.
Proof.
  refine (replacement_found_when_one_exists CancellationExample.now CancellationExample.today
            (Session.of_db CancellationExample.db) 1 739000 739001 RulesEngine.default
            CancellationExample.crew1 CancellationExample.flight2 CancellationExample.crew2
            CancellationExample.qual2 _ _ _ _ _ _ _ _ _ _).
  - reflexivity.
  - vm_compute. repeat constructor.
  - vm_compute. repeat constructor.
  - discriminate.
  - reflexivity.
  - vm_compute. repeat constructor.
  - reflexivity.
  - reflexivity.
  - reflexivity.
  - intros r Hr. vm_compute in Hr. by apply elem_of_nil in Hr.
Defined.
